(** * movie_income.py: ranking ingestion, normalisation, export and charts

    A shallow embedding of [src/movie_income.py].  The script is an
    orchestration of [requests], [pandas] and [matplotlib] calls; the
    embedding keeps the script's own control flow and data flow and gives
    the library calls the following meaning:

    - Python values that travel through the script (the decoded JSON body,
      the cells of a CSV snapshot) are the inductive [pyval];
    - a Python [float] is a binary64 number, Rocq's primitive [float];
      [float(x)] is [Py.py_float], whose string case is an executable
      parser of Python's float grammar with correct rounding;
    - a [pandas.Timestamp] is its integer count of nanoseconds since the
      Unix epoch together with its timezone, if it has one; the calendar
      year is computed from the two;
    - [pd.DataFrame] on a list of rows gives every column one dtype, which
      changes the cells an integer or a missing value is held as;
      [GroupBy.sum] is pandas' compensated summation;
    - exceptions are an error monad ([result]); the files and console
      lines a run produces are a trace of [effect]s;
    - whatever the outside world decides (does the snapshot exist, what
      does the service answer, which strings [pd.to_datetime] accepts, does
      a serializer or the drawing library raise on this content) is a field
      of the record [Env], so that the theorems hold for every behaviour of
      those collaborators. *)

From Stdlib Require Import ZArith List String Ascii Bool Lia Floats.
From Stdlib Require Import Sorted Permutation.
Import ListNotations.

#[local] Set Warnings "-register-all".
Local Open Scope string_scope.
Local Open Scope Z_scope.
Local Open Scope list_scope.

(** ** Exceptions and the error monad *)

(** The [ValueError]s a run can meet are told apart by their message: the
    script's own [ValueError("API返回空数据集")], the one [float(str)]
    raises, the two [Axes.pie] raises (a negative wedge; no wedge of a
    positive size), and the one [pd.to_datetime] raises on a column that
    mixes timezones. *)
Inductive value_error : Type :=
| EmptyDataset
| NotAFloat (s : string)
| NegativeWedge
| ZeroWedges
| MixedTimezones.

Inductive exn : Type :=
| RequestError
| IOError
| AttributeError
| TypeError
| OverflowError
| ValueError (why : value_error)
| KeyError (missing : list string)
| OtherError (tag : string).

Inductive result (A : Type) : Type :=
| Ok (a : A)
| Raise (e : exn).
Arguments Ok {A} a.
Arguments Raise {A} e.

Definition rbind {A B} (m : result A) (k : A -> result B) : result B :=
  match m with
  | Ok a => k a
  | Raise e => Raise e
  end.

Declare Scope result_scope.
Delimit Scope result_scope with result.
Notation "x <- m ;; k" := (rbind m (fun x => k))
  (at level 61, m at next level, right associativity) : result_scope.

(** A list comprehension [[f(x) for x in xs]]: left to right, the first
    exception ends it. *)
Fixpoint mapM {A B} (f : A -> result B) (xs : list A) : result (list B) :=
  match xs with
  | [] => Ok []
  | x :: xs' =>
      (y <- f x ;; ys <- mapM f xs' ;; Ok (y :: ys))%result
  end.

(** ** Python values *)

Module Py.

(** The objects a decoded JSON body and the cells of a snapshot are made
    of.  A dict is the list of its items, in order; a key occurs once, and
    [lookup] takes the first item of a key. *)
Inductive pyval : Type :=
| PNone
| PBool (b : bool)
| PInt (z : Z)
| PFloat (f : float)
| PStr (s : string)
| PList (items : list pyval)
| PDict (entries : list (string * pyval)).

(** Truth value of an object, as [or] tests it. *)
Definition truthy (v : pyval) : bool :=
  match v with
  | PNone => false
  | PBool b => b
  | PInt z => negb (z =? 0)
  | PFloat f => negb (PrimFloat.eqb f 0)
  | PStr s => negb (String.eqb s "")
  | PList items => match items with [] => false | _ => true end
  | PDict entries => match entries with [] => false | _ => true end
  end.

(** [a or b] *)
Definition py_or (a b : pyval) : pyval := if truthy a then a else b.

Fixpoint lookup {V} (k : string) (entries : list (string * V)) : option V :=
  match entries with
  | [] => None
  | (k', v) :: rest => if String.eqb k k' then Some v else lookup k rest
  end.

(** [obj.get(k, default)]: only a dict has the method. *)
Definition py_get (obj : pyval) (k : string) (default : pyval) : result pyval :=
  match obj with
  | PDict entries =>
      Ok (match lookup k entries with Some v => v | None => default end)
  | _ => Raise AttributeError
  end.

(** [for x in obj]: a list yields its items, a dict its keys, a string its
    characters (here: its bytes, each as a one-byte string); anything else
    is not iterable. *)
Definition py_iter (obj : pyval) : result (list pyval) :=
  match obj with
  | PList items => Ok items
  | PDict entries => Ok (map (fun e => PStr (fst e)) entries)
  | PStr s => Ok (map (fun c => PStr (String c EmptyString)) (list_ascii_of_string s))
  | _ => Raise TypeError
  end.

(** *** [float(x)] *)

(** The integer [m * 2^e] rounded to the nearest binary64, ties to even. *)
Definition round_binary64 (m e : Z) (negative_zero : bool) : float :=
  SF2Prim (binary_normalize prec emax m e negative_zero).

Definition float_of_Z (z : Z) : float := round_binary64 z 0 false.

(** The decimal [m * 10^e] (with [m >= 0]) rounded to the nearest binary64.
    For a negative exponent the quotient is computed with 64 extra bits and
    a sticky bit, so that the single rounding of [round_binary64] is the
    correct one.  Exponents far outside the binary64 range are cut short
    before any power is computed. *)
Definition float_of_decimal (negative : bool) (m e : Z) : float :=
  let signed (x : Z) := if negative then - x else x in
  if m =? 0 then round_binary64 0 0 negative
  else if 400 <? e then (if negative then neg_infinity else infinity)
  else if e + Z.log2 m + 1 <? -400 then round_binary64 0 0 negative
  else if 0 <=? e then round_binary64 (signed (m * 10 ^ e)) 0 negative
  else
    let d := 10 ^ (- e) in
    let k := Z.log2_up d + 64 in
    let n := m * 2 ^ k in
    let q := n / d in
    let sticky := if n mod d =? 0 then 0 else 1 in
    round_binary64 (signed (2 * q + sticky)) (- (k + 1)) negative.

Definition code (c : ascii) : Z := Z.of_N (N_of_ascii c).

Definition is_space (c : ascii) : bool :=
  let n := code c in (n =? 32) || ((9 <=? n) && (n <=? 13)).

Definition digit_of (c : ascii) : option Z :=
  let n := code c in
  if (48 <=? n) && (n <=? 57) then Some (n - 48) else None.

Definition lower (c : ascii) : ascii :=
  let n := code c in
  if (65 <=? n) && (n <=? 90) then ascii_of_N (Z.to_N (n + 32)) else c.

Fixpoint drop_spaces (l : list ascii) : list ascii :=
  match l with
  | c :: l' => if is_space c then drop_spaces l' else l
  | [] => []
  end.

Definition strip (l : list ascii) : list ascii :=
  rev (drop_spaces (rev (drop_spaces l))).

(** [digitpart ::= digit (["_"] digit)*]: the digits read so far are the
    number [acc], [cnt] counts them; the unread rest is returned. *)
Fixpoint digitpart_tail (acc cnt : Z) (l : list ascii) : Z * Z * list ascii :=
  match l with
  | c :: l' =>
      match digit_of c with
      | Some d => digitpart_tail (10 * acc + d) (cnt + 1) l'
      | None =>
          if Ascii.eqb c "_" then
            match l' with
            | c2 :: l'' =>
                match digit_of c2 with
                | Some d => digitpart_tail (10 * acc + d) (cnt + 1) l''
                | None => (acc, cnt, l)
                end
            | [] => (acc, cnt, l)
            end
          else (acc, cnt, l)
      end
  | [] => (acc, cnt, l)
  end.

Definition digitpart (acc : Z) (l : list ascii) : option (Z * Z * list ascii) :=
  match l with
  | c :: l' =>
      match digit_of c with
      | Some d => Some (digitpart_tail (10 * acc + d) 1 l')
      | None => None
      end
  | [] => None
  end.

Definition take_sign (l : list ascii) : bool * list ascii :=
  match l with
  | c :: l' =>
      if Ascii.eqb c "-" then (true, l')
      else if Ascii.eqb c "+" then (false, l')
      else (false, l)
  | [] => (false, l)
  end.

(** [number ::= [digitpart] "." digitpart | digitpart ["."]]: the mantissa
    as an integer and the number of digits after the point. *)
Definition number (l : list ascii) : option (Z * Z * list ascii) :=
  match digitpart 0 l with
  | Some (ip, _, rest) =>
      match rest with
      | c :: rest' =>
          if Ascii.eqb c "." then
            match digitpart ip rest' with
            | Some (m, nfrac, rest'') => Some (m, nfrac, rest'')
            | None => Some (ip, 0, rest')
            end
          else Some (ip, 0, rest)
      | [] => Some (ip, 0, rest)
      end
  | None =>
      match l with
      | c :: rest' =>
          if Ascii.eqb c "." then digitpart 0 rest' else None
      | [] => None
      end
  end.

(** [exponent ::= ("e" | "E") [sign] digitpart]; absent when the next
    character is not an [e]. *)
Definition exponent (l : list ascii) : option (Z * list ascii) :=
  match l with
  | c :: l' =>
      if Ascii.eqb (lower c) "e" then
        let '(neg, l'') := take_sign l' in
        match digitpart 0 l'' with
        | Some (x, _, rest) => Some (if neg then - x else x, rest)
        | None => None
        end
      else Some (0, l)
  | [] => Some (0, l)
  end.

Definition float_of_chars (l : list ascii) : option float :=
  let '(neg, body) := take_sign (strip l) in
  let word := string_of_list_ascii (map lower body) in
  if String.eqb word "inf" || String.eqb word "infinity"
  then Some (if neg then neg_infinity else infinity)
  else if String.eqb word "nan" then Some nan
  else
    match number body with
    | Some (m, nfrac, rest) =>
        match exponent rest with
        | Some (x, []) => Some (float_of_decimal neg m (x - nfrac))
        | _ => None
        end
    | None => None
    end.

(** The code points of a string, which holds them as UTF-8; [None] when
    the bytes are not the encoding of code points. *)
Definition continuation (c : ascii) : option Z :=
  let n := code c in
  if (128 <=? n) && (n <? 192) then Some (n - 128) else None.

Fixpoint utf8_decode (l : list ascii) : option (list Z) :=
  match l with
  | [] => Some []
  | b :: l1 =>
      let n := code b in
      if n <? 128 then option_map (cons n) (utf8_decode l1)
      else
        match l1 with
        | c1 :: l2 =>
            match continuation c1 with
            | Some x1 =>
                if (194 <=? n) && (n <? 224)
                then option_map (cons ((n - 192) * 64 + x1)) (utf8_decode l2)
                else
                  match l2 with
                  | c2 :: l3 =>
                      match continuation c2 with
                      | Some x2 =>
                          if (224 <=? n) && (n <? 240) then
                            let cp := ((n - 224) * 64 + x1) * 64 + x2 in
                            if 2048 <=? cp
                            then option_map (cons cp) (utf8_decode l3)
                            else None
                          else
                            match l3 with
                            | c3 :: l4 =>
                                match continuation c3 with
                                | Some x3 =>
                                    let cp :=
                                      (((n - 240) * 64 + x1) * 64 + x2) * 64 + x3 in
                                    if (240 <=? n) && (65536 <=? cp) && (cp <? 1114112)
                                    then option_map (cons cp) (utf8_decode l4)
                                    else None
                                | None => None
                                end
                            | [] => None
                            end
                      | None => None
                      end
                  | [] => None
                  end
            | None => None
            end
        | [] => None
        end
  end.

(** The blanks beyond ASCII: the characters [str.isspace] accepts. *)
Definition unicode_space (cp : Z) : bool :=
  existsb (Z.eqb cp) [133; 160; 5760; 8232; 8233; 8239; 8287; 12288]
  || ((8192 <=? cp) && (cp <=? 8202)).

(** The decimal digits of Unicode come in runs of ten, 0 to 9: the zero
    of every run (Unicode 14.0, the database of CPython 3.11; later
    versions add runs). *)
Definition decimal_zeros : list Z :=
  [48; 1632; 1776; 1984; 2406; 2534; 2662; 2790; 2918; 3046; 3174; 3302;
   3430; 3558; 3664; 3792; 3872; 4160; 4240; 6112; 6160; 6470; 6608; 6784;
   6800; 6992; 7088; 7232; 7248; 42528; 43216; 43264; 43472; 43504; 43600;
   44016; 65296; 66720; 68912; 69734; 69872; 69942; 70096; 70384; 70736;
   70864; 71248; 71360; 71472; 71904; 72016; 72784; 73040; 73120; 92768;
   92864; 93008; 120782; 120792; 120802; 120812; 120822; 123200; 123632;
   125264; 130032].

Definition unicode_decimal (cp : Z) : option Z :=
  option_map (fun zero => cp - zero)
             (find (fun zero => (zero <=? cp) && (cp <? zero + 10)) decimal_zeros).

(** What [float] makes of the characters of a string before it reads
    them: a character below 127 is kept, a blank becomes a space, a
    decimal digit the ASCII digit of its value; any other character makes
    the string unreadable. *)
Definition to_ascii (cp : Z) : option ascii :=
  if cp <? 127 then Some (ascii_of_N (Z.to_N cp))
  else if unicode_space cp then Some (ascii_of_N 32)
  else option_map (fun d => ascii_of_N (Z.to_N (48 + d))) (unicode_decimal cp).

Fixpoint transform (cps : list Z) : option (list ascii) :=
  match cps with
  | [] => Some []
  | cp :: cps' =>
      match to_ascii cp, transform cps' with
      | Some c, Some l => Some (c :: l)
      | _, _ => None
      end
  end.

(** [float(s)] for a string: [None] stands for the [ValueError]. *)
Definition float_of_string (s : string) : option float :=
  match utf8_decode (list_ascii_of_string s) with
  | Some cps =>
      match transform cps with
      | Some l => float_of_chars l
      | None => None
      end
  | None => None
  end.

(** [float(x)] *)
Definition py_float (v : pyval) : result float :=
  match v with
  | PNone => Raise TypeError
  | PBool b => Ok (if b then 1%float else 0%float)
  | PInt z =>
      let f := float_of_Z z in
      if is_infinity f then Raise OverflowError else Ok f
  | PFloat f => Ok f
  | PStr s =>
      match float_of_string s with
      | Some f => Ok f
      | None => Raise (ValueError (NotAFloat s))
      end
  | PList _ | PDict _ => Raise TypeError
  end.

End Py.
Export Py.

(** ** Timestamps *)

(** A [pandas.Timestamp] is an instant, counted in nanoseconds since
    1970-01-01 (UTC; for a timezone-naive timestamp, since that day on its
    own clock), and a timezone, here a fixed offset from UTC in seconds,
    or none; [NaT] is [None] in an [option].  [year] is the proleptic
    Gregorian year of the day the instant falls in on the local clock. *)
Module Timestamp.

Record t : Type := {
  instant : Z;
  utcoffset : option Z
}.

Definition ns_per_day : Z := 86400000000000.

Definition civil_year (days : Z) : Z :=
  let z := days + 719468 in
  let era := z / 146097 in
  let doe := z - era * 146097 in
  let yoe := (doe - doe / 1460 + doe / 36524 - doe / 146096) / 365 in
  let doy := doe - (365 * yoe + yoe / 4 - yoe / 100) in
  let mp := (5 * doy + 2) / 153 in
  let m := if mp <? 10 then mp + 3 else mp - 9 in
  yoe + era * 400 + (if m <=? 2 then 1 else 0).

Definition days_from_civil (y m d : Z) : Z :=
  let y' := if m <=? 2 then y - 1 else y in
  let era := y' / 400 in
  let yoe := y' - era * 400 in
  let doy := (153 * (if 2 <? m then m - 3 else m + 9) + 2) / 5 + d - 1 in
  let doe := yoe * 365 + yoe / 4 - yoe / 100 + doy in
  era * 146097 + doe - 719468.

(** The nanoseconds since 1970-01-01 on the local clock. *)
Definition wall_clock (ts : t) : Z :=
  match utcoffset ts with
  | Some seconds => instant ts + seconds * 1000000000
  | None => instant ts
  end.

Definition year (ts : t) : Z := civil_year (wall_clock ts / ns_per_day).

(** Midnight of a day, timezone-naive. *)
Definition of_date (y m d : Z) : t :=
  {| instant := days_from_civil y m d * ns_per_day; utcoffset := None |}.

(** Two timestamps of the same timezone, or both naive. *)
Definition same_zone (a b : t) : bool :=
  match utcoffset a, utcoffset b with
  | Some x, Some y => x =? y
  | None, None => true
  | _, _ => false
  end.

End Timestamp.

(** ** Column names *)

Definition col_rank : string := "排名".
Definition col_name : string := "电影名称".
Definition col_release : string := "上映时间".
Definition col_box_office : string := "总票房(万元)".
Definition col_price : string := "平均票价(元)".
Definition col_audience : string := "平均场次观众数".
Definition col_parsed : string := "上映日期解析".
Definition col_year : string := "年份".

(** ** The data frame between ingestion and normalisation *)

(** One row of the frame [fetch_online] and [read_local] return: the six
    columns in the order the keys of [to_row] are written.  The first three
    hold whatever object the source had; the last three are floats. *)
Record Row : Type := {
  row_rank : pyval;              (* 排名 *)
  row_name : pyval;              (* 电影名称 *)
  row_release : pyval;           (* 上映时间 *)
  row_box_office : float;        (* 总票房(万元) *)
  row_price : float;             (* 平均票价(元) *)
  row_audience : float           (* 平均场次观众数 *)
}.

(** ** Remote ingestion: [fetch_online] *)

(** [float(item.get(k, 0) or 0)] *)
Definition numeric_field (item : pyval) (k : string) : result float :=
  (v <- py_get item k (PInt 0) ;;
   py_float (py_or v (PInt 0)))%result.

Definition to_row (item : pyval) : result Row :=
  (r <- py_get item "Irank" PNone ;;
   n <- py_get item "MovieName" PNone ;;
   t <- py_get item "ReleaseTime" PNone ;;
   b <- numeric_field item "BoxOffice" ;;
   p <- numeric_field item "AvgBoxOffice" ;;
   a <- numeric_field item "AvgAudienceCount" ;;
   Ok {| row_rank := r; row_name := n; row_release := t;
         row_box_office := b; row_price := p; row_audience := a |})%result.

(** [(resp.json() or {}).get('data', {}).get('table0', []) or []] *)
Definition extract_table (body : pyval) : result pyval :=
  (data <- py_get (py_or body (PDict [])) "data" (PDict []) ;;
   table0 <- py_get data "table0" (PList []) ;;
   Ok (py_or table0 (PList [])))%result.

(** *** The frame of a list of rows: [pd.DataFrame] *)

(** [pd.DataFrame] gives each column one dtype, inferred from its cells,
    and holds the cells as that dtype does. *)
Inductive dtype : Type :=
| Int64
| Float64
| Bool
| Str
| Object.

(** Null, as [pd.isna] tests a cell. *)
Definition is_null (v : pyval) : bool :=
  match v with
  | PNone => true
  | PFloat f => is_nan f
  | _ => false
  end.

Definition int64 (z : Z) : bool := (- 2 ^ 63 <=? z) && (z <? 2 ^ 63).

(** A cell that makes its column an [object] column whatever the others
    are: a list, a dict, an integer that is no int64. *)
Definition is_object (v : pyval) : bool :=
  match v with
  | PList _ | PDict _ => true
  | PInt z => negb (int64 z)
  | _ => false
  end.

Definition is_str (v : pyval) : bool :=
  match v with PStr _ => true | _ => false end.

Definition is_bool (v : pyval) : bool :=
  match v with PBool _ => true | _ => false end.

Definition is_float (v : pyval) : bool :=
  match v with PFloat _ => true | _ => false end.

Definition is_int (v : pyval) : bool :=
  match v with PInt _ => true | _ => false end.

Definition is_none (v : pyval) : bool :=
  match v with PNone => true | _ => false end.

(** Strings, with or without missing values, are a column of strings;
    booleans alone are a [bool] column; integers alone an [int64] column;
    integers, floats and [None], with a float or with both an integer and
    a [None] among them, a [float64] column; everything else, a column of
    [None] only included, stays a column of objects. *)
Definition infer_dtype (cells : list pyval) : dtype :=
  if existsb is_object cells then Object
  else if existsb is_str cells then
    if forallb (fun v => is_str v || is_null v) cells then Str else Object
  else if existsb is_bool cells then
    if forallb is_bool cells then Bool else Object
  else if existsb is_float cells then Float64
  else if existsb is_int cells then
    if existsb is_none cells then Float64 else Int64
  else Object.

(** A cell as a column of dtype [d] holds it.  A [float64] column holds
    an integer as the nearest float and [None] as NaN.  A column of
    strings holds [None] as NaN when pandas infers the [str] dtype
    ([infer_string], the default from pandas 3 on), and as it is when the
    column is a column of objects (pandas 2). *)
Definition astype (infer_string : bool) (d : dtype) (v : pyval) : pyval :=
  match d, v with
  | Float64, PInt z => PFloat (float_of_Z z)
  | Float64, PNone => PFloat nan
  | Str, PNone => if infer_string then PFloat nan else PNone
  | _, _ => v
  end.

(** The three numeric columns of [to_row]'s dicts hold floats only and
    are [float64] columns as they are. *)
Definition DataFrame (infer_string : bool) (rows : list Row) : list Row :=
  let rank_dtype := infer_dtype (map row_rank rows) in
  let name_dtype := infer_dtype (map row_name rows) in
  let release_dtype := infer_dtype (map row_release rows) in
  map (fun r =>
         {| row_rank := astype infer_string rank_dtype (row_rank r);
            row_name := astype infer_string name_dtype (row_name r);
            row_release := astype infer_string release_dtype (row_release r);
            row_box_office := row_box_office r;
            row_price := row_price r;
            row_audience := row_audience r |}) rows.

(** [response] is what [requests.post], [raise_for_status] and
    [resp.json()] leave: the decoded body, or the exception one of them
    raised.  A frame built from at least one row has six columns and is
    not [empty]; the frame built from no row is. *)
Definition fetch_online (infer_string : bool) (response : result pyval)
  : result (list Row) :=
  (body <- response ;;
   table <- extract_table body ;;
   items <- py_iter table ;;
   rows <- mapM to_row items ;;
   match DataFrame infer_string rows with
   | [] => Raise (ValueError EmptyDataset)
   | df => Ok df
   end)%result.

(** ** Tables read from a snapshot *)

(** What [pd.read_csv] returns: the columns in file order, each with its
    cells.  [read_csv] makes the header names unique, so a name stands for
    one column; a missing cell is [PFloat nan]. *)
Definition Table : Type := list (string * list pyval).

Definition columns (df : Table) : list string := map fst df.

(** [c in df.columns] *)
Definition has_column (df : Table) (c : string) : bool :=
  existsb (String.eqb c) (columns df).

(** [df[c]] *)
Definition column (df : Table) (c : string) : option (list pyval) :=
  lookup c df.

(** [df[c] = v]: replaces the column in place, or appends a new last
    column. *)
Definition assign (df : Table) (c : string) (v : list pyval) : Table :=
  if has_column df c
  then map (fun e => if String.eqb c (fst e) then (fst e, v) else e) df
  else df ++ [(c, v)].

(** [df[cs]] for a list of names: the named columns in the order asked
    for; a [KeyError] naming the absent ones otherwise. *)
Definition select (df : Table) (cs : list string) : result Table :=
  match filter (fun c => negb (has_column df c)) cs with
  | [] =>
      Ok (map (fun c => (c, match column df c with
                            | Some v => v
                            | None => []
                            end)) cs)
  | missing => Raise (KeyError missing)
  end.

Definition mapper : list (string * string) :=
  [ ("Rank", col_rank);
    ("MovieName", col_name);
    ("ReleaseDate", col_release);
    ("TotalBoxOffice(10k RMB)", col_box_office);
    ("AvgTicketPrice(RMB)", col_price);
    ("AvgAudienceCount", col_audience) ].

Definition expected : list string :=
  [col_rank; col_name; col_release; col_box_office; col_price; col_audience].

(** One turn of [for en, cn in mapper.items()]. *)
Definition alias_step (df : Table) (alias : string * string) : Table :=
  let '(en, cn) := alias in
  if has_column df en && negb (has_column df cn) then
    match column df en with
    | Some v => assign df cn v
    | None => df
    end
  else df.

(** [read_local], given what [pd.read_csv(csv_path)] returned or raised. *)
Definition read_local (csv : result Table) : result Table :=
  (df <- csv ;;
   select (fold_left alias_step mapper df) expected)%result.

(** The rows of a six-column frame.  The three numeric columns are read
    as [float64]: a float cell as it is, an integer cell when a binary64
    holds it exactly.  A numeric column with any other cell (pandas gives
    it the dtype [object]) and columns of unequal length are outside what
    the typed rows can express: [None].  A snapshot without data lines
    gives the frame without rows. *)
Definition as_float64 (v : pyval) : option float :=
  match v with
  | PFloat f => Some f
  | PInt z => if Z.abs z <=? 2 ^ 53 then Some (float_of_Z z) else None
  | _ => None
  end.

Fixpoint zip_rows (r n t b p a : list pyval) : option (list Row) :=
  match r, n, t, b, p, a with
  | [], [], [], [], [], [] => Some []
  | r0 :: r', n0 :: n', t0 :: t', b0 :: b', p0 :: p', a0 :: a' =>
      match as_float64 b0, as_float64 p0, as_float64 a0, zip_rows r' n' t' b' p' a' with
      | Some fb, Some fp, Some fa, Some rows =>
          Some ({| row_rank := r0; row_name := n0; row_release := t0;
                   row_box_office := fb; row_price := fp; row_audience := fa |}
                :: rows)
      | _, _, _, _ => None
      end
  | _, _, _, _, _, _ => None
  end.

Definition rows_of_table (df : Table) : option (list Row) :=
  match column df col_rank, column df col_name, column df col_release,
        column df col_box_office, column df col_price, column df col_audience with
  | Some r, Some n, Some t, Some b, Some p, Some a => zip_rows r n t b p a
  | _, _, _, _, _, _ => None
  end.

(** ** The normalised frame *)

(** One row after [preprocess]: the six columns above followed by the two
    it adds, 上映日期解析 and 年份, in that order. *)
Record MovieRecord : Type := {
  rank : pyval;
  name : pyval;
  release_time_raw : pyval;
  box_office : float;
  avg_ticket_price : float;
  avg_audience_per_showing : float;
  release_date : option Timestamp.t;
  year : option Z
}.

(** ** Stable sorting *)

Section StableSort.
Context {A : Type}.
Variable leb : A -> A -> bool.

Fixpoint insert (x : A) (l : list A) : list A :=
  match l with
  | [] => [x]
  | y :: l' => if leb x y then x :: l else y :: insert x l'
  end.

Fixpoint sort (l : list A) : list A :=
  match l with
  | [] => []
  | x :: l' => insert x (sort l')
  end.
End StableSort.

(** Ascending order with nulls last, as one sort key of
    [sort_values(na_position='last')]. *)
Definition nulls_last_compare {K : Type} (cmp : K -> K -> comparison)
    (a b : option K) : comparison :=
  match a, b with
  | Some x, Some y => cmp x y
  | Some _, None => Lt
  | None, Some _ => Gt
  | None, None => Eq
  end.

(** The first components decide, the second ones break their ties. *)
Definition lex {A B : Type} (ca : A -> A -> comparison)
    (cb : B -> B -> comparison) (x y : A * B) : comparison :=
  match ca (fst x) (fst y) with
  | Eq => cb (snd x) (snd y)
  | c => c
  end.

(** A number as a pair: -1, 0 or 1 for minus infinity, a finite number
    or plus infinity, then the finite number in units of 2^-1074 (every
    finite binary64 is a multiple of it). *)
Definition units_compare : Z * Z -> Z * Z -> comparison :=
  lex Z.compare Z.compare.

Definition key_compare (k1 k2 : option Z * option (Z * Z)) : comparison :=
  match nulls_last_compare Z.compare (fst k1) (fst k2) with
  | Eq => nulls_last_compare units_compare (snd k1) (snd k2)
  | c => c
  end.

Definition key_leb (k1 k2 : option Z * option (Z * Z)) : bool :=
  match key_compare k1 k2 with
  | Gt => false
  | _ => true
  end.

(** What the sort needs of a comparison. *)
Definition total_order {K : Type} (cmp : K -> K -> comparison) : Prop :=
  (forall a b, cmp a b = Eq <-> a = b) /\
  (forall a b, cmp b a = CompOpp (cmp a b)) /\
  (forall a b c, cmp a b = Lt -> cmp b c = Lt -> cmp a c = Lt).

Definition sf_units (x : spec_float) : option (Z * Z) :=
  match x with
  | S754_zero _ => Some (0, 0)
  | S754_finite s m e =>
      Some (0, if s then - (Zpos m * 2 ^ (e + 1074)) else Zpos m * 2 ^ (e + 1074))
  | S754_infinity s => Some (if s then -1 else 1, 0)
  | S754_nan => None
  end.

Definition float_units (f : float) : option (Z * Z) := sf_units (Prim2SF f).

(** The 排名 cells the model orders: integers and floats, by their value,
    and [None] and NaN, which are a missing rank.  A column with any
    other cell (strings, booleans, containers) is outside the model. *)
Definition rank_index (v : pyval) : option (option (Z * Z)) :=
  match v with
  | PInt z => Some (Some (0, z * 2 ^ 1074))
  | PFloat f => Some (float_units f)
  | PNone => Some None
  | _ => None
  end.

Definition rank_key (r : MovieRecord) : option (Z * Z) :=
  match rank_index (rank r) with
  | Some k => k
  | None => None
  end.

(** The key of [sort_values(["上映日期解析", "排名"])]: the dates of one
    column are ordered by their instants. *)
Definition sort_key (r : MovieRecord) : option Z * option (Z * Z) :=
  (option_map Timestamp.instant (release_date r), rank_key r).

Definition sort_values (df : list MovieRecord) : list MovieRecord :=
  sort (fun a b => key_leb (sort_key a) (sort_key b)) df.

(** ** What a run leaves behind *)

(** The eight files of a run, named by the part of the path that is not
    the timestamp. *)
Inductive artifact : Type :=
| FileCsv           (* movie_income_{ts}.csv *)
| FileJson          (* movie_income_{ts}.json *)
| FileXlsx          (* movie_income_{ts}.xlsx *)
| ChartLine         (* ..._上映日期 vs 票房.png *)
| ChartPie          (* ..._年度票房占比.png *)
| ChartPrice        (* ..._top10平均票价.png *)
| ChartAudience     (* ..._top10平均场次观众数.png *)
| ChartScatter.     (* ..._票价 vs 票房.png *)

(** A cell of an exported table: a cell of the first three columns, a
    float, a parsed date, a year. *)
Inductive cell : Type :=
| CObj (v : pyval)
| CNum (f : float)
| CDate (d : option Timestamp.t)
| CYear (y : option Z).

Record Sheet : Type := { header : list string; body : list (list cell) }.

(** What is handed to matplotlib for one figure. *)
Inductive chart : Type :=
| LineChart (points : list (option Timestamp.t * float))
            (notes : list (pyval * (Timestamp.t * float)))
| PieChart (sizes : list float) (labels : list Z)
| BarChart (names : list pyval) (heights : list float)
| ScatterChart (points : list (float * float))
               (notes : list (pyval * (float * float))).

Inductive content : Type :=
| CsvText (s : Sheet)
| JsonRecords (records : list (list (string * cell)))
| Workbook (sheets : list (string * Sheet))
| Png (c : chart).

Inductive message : Type :=
| MsgError (e : exn)            (* [错误] 无法获取数据: {e} *)
| MsgHint                       (* 提示: ... main('你的文件.csv') *)
| MsgExported (out : list (string * artifact))
| MsgCharts (charts : list artifact).

Inductive effect : Type :=
| MakeDirs
| WriteFile (a : artifact) (c : content)
| Print (m : message).

(** ** The collaborators *)

Record Env : Type := {
  (** [os.path.exists] *)
  path_exists : string -> bool;
  (** [pd.read_csv]: the table, or the exception it raises *)
  read_csv : string -> result Table;
  (** [requests.post(...)], [raise_for_status()], [resp.json()]: the
      decoded body, or the exception one of the three raises *)
  post : result pyval;
  (** [pd.to_datetime] on one cell: a timestamp, [NaT], or an exception *)
  to_datetime : pyval -> result (option Timestamp.t);
  (** whether the installed pandas infers the [str] dtype for a column of
      strings, as it does from version 3 on *)
  infer_string : bool;
  (** the exception, if any, that serialising or drawing this content
      raises ([to_csv], [to_json], the [ExcelWriter] block, the pyplot
      calls of one chart up to [savefig]); when there is none the file is
      written in full, when there is one the file is not completed *)
  emit_raises : artifact -> content -> option exn
}.

(** ** Effects: a trace of what was done, and an exception or a value *)

Definition M (A : Type) : Type := list effect * result A.

Definition ret {A} (a : A) : M A := ([], Ok a).

Definition bind {A B} (m : M A) (k : A -> M B) : M B :=
  match m with
  | (t, Ok a) => let '(t', r) := k a in (t ++ t', r)
  | (t, Raise e) => (t, Raise e)
  end.

Definition tell (e : effect) : M unit := ([e], Ok tt).

Definition lift {A} (r : result A) : M A := ([], r).

Declare Scope run_scope.
Delimit Scope run_scope with run.
Notation "x <- m ;; k" := (bind m (fun x => k))
  (at level 61, m at next level, right associativity) : run_scope.

Definition emit (env : Env) (a : artifact) (c : content) : M artifact :=
  match emit_raises env a c with
  | Some e => ([], Raise e)
  | None => ([WriteFile a c], Ok a)
  end.

(** The files written along a trace, in the order of writing. *)
Fixpoint written (t : list effect) : list artifact :=
  match t with
  | [] => []
  | WriteFile a _ :: t' => a :: written t'
  | _ :: t' => written t'
  end.

(** ** Normalisation: [preprocess] *)

Definition _parse_date (env : Env) (s : pyval) : option Timestamp.t :=
  match to_datetime env s with
  | Ok d => d
  | Raise _ => None
  end.

(** The two column assignments of [preprocess], row by row. *)
Definition with_dates (env : Env) (r : Row) : MovieRecord :=
  let parsed := _parse_date env (row_release r) in
  {| rank := row_rank r;
     name := row_name r;
     release_time_raw := row_release r;
     box_office := row_box_office r;
     avg_ticket_price := row_price r;
     avg_audience_per_showing := row_audience r;
     release_date := parsed;
     year := option_map Timestamp.year parsed |}.

Definition sortable (df : list MovieRecord) : bool :=
  forallb (fun r => match rank_index (rank r) with
                    | Some _ => true
                    | None => false
                    end) df.

(** [pd.to_datetime] on the column of parsed dates, the second call of
    [preprocess], which no [try] guards: the column becomes a datetime64
    column when its timestamps are all naive or all of one timezone, and
    the call raises [ValueError] when they are not. *)
Fixpoint one_timezone (dates : list (option Timestamp.t)) : bool :=
  match dates with
  | [] => true
  | None :: rest => one_timezone rest
  | Some d :: rest =>
      forallb (fun x => match x with
                        | Some d' => Timestamp.same_zone d d'
                        | None => true
                        end) rest
  end.

(** The frame, or the exception that leaves [preprocess].  [None]: the
    排名 column is outside the model (see [rank_index]). *)
Definition preprocess (env : Env) (df : list Row)
  : option (result (list MovieRecord)) :=
  let df' := map (with_dates env) df in
  if one_timezone (map release_date df') then
    if sortable df' then Some (Ok (sort_values df')) else None
  else Some (Raise (ValueError MixedTimezones)).

(** ** The yearly aggregate *)

(** [GroupBy.sum] on a float64 column: the values of one group are added
    in row order, NaN skipped, by the compensated (Kahan) summation of
    pandas' [group_sum]: next to the running sum it keeps the rounding
    error of the last addition and takes it off the next value; a
    compensation that is NaN (after an infinite value) is reset to zero.
    Both start from zero. *)
Definition kahan_step (acc : float * float) (val : float) : float * float :=
  if is_nan val then acc
  else
    let y := (val - snd acc)%float in
    let t := (fst acc + y)%float in
    let c := (t - fst acc - y)%float in
    (t, if is_nan c then 0%float else c).

Definition group_sum (values : list float) : float :=
  fst (fold_left kahan_step values (0%float, 0%float)).

(** Adds one row to the groups, which are kept in ascending key order;
    the row goes in front of the rows already in its group. *)
Fixpoint group_insert (y : Z) (v : float) (groups : list (Z * list float))
  : list (Z * list float) :=
  match groups with
  | [] => [(y, [v])]
  | (y', vs) :: rest =>
      match y ?= y' with
      | Lt => (y, [v]) :: groups
      | Eq => (y', v :: vs) :: rest
      | Gt => (y', vs) :: group_insert y v rest
      end
  end.

(** [df.dropna(subset=["年份"]).groupby("年份")["总票房(万元)"]]: the rows
    are taken last to first, so each group lists its values in row order. *)
Definition groupby_year (df : list MovieRecord) : list (Z * list float) :=
  fold_right (fun r groups =>
                match year r with
                | Some y => group_insert y (box_office r) groups
                | None => groups
                end) [] df.

(** [... .sum().reset_index()], and [... .sum().sort_index()] of the pie
    chart: one row per year, ascending. *)
Definition yearly (df : list MovieRecord) : list (Z * float) :=
  map (fun g => (fst g, group_sum (snd g))) (groupby_year df).

(** ** Export: [export_all] *)

Definition frame_columns : list string :=
  [col_rank; col_name; col_release; col_box_office; col_price; col_audience;
   col_parsed; col_year].

Definition cells (r : MovieRecord) : list cell :=
  [CObj (rank r); CObj (name r); CObj (release_time_raw r);
   CNum (box_office r); CNum (avg_ticket_price r);
   CNum (avg_audience_per_showing r);
   CDate (release_date r); CYear (year r)].

(** The frame as a table without its index ([index=False]). *)
Definition to_sheet (df : list MovieRecord) : Sheet :=
  {| header := frame_columns; body := map cells df |}.

Definition to_csv (df : list MovieRecord) : content := CsvText (to_sheet df).

(** [orient="records"]: one object per row, keyed by column name. *)
Definition to_json (df : list MovieRecord) : content :=
  JsonRecords (map (fun r => combine frame_columns (cells r)) df).

Definition yearly_sheet (df : list MovieRecord) : Sheet :=
  {| header := [col_year; col_box_office];
     body := map (fun g => [CYear (Some (fst g)); CNum (snd g)]) (yearly df) |}.

Definition to_xlsx (df : list MovieRecord) : content :=
  Workbook [("数据", to_sheet df); ("年度汇总", yearly_sheet df)].

Definition export_all (env : Env) (df : list MovieRecord)
  : M (list (string * artifact)) :=
  (c <- emit env FileCsv (to_csv df) ;;
   j <- emit env FileJson (to_json df) ;;
   x <- emit env FileXlsx (to_xlsx df) ;;
   ret [("csv", c); ("json", j); ("xlsx", x)])%run.

(** ** Charts *)

(** [df.nlargest(n, column)] on a numeric column: the rows with the [n]
    largest values, largest first, the earlier row first among equal
    values; rows whose value is NaN come after all others. *)
Definition nlargest {A} (n : nat) (key : A -> float) (df : list A) : list A :=
  let valued := filter (fun r => negb (is_nan (key r))) df in
  let nans := filter (fun r => is_nan (key r)) df in
  firstn n (sort (fun a b => PrimFloat.leb (key b) (key a)) valued ++ nans).

(** [nlargest] refuses a column of dtype [object] with a [TypeError].  The
    numeric columns of a frame with rows are float64 columns; those of the
    frame without rows, which only a snapshot without data lines gives,
    are [object] columns. *)
Definition nlargest_dtype (df : list MovieRecord) : result unit :=
  match df with
  | [] => Raise TypeError
  | _ :: _ => Ok tt
  end.

(** The integer a float is equal to, if any. *)
Definition float_exact_Z (f : float) : option Z :=
  match Prim2SF f with
  | S754_zero _ => Some 0
  | S754_finite s m e =>
      let sign (z : Z) := if s then - z else z in
      if 0 <=? e then Some (sign (Zpos m * 2 ^ e))
      else if Zpos m mod 2 ^ (- e) =? 0 then Some (sign (Zpos m / 2 ^ (- e)))
      else None
  | _ => None
  end.

Definition as_integer (v : pyval) : option Z :=
  match v with
  | PBool b => Some (if b then 1 else 0)
  | PInt z => Some z
  | PFloat f => float_exact_Z f
  | _ => None
  end.

(** Python's [==] between two objects of a decoded body: numbers (bool,
    int, float) by value, NaN equal to nothing; strings by content; lists
    item by item; dicts key by key, whatever the order of their items. *)
Fixpoint py_eq (a b : pyval) : bool :=
  match a, b with
  | PNone, PNone => true
  | PStr s, PStr t => String.eqb s t
  | PList xs, PList ys =>
      (fix items (xs ys : list pyval) : bool :=
         match xs, ys with
         | [], [] => true
         | x :: xs', y :: ys' => py_eq x y && items xs' ys'
         | _, _ => false
         end) xs ys
  | PDict d1, PDict d2 =>
      (List.length d1 =? List.length d2)%nat &&
      (fix entries (d : list (string * pyval)) : bool :=
         match d with
         | [] => true
         | (k, v) :: d' =>
             match lookup k d2 with
             | Some w => py_eq v w && entries d'
             | None => false
             end
         end) d1
  | PFloat f, PFloat g => PrimFloat.eqb f g
  | _, _ =>
      match as_integer a, as_integer b with
      | Some x, Some y => x =? y
      | _, _ => false
      end
  end.

(** Equality of two cells as the hash table of [drop_duplicates] sees it:
    [==], with all NaN cells taken as one value.  A cell that cannot be
    hashed (a list, a dict) is compared all the same: the table gives it
    the hash 0. *)
Definition same_key (a b : pyval) : bool :=
  match a, b with
  | PFloat f, PFloat g => PrimFloat.eqb f g || (is_nan f && is_nan g)
  | _, _ => py_eq a b
  end.

(** The rows of a frame with their index labels. *)
Definition indexed {A} (df : list A) : list (nat * A) :=
  combine (seq 0 (List.length df)) df.

(** A row is a duplicate of an earlier one when it is that row (the same
    objects) or when the two titles are the same key. *)
Definition seen_before (seen : list (nat * pyval)) (row : nat * MovieRecord) : bool :=
  existsb (fun s => (fst s =? fst row)%nat || same_key (snd s) (name (snd row))) seen.

Fixpoint drop_seen (seen : list (nat * pyval)) (df : list (nat * MovieRecord))
  : list (nat * MovieRecord) :=
  match df with
  | [] => []
  | row :: df' =>
      if seen_before seen row then drop_seen seen df'
      else row :: drop_seen ((fst row, name (snd row)) :: seen) df'
  end.

(** [drop_duplicates(subset=["电影名称"])]: the first row of each title is
    kept. *)
Definition drop_duplicates (df : list (nat * MovieRecord)) : list (nat * MovieRecord) :=
  drop_seen [] df.

Definition line_chart (df : list MovieRecord) : chart :=
  LineChart
    (map (fun r => (release_date r, box_office r)) df)
    (flat_map (fun r =>
                 match release_date r with
                 | Some x =>
                     if is_nan (box_office r) then []
                     else [(name r, (x, box_office r))]
                 | None => []
                 end) df).

Definition pie_chart (df : list MovieRecord) : chart :=
  let share := yearly df in
  PieChart (map snd share) (map fst share).

Definition bar_chart (key : MovieRecord -> float) (df : list MovieRecord) : chart :=
  let top := nlargest 10 key df in
  BarChart (map name top) (map key top).

(** The labelled points are the five largest box offices followed by the
    five largest ticket prices, [pd.concat] of the two, without the rows
    whose title was met before. *)
Definition scatter_chart (df : list MovieRecord) : chart :=
  let rows := indexed df in
  let top_box := nlargest 5 (fun row => box_office (snd row)) rows in
  let top_price := nlargest 5 (fun row => avg_ticket_price (snd row)) rows in
  let notable := map snd (drop_duplicates (top_box ++ top_price)) in
  ScatterChart
    (map (fun r => (avg_ticket_price r, box_office r)) df)
    (map (fun r => (name r, (avg_ticket_price r, box_office r))) notable).

Definition chart_line_release_vs_boxoffice (env : Env) (df : list MovieRecord)
  : M artifact :=
  emit env ChartLine (Png (line_chart df)).

Definition chart_pie_share_by_year (env : Env) (df : list MovieRecord)
  : M artifact :=
  emit env ChartPie (Png (pie_chart df)).

Definition chart_bar_top10_by_price (env : Env) (df : list MovieRecord)
  : M artifact :=
  (_ <- lift (nlargest_dtype df) ;;
   emit env ChartPrice (Png (bar_chart avg_ticket_price df)))%run.

Definition chart_bar_top10_by_audience (env : Env) (df : list MovieRecord)
  : M artifact :=
  (_ <- lift (nlargest_dtype df) ;;
   emit env ChartAudience (Png (bar_chart avg_audience_per_showing df)))%run.

Definition chart_scatter_price_vs_boxoffice (env : Env) (df : list MovieRecord)
  : M artifact :=
  (_ <- lift (nlargest_dtype df) ;;
   emit env ChartScatter (Png (scatter_chart df)))%run.

(** The five renderers, in the order [main] calls them. *)
Definition renderers : list (artifact * (Env -> list MovieRecord -> M artifact)) :=
  [ (ChartLine, chart_line_release_vs_boxoffice);
    (ChartPie, chart_pie_share_by_year);
    (ChartPrice, chart_bar_top10_by_price);
    (ChartAudience, chart_bar_top10_by_audience);
    (ChartScatter, chart_scatter_price_vs_boxoffice) ].

(** ** The entry point: [main] *)

(** [local_csv and os.path.exists(local_csv)] *)
Definition use_local (env : Env) (local_csv : option string) : option string :=
  match local_csv with
  | Some p => if negb (String.eqb p "") && path_exists env p then Some p else None
  | None => None
  end.

(** Step 1, the body of the [try]: the rows of the frame, or [None] when
    the snapshot's frame is outside the typed rows. *)
Definition load (env : Env) (local_csv : option string) : result (option (list Row)) :=
  match use_local env local_csv with
  | Some p => (df <- read_local (read_csv env p) ;; Ok (rows_of_table df))%result
  | None => (df <- fetch_online (infer_string env) (post env) ;; Ok (Some df))%result
  end.

(** Steps 3 to 5 and the closing report. *)
Definition produce (env : Env) (df : list MovieRecord) : M unit :=
  (_ <- tell MakeDirs ;;
   out <- export_all env df ;;
   c1 <- chart_line_release_vs_boxoffice env df ;;
   c2 <- chart_pie_share_by_year env df ;;
   c3 <- chart_bar_top10_by_price env df ;;
   c4 <- chart_bar_top10_by_audience env df ;;
   c5 <- chart_scatter_price_vs_boxoffice env df ;;
   _ <- tell (Print (MsgExported out)) ;;
   tell (Print (MsgCharts [c1; c2; c3; c4; c5])))%run.

(** A run: its trace, and [Ok tt] when [main] returns, [Raise e] when an
    exception leaves it.  [None] when the input is outside the model. *)
Definition main (env : Env) (local_csv : option string) : option (M unit) :=
  match load env local_csv with
  | Raise e => Some ([Print (MsgError e); Print MsgHint], Ok tt)
  | Ok None => None
  | Ok (Some df) =>
      match preprocess env df with
      | Some (Ok df') => Some (produce env df')
      | Some (Raise e) => Some ([], Raise e)
      | None => None
      end
  end.

(** ** Stand-ins for the collaborators, for concrete runs *)

(** A stand-in for [pd.to_datetime], right on the runs below: a string
    [YYYY-MM-DD] is the midnight of that day, timezone-naive; the same
    followed by [T00:00:00+hh:mm] is the midnight of that day on a clock
    [hh:mm] ahead of UTC; [None] is [None]; every other cell is refused. *)
Definition two_digits (a b : ascii) : option Z :=
  match digit_of a, digit_of b with
  | Some x, Some y => Some (10 * x + y)
  | _, _ => None
  end.

Definition days_in_month (y m : Z) : Z :=
  if m =? 2 then
    (if ((y mod 4 =? 0) && negb (y mod 100 =? 0)) || (y mod 400 =? 0) then 29 else 28)
  else if (m =? 4) || (m =? 6) || (m =? 9) || (m =? 11) then 30
  else 31.

Definition iso_date (l : list ascii) : option Timestamp.t :=
  match l with
  | [y1; y2; y3; y4; d1; m1; m2; d2; a; b] =>
      match two_digits y1 y2, two_digits y3 y4, two_digits m1 m2, two_digits a b with
      | Some yh, Some yl, Some m, Some d =>
          let y := 100 * yh + yl in
          if Ascii.eqb d1 "-" && Ascii.eqb d2 "-"
             && (1 <=? m) && (m <=? 12) && (1 <=? d) && (d <=? days_in_month y m)
          then Some (Timestamp.of_date y m d)
          else None
      | _, _, _, _ => None
      end
  | _ => None
  end.

Definition iso_offset (l : list ascii) : option Z :=
  match l with
  | [h1; h2; c; m1; m2] =>
      match two_digits h1 h2, two_digits m1 m2 with
      | Some h, Some m =>
          if Ascii.eqb c ":" && (h <=? 23) && (m <=? 59)
          then Some (3600 * h + 60 * m)
          else None
      | _, _ => None
      end
  | _ => None
  end.

Definition iso_to_datetime (v : pyval) : result (option Timestamp.t) :=
  match v with
  | PNone => Ok None
  | PStr s =>
      let l := list_ascii_of_string s in
      match iso_date (firstn 10 l), skipn 10 l with
      | Some d, [] => Ok (Some d)
      | Some d, rest =>
          match iso_offset (skipn 10 rest) with
          | Some seconds =>
              if String.eqb (string_of_list_ascii (firstn 10 rest)) "T00:00:00+"
              then Ok (Some {| Timestamp.instant :=
                                 Timestamp.instant d - seconds * 1000000000;
                               Timestamp.utcoffset := Some seconds |})
              else Raise (OtherError "DateParseError")
          | None => Raise (OtherError "DateParseError")
          end
      | None, _ => Raise (OtherError "DateParseError")
      end
  | _ => Raise TypeError
  end.

(** A stand-in for the serializers and the drawing library, right on the
    runs below: [Axes.pie] raises [ValueError] when a wedge size is
    negative and when no wedge has a positive size (no wedge at all, or
    zeros only), and nothing else raises. *)
Definition pyplot_raises (a : artifact) (c : content) : option exn :=
  match c with
  | Png (PieChart sizes _) =>
      if existsb (fun x => PrimFloat.ltb x 0) sizes
      then Some (ValueError NegativeWedge)
      else if forallb (fun x => PrimFloat.eqb x 0) sizes
      then Some (ValueError ZeroWedges)
      else None
  | _ => None
  end.

(** The service answers [body]; no snapshot exists. *)
Definition online (body : pyval) : Env :=
  {| path_exists := fun _ => false;
     read_csv := fun _ => Raise IOError;
     post := Ok body;
     to_datetime := iso_to_datetime;
     infer_string := false;
     emit_raises := pyplot_raises |}.

(** Every path names the snapshot [df]; the service is unreachable. *)
Definition offline (df : Table) : Env :=
  {| path_exists := fun _ => true;
     read_csv := fun _ => Ok df;
     post := Raise RequestError;
     to_datetime := iso_to_datetime;
     infer_string := false;
     emit_raises := pyplot_raises |}.

(** * Vocabulary of the statements *)



(** Two records with the same (release date, rank). *)
Definition same_sort_key (r x : MovieRecord) : bool :=
  match key_compare (sort_key x) (sort_key r) with
  | Eq => true
  | _ => false
  end.

(** The rows of one year. *)
Definition in_year (y : Z) (r : MovieRecord) : bool :=
  match year r with
  | Some y' => y =? y'
  | None => false
  end.

(** The values listed for a year among the groups. *)
Fixpoint values_of (y : Z) (groups : list (Z * list float)) : list float :=
  match groups with
  | [] => []
  | (y', vs) :: rest => if y =? y' then vs else values_of y rest
  end.

(** The sorting example of the specification: dates 2023-01-10 (rank 1),
    2022-12-25 (rank 2) and a missing date (rank 3). *)
Definition rows_example : list Row :=
  [ {| row_rank := PInt 1; row_name := PStr "A"; row_release := PStr "2023-01-10";
       row_box_office := 1000; row_price := 45.5; row_audience := 120 |};
    {| row_rank := PInt 2; row_name := PStr "B"; row_release := PStr "2022-12-25";
       row_box_office := 800; row_price := 50; row_audience := 90 |};
    {| row_rank := PInt 3; row_name := PStr "C"; row_release := PNone;
       row_box_office := 0; row_price := 0; row_audience := 0 |} ].

(** The canonical name a legacy header name stands for. *)
Definition canonical_of (c : string) : string :=
  match lookup c mapper with
  | Some cn => cn
  | None => c
  end.

(** The same table of values under the canonical header names. *)
Definition rename_header (df : Table) : Table :=
  map (fun e => (canonical_of (fst e), snd e)) df.

(** A snapshot with a canonical 排名 column next to its legacy alias. *)
Definition both_rank_columns : Table :=
  [ ("Rank", [PInt 7]);
    (col_rank, [PInt 1]);
    ("MovieName", [PStr "A"]);
    ("ReleaseDate", [PStr "2023-01-10"]);
    ("TotalBoxOffice(10k RMB)", [PFloat 1000]);
    ("AvgTicketPrice(RMB)", [PFloat 45.5]);
    ("AvgAudienceCount", [PFloat 120]) ].

(** A snapshot under legacy names only. *)
Definition legacy_snapshot : Table :=
  [ ("MovieName", [PStr "A"; PStr "B"]);
    ("Rank", [PInt 1; PInt 2]);
    ("ReleaseDate", [PStr "2023-01-10"; PStr "2022-12-25"]);
    ("TotalBoxOffice(10k RMB)", [PFloat 1000; PFloat 800]);
    ("AvgTicketPrice(RMB)", [PFloat 45.5; PFloat 50]);
    ("AvgAudienceCount", [PFloat 120; PFloat 90]) ].

(** What [float(v or 0)] is for the value a key has, or lacks, in an
    entry: zero for a missing key and for a falsy value ([None], [0],
    [""], ...), [float(v)] otherwise, exception included. *)
Definition defaulted_float (source : option pyval) : result float :=
  match source with
  | None => Ok 0%float
  | Some v => if truthy v then py_float v else Ok 0%float
  end.

(** The numeric mapping in the words of the specification: the value
    parsed as a float, [0.0] when it is missing, null or not parseable. *)
Definition spec_numeric (source : option pyval) : float :=
  match source with
  | None => 0%float
  | Some v =>
      match py_float v with
      | Ok f => f
      | Raise _ => 0%float
      end
  end.

(** [item.get(k)] on an entry that is an object. *)
Definition entry_get (entries : list (string * pyval)) (k : string) : pyval :=
  match lookup k entries with
  | Some v => v
  | None => PNone
  end.

(** An entry whose revenue is not a number. *)
Definition entry_unparseable : pyval :=
  PDict [("Irank", PInt 1); ("MovieName", PStr "A");
         ("ReleaseTime", PStr "2023-01-10"); ("BoxOffice", PStr "abc");
         ("AvgBoxOffice", PFloat 45.5); ("AvgAudienceCount", PInt 120)].

(** The eight artifacts in the order [main] writes them. *)
Definition all_artifacts : list artifact :=
  [FileCsv; FileJson; FileXlsx; ChartLine; ChartPie; ChartPrice; ChartAudience;
   ChartScatter].

(** An answer of the service with one entry, whose revenue is negative. *)
Definition body_negative : pyval :=
  PDict [("data", PDict [("table0", PList [
    PDict [("Irank", PInt 1); ("MovieName", PStr "A");
           ("ReleaseTime", PStr "2023-01-10"); ("BoxOffice", PInt (-5));
           ("AvgBoxOffice", PFloat 45.5); ("AvgAudienceCount", PInt 120)]])])].

(** The end-to-end example of the specification. *)
Definition body_example : pyval :=
  PDict [("data", PDict [("table0", PList [
    PDict [("Irank", PInt 1); ("MovieName", PStr "A");
           ("ReleaseTime", PStr "2023-01-10"); ("BoxOffice", PInt 1000);
           ("AvgBoxOffice", PFloat 45.5); ("AvgAudienceCount", PInt 120)];
    PDict [("Irank", PInt 2); ("MovieName", PStr "B");
           ("ReleaseTime", PStr "2022-12-25"); ("BoxOffice", PInt 800);
           ("AvgBoxOffice", PInt 50); ("AvgAudienceCount", PInt 90)]])])].

(** A snapshot with the six canonical columns and no data line. *)
Definition snapshot_header_only : Table :=
  map (fun c => (c, [])) expected.

(** The trace of the run on the end-to-end example. *)
Definition trace_example : list effect :=
  Eval vm_compute in
    match main (online body_example) None with
    | Some (trace, _) => trace
    | None => []
    end.

(** An entry [to_row] accepts: an object whose three numeric values are
    each missing, falsy, or accepted by [float]. *)
Definition well_formed_entry (item : pyval) : bool :=
  match item with
  | PDict entries =>
      forallb (fun k => match defaulted_float (lookup k entries) with
                        | Ok _ => true
                        | Raise _ => false
                        end)
              ["BoxOffice"; "AvgBoxOffice"; "AvgAudienceCount"]
  | _ => false
  end.

(** An answer of the service whose only entry has a revenue that is not
    a number. *)
Definition body_unparseable : pyval :=
  PDict [("data", PDict [("table0", PList [entry_unparseable])])].

(** The canonical field order of the specification's data model (rank,
    name, release_time_raw, release_date, year, box_office,
    avg_ticket_price, avg_audience_per_showing), as column names. *)
Definition spec_field_order : list string :=
  [col_rank; col_name; col_release; col_parsed; col_year;
   col_box_office; col_price; col_audience].

(** The table of a row-oriented text export. *)
Definition csv_sheet (c : content) : Sheet :=
  match c with
  | CsvText s => s
  | _ => {| header := []; body := [] |}
  end.

(** A normalised record with a non-Latin title. *)
Definition record_example : MovieRecord :=
  {| rank := PInt 1; name := PStr "流浪地球"; release_time_raw := PStr "2023-01-10";
     box_office := 1000; avg_ticket_price := 45.5;
     avg_audience_per_showing := 120;
     release_date := Some (Timestamp.of_date 2023 1 10); year := Some 2023 |}.

(** An answer of the service whose only entry has neither rank nor
    title. *)
Definition body_anonymous : pyval :=
  PDict [("data", PDict [("table0", PList [
    PDict [("ReleaseTime", PStr "2023-01-10"); ("BoxOffice", PInt 1000)]])])].

(** A snapshot whose only row has an empty revenue cell. *)
Definition snapshot_blank_cell : Table :=
  [ (col_rank, [PInt 1]); (col_name, [PStr "A"]);
    (col_release, [PStr "2023-01-10"]); (col_box_office, [PFloat nan]);
    (col_price, [PFloat 45.5]); (col_audience, [PFloat 120]) ].

(** Ingestion followed by normalisation, on either path. *)
Definition ingest_and_normalize (env : Env) (local_csv : option string)
  : result (option (result (list MovieRecord))) :=
  (rows <- load env local_csv ;;
   Ok (match rows with
       | Some df => preprocess env df
       | None => None
       end))%result.

(** The order [nlargest] sorts by: larger values first. *)
Definition descending (key : MovieRecord -> float) (a b : MovieRecord) : Prop :=
  PrimFloat.leb (key b) (key a) = true.

(** The records holding one value in a column. *)
Definition has_value (key : MovieRecord -> float) (v : float) (r : MovieRecord) : bool :=
  PrimFloat.eqb (key r) v.

(** A frame of three titles, two of them with the same ticket price. *)
Definition frame_example : list MovieRecord :=
  [ {| rank := PInt 1; name := PStr "A"; release_time_raw := PStr "2023-01-10";
       box_office := 1000; avg_ticket_price := 45.5;
       avg_audience_per_showing := 120;
       release_date := Some (Timestamp.of_date 2023 1 10); year := Some 2023 |};
    {| rank := PInt 2; name := PStr "B"; release_time_raw := PStr "2022-12-25";
       box_office := 800; avg_ticket_price := 50;
       avg_audience_per_showing := 90;
       release_date := Some (Timestamp.of_date 2022 12 25); year := Some 2022 |};
    {| rank := PInt 3; name := PStr "C"; release_time_raw := PNone;
       box_office := 300; avg_ticket_price := 45.5;
       avg_audience_per_showing := 60;
       release_date := None; year := None |} ].

(** The records the line chart labels: a release date and a box office
    that is a number. *)
Definition annotated (r : MovieRecord) : bool :=
  match release_date r with
  | Some _ => negb (is_nan (box_office r))
  | None => false
  end.


(** A frame whose third title is a list, and whose fourth title is the
    title of the first. *)
Definition titles_example : list MovieRecord :=
  map (fun e =>
         {| rank := PInt (fst (fst e)); name := snd (fst e);
            release_time_raw := PNone;
            box_office := float_of_Z (snd e);
            avg_ticket_price := float_of_Z (fst (fst e));
            avg_audience_per_showing := 0;
            release_date := None; year := None |})
      [ (1, PStr "A", 10); (2, PStr "B", 40); (3, PList [PStr "C"], 30);
        (4, PStr "A", 20) ].

(** The canonical columns a snapshot cannot supply: neither the column
    nor its legacy alias is in the table. *)
Definition missing_columns (df : Table) : list string :=
  map snd (filter (fun alias =>
                     negb (has_column df (snd alias) || has_column df (fst alias)))
                  mapper).

(** The records that have a year. *)
Definition dated (r : MovieRecord) : bool :=
  match year r with
  | Some _ => true
  | None => false
  end.

(** A snapshot with one legacy column, one canonical column and nothing
    else. *)
Definition snapshot_two_columns : Table :=
  [ ("Rank", [PInt 1]); (col_name, [PStr "A"]) ].

(** The console lines of a trace, in order. *)
Fixpoint printed (t : list effect) : list message :=
  match t with
  | [] => []
  | Print m :: t' => m :: printed t'
  | _ :: t' => printed t'
  end.

(** The same collaborators with another answer of the service, or with
    another reader of snapshots. *)
Definition with_post (env : Env) (response : result pyval) : Env :=
  {| path_exists := path_exists env;
     read_csv := read_csv env;
     post := response;
     to_datetime := to_datetime env;
     infer_string := infer_string env;
     emit_raises := emit_raises env |}.

Definition with_read_csv (env : Env) (reader : string -> result Table) : Env :=
  {| path_exists := path_exists env;
     read_csv := reader;
     post := post env;
     to_datetime := to_datetime env;
     infer_string := infer_string env;
     emit_raises := emit_raises env |}.

(** What each artifact holds for a frame. *)
Definition artifact_content (df : list MovieRecord) (a : artifact) : option content :=
  match a with
  | FileCsv => Some (to_csv df)
  | FileJson => Some (to_json df)
  | FileXlsx => Some (to_xlsx df)
  | ChartLine => Some (Png (line_chart df))
  | ChartPie => Some (Png (pie_chart df))
  | ChartPrice => Some (Png (bar_chart avg_ticket_price df))
  | ChartAudience => Some (Png (bar_chart avg_audience_per_showing df))
  | ChartScatter => Some (Png (scatter_chart df))
  end.

(** An entry whose rank the model orders: an integer, a float, or none. *)
Definition ranked_entry (item : pyval) : bool :=
  match item with
  | PDict entries =>
      match rank_index (entry_get entries "Irank") with
      | Some _ => true
      | None => false
      end
  | _ => false
  end.

(** The sum of a list of integers, and the integer a box office of whole
    units stands for. *)
Definition Zsum (zs : list Z) : Z := fold_right Z.add 0 zs.

(** [p] shifted left by [n] bits. *)
Definition pshl (p : positive) (n : nat) : positive := Nat.iter n xO p.

Definition sf_sign (z : Z) : bool :=
  match z with
  | Zneg _ => true
  | _ => false
  end.

(** The binary64 that is the integer [z], for [|z| < 2^53]: its 53-bit
    mantissa and its exponent. *)
Definition canon (z : Z) : spec_float :=
  match z with
  | Z0 => S754_zero false
  | _ =>
      let p := Z.to_pos (Z.abs z) in
      S754_finite (sf_sign z)
                  (pshl p (Z.to_nat (53 - Zpos (digits2_pos p))))
                  (Zpos (digits2_pos p) - 53)
  end.

(** The values that are numbers. *)
Definition numbers (values : list float) : list float :=
  filter (fun x => negb (is_nan x)) values.

(** Three records of one year whose box offices are 0.1, 0.2 and 0.3, and
    a fourth of the next year. *)
Definition tenths_example : list MovieRecord :=
  map (fun e =>
         {| rank := PInt (fst e); name := PStr "T"; release_time_raw := PNone;
            box_office := float_of_decimal false (fst e) (-1);
            avg_ticket_price := 0; avg_audience_per_showing := 0;
            release_date := None; year := Some (snd e) |})
      [(1, 2022); (2, 2022); (3, 2022); (4, 2023)].

(** Two records of 2022 with 800 and 1000, one record of 2023. *)
Definition yearly_example : list MovieRecord :=
  map (fun e =>
         {| rank := PNone; name := PStr "T"; release_time_raw := PNone;
            box_office := float_of_Z (fst e);
            avg_ticket_price := 0; avg_audience_per_showing := 0;
            release_date := None; year := Some (snd e) |})
      [(800, 2022); (45, 2023); (1000, 2022)].










(** Ranks of a float64 column, one of them missing, two infinite. *)
Definition rows_float_ranks : list Row :=
  map (fun e =>
         {| row_rank := PFloat (fst (fst e)); row_name := PStr (snd (fst e));
            row_release := snd e; row_box_office := 0; row_price := 0;
            row_audience := 0 |})
      [ (2%float, "A", PStr "2023-01-10"); (nan, "B", PStr "2023-01-10");
        (1%float, "C", PStr "2023-01-10"); (infinity, "D", PStr "2023-01-10");
        (neg_infinity, "E", PStr "2023-01-10") ].


(** An answer of the service whose second entry has nothing but a title
    that is null. *)
Definition body_partial : pyval :=
  PDict [("data", PDict [("table0", PList [
    PDict [("Irank", PInt 1); ("MovieName", PStr "A");
           ("ReleaseTime", PStr "2022-12-25"); ("BoxOffice", PInt 800);
           ("AvgBoxOffice", PInt 50); ("AvgAudienceCount", PInt 90)];
    PDict [("MovieName", PNone)]])])].

(** A cell [v] as a column holds it: unchanged, or an integer as its
    float, or [None] as a null. *)
Definition held_as (v w : pyval) : Prop :=
  w = v \/
  (exists z, v = PInt z /\ w = PFloat (float_of_Z z)) \/
  (v = PNone /\ is_null w = true).

(** * Properties *)

(** ** Insertion sort: order, content, stability *)

Section StableSortFacts.
Context {A : Type}.
Variable leb : A -> A -> bool.
Hypothesis leb_total : forall a b, leb a b = true \/ leb b a = true.
Hypothesis leb_trans :
  forall a b c, leb a b = true -> leb b c = true -> leb a c = true.


Lemma insert_perm (x : A) (l : list A) : Permutation (x :: l) (insert leb x l).
Proof.
  induction l as [|y l IH]; simpl.
  - apply Permutation_refl.
  - destruct (leb x y).
    + apply Permutation_refl.
    + apply perm_trans with (y :: x :: l).
      * apply perm_swap.
      * apply perm_skip, IH.
Qed.

Lemma sort_perm (l : list A) : Permutation l (sort leb l).
Proof.
  induction l as [|x l IH]; simpl.
  - apply perm_nil.
  - apply perm_trans with (x :: sort leb l).
    + apply perm_skip, IH.
    + apply insert_perm.
Qed.



(** A class of mutually equivalent elements keeps its order. *)
Lemma filter_insert (p : A -> bool) (x : A) (l : list A) :
  (forall y, p x = true -> p y = true -> leb x y = true) ->
  filter p (insert leb x l) = if p x then x :: filter p l else filter p l.
Proof.
  intros Hp. induction l as [|y l IH]; simpl.
  - reflexivity.
  - destruct (leb x y) eqn:Hxy; simpl.
    + reflexivity.
    + rewrite IH. destruct (p x) eqn:Hx, (p y) eqn:Hy; try reflexivity.
      rewrite (Hp y eq_refl Hy) in Hxy. discriminate.
Qed.

Lemma sort_stable (p : A -> bool) (l : list A) :
  (forall x y, p x = true -> p y = true -> leb x y = true) ->
  filter p (sort leb l) = filter p l.
Proof.
  intros Hp. induction l as [|x l IH]; simpl.
  - reflexivity.
  - rewrite filter_insert by (intros y; apply Hp).
    rewrite IH. reflexivity.
Qed.
End StableSortFacts.

(** ** Binary64 arithmetic on integers *)

(** Sums and differences of integers below 2^53 are computed without
    rounding; this is what pins the value of a compensated sum. *)

Lemma pos_iter_xO (p d : positive) : Pos.iter xO p d = pshl p (Pos.to_nat d).
Proof. unfold pshl. rewrite Pos2Nat.inj_iter. reflexivity. Qed.

Lemma pshl_add (p : positive) (n m : nat) : pshl (pshl p n) m = pshl p (m + n).
Proof. unfold pshl. now rewrite Nat.iter_add. Qed.

Lemma digits2_pshl (p : positive) (n : nat) :
  Zpos (digits2_pos (pshl p n)) = Zpos (digits2_pos p) + Z.of_nat n.
Proof.
  induction n as [|n IH].
  - simpl. lia.
  - change (pshl p (S n)) with (xO (pshl p n)). cbn [digits2_pos].
    rewrite Pos2Z.inj_succ, IH. lia.
Qed.

Lemma Zpos_pshl (p : positive) (n : nat) : Zpos (pshl p n) = Zpos p * 2 ^ Z.of_nat n.
Proof.
  induction n as [|n IH].
  - simpl. lia.
  - change (pshl p (S n)) with (xO (pshl p n)).
    rewrite Pos2Z.inj_xO, IH, Nat2Z.inj_succ, Z.pow_succ_r by lia. lia.
Qed.

Lemma digits2_bounds (p : positive) :
  2 ^ (Zpos (digits2_pos p) - 1) <= Zpos p < 2 ^ Zpos (digits2_pos p).
Proof.
  induction p as [p IH|p IH|]; cbn [digits2_pos].
  - rewrite Pos2Z.inj_succ.
    replace (Z.succ (Zpos (digits2_pos p)) - 1)
      with (Z.succ (Zpos (digits2_pos p) - 1)) by lia.
    rewrite !Z.pow_succ_r by lia. lia.
  - rewrite Pos2Z.inj_succ.
    replace (Z.succ (Zpos (digits2_pos p)) - 1)
      with (Z.succ (Zpos (digits2_pos p) - 1)) by lia.
    rewrite !Z.pow_succ_r by lia. lia.
  - simpl. lia.
Qed.

Lemma digits2_le (p : positive) (n : Z) :
  0 <= n -> Zpos p < 2 ^ n -> Zpos (digits2_pos p) <= n.
Proof.
  intros Hn Hp. destruct (digits2_bounds p) as [Hlo _].
  destruct (Z_le_gt_dec (Zpos (digits2_pos p)) n) as [H|H]; [exact H|].
  assert (2 ^ n <= 2 ^ (Zpos (digits2_pos p) - 1)) by (apply Z.pow_le_mono_r; lia).
  lia.
Qed.

Lemma iter_pos_nat {A} (f : A -> A) (p : positive) (x : A) :
  iter_pos f p x = Nat.iter (Pos.to_nat p) f x.
Proof.
  revert x. induction p as [p IH|p IH|]; intros x; cbn [iter_pos].
  - rewrite !IH, Pos2Nat.inj_xI, <- Nat.iter_add, <- Nat.iter_succ_r.
    f_equal. lia.
  - rewrite !IH, Pos2Nat.inj_xO, <- Nat.iter_add. f_equal. lia.
  - reflexivity.
Qed.

(** Shifting out zero bits leaves neither a round bit nor a sticky bit. *)
Lemma shr_1_pshl (q : positive) (n k : nat) :
  (k <= n)%nat ->
  Nat.iter k shr_1 {| shr_m := Zpos (pshl q n); shr_r := false; shr_s := false |}
  = {| shr_m := Zpos (pshl q (n - k)); shr_r := false; shr_s := false |}.
Proof.
  induction k as [|k IH]; intros Hk.
  - now rewrite Nat.sub_0_r.
  - cbn [Nat.iter nat_rect]. change (nat_rect _ _ _ k) with
      (Nat.iter k shr_1 {| shr_m := Zpos (pshl q n); shr_r := false; shr_s := false |}).
    rewrite IH by lia.
    replace (n - k)%nat with (S (n - S k)) by lia.
    reflexivity.
Qed.

Lemma fexp64 (e : Z) : fexp prec emax e = Z.max (e - 53) (-1074).
Proof. reflexivity. Qed.

Lemma round_aux_canonical (s : bool) (m : positive) (e : Z) :
  fexp prec emax (Zpos (digits2_pos m) + e) = e -> e <= 971 ->
  binary_round_aux prec emax s (Zpos m) e loc_Exact = S754_finite s m e.
Proof.
  intros Hc He. unfold binary_round_aux, shr_fexp. cbn [Zdigits2 shr_record_of_loc].
  rewrite Hc, Z.sub_diag. cbn [shr shr_m loc_of_shr_record round_nearest_even Zdigits2].
  rewrite Hc, Z.sub_diag. cbn [shr shr_m].
  replace (e <=? emax - prec) with true; [reflexivity|].
  symmetry. apply Z.leb_le. exact He.
Qed.

(** Rounding [p * 2^k * 2^(-k)], for [p] of at most 53 bits, gives [p]. *)
Lemma binary_round_pshl (s : bool) (p : positive) (k : nat) :
  Zpos (digits2_pos p) <= 53 ->
  binary_round prec emax s (pshl p k) (- Z.of_nat k)
  = S754_finite s (pshl p (Z.to_nat (53 - Zpos (digits2_pos p))))
                (Zpos (digits2_pos p) - 53).
Proof.
  intros Hd. set (d := Zpos (digits2_pos p)) in *.
  assert (Hd1 : 1 <= d) by (unfold d; lia).
  unfold binary_round.
  rewrite digits2_pshl. fold d.
  replace (d + Z.of_nat k + - Z.of_nat k) with d by lia.
  rewrite fexp64. replace (Z.max (d - 53) (-1074)) with (d - 53) by lia.
  unfold shl_align.
  destruct (d - 53 - - Z.of_nat k) as [|j|j] eqn:Hj.
  - replace (- Z.of_nat k) with (d - 53) by lia.
    replace k with (Z.to_nat (53 - d)) by lia.
    apply round_aux_canonical; [|lia].
    rewrite digits2_pshl, fexp64. fold d. lia.
  - unfold binary_round_aux, shr_fexp. cbn [Zdigits2 shr_record_of_loc].
    rewrite digits2_pshl. fold d.
    replace (d + Z.of_nat k + - Z.of_nat k) with d by lia.
    rewrite fexp64. replace (Z.max (d - 53) (-1074)) with (d - 53) by lia.
    rewrite Hj. cbn [shr]. rewrite iter_pos_nat.
    rewrite shr_1_pshl by lia.
    cbn [shr_m loc_of_shr_record round_nearest_even Zdigits2].
    rewrite digits2_pshl. fold d.
    replace (d + Z.of_nat (k - Pos.to_nat j) + (- Z.of_nat k + Zpos j)) with d by lia.
    rewrite fexp64. replace (Z.max (d - 53) (-1074)) with (d - 53) by lia.
    replace (d - 53 - (- Z.of_nat k + Zpos j)) with 0 by lia.
    cbn [shr shr_m].
    replace (- Z.of_nat k + Zpos j <=? emax - prec) with true
      by (symmetry; apply Z.leb_le; change (emax - prec) with 971; lia).
    f_equal; [f_equal; lia|lia].
  - rewrite pos_iter_xO, pshl_add.
    replace (Pos.to_nat j + k)%nat with (Z.to_nat (53 - d)) by lia.
    apply round_aux_canonical; [|lia].
    rewrite digits2_pshl, fexp64. fold d. lia.
Qed.

Lemma digits2_abs (z : Z) :
  Z.abs z < 2 ^ 53 -> Zpos (digits2_pos (Z.to_pos (Z.abs z))) <= 53.
Proof. intros Hz. apply digits2_le; lia. Qed.

Lemma normalize_canon (z : Z) (k : nat) :
  Z.abs z < 2 ^ 53 ->
  binary_normalize prec emax (z * 2 ^ Z.of_nat k) (- Z.of_nat k) false = canon z.
Proof.
  intros Hz. pose proof (digits2_abs z Hz) as Hd. destruct z as [|p|p].
  - reflexivity.
  - replace (Zpos p * 2 ^ Z.of_nat k) with (Zpos (pshl p k)) by apply Zpos_pshl.
    cbn [binary_normalize]. now apply binary_round_pshl.
  - replace (Zneg p * 2 ^ Z.of_nat k) with (Zneg (pshl p k))
      by (change (Zneg p) with (- Zpos p); rewrite Z.mul_opp_l, <- Zpos_pshl;
          reflexivity).
    cbn [binary_normalize]. now apply binary_round_pshl.
Qed.

Lemma canon_valid (z : Z) : Z.abs z < 2 ^ 53 -> valid_binary (canon z) = true.
Proof.
  intros Hz. pose proof (digits2_abs z Hz) as Hd.
  destruct z as [|p|p]; [reflexivity| |];
    unfold valid_binary, canon; cbn [SpecFloat.valid_binary];
    unfold bounded, canonical_mantissa;
    rewrite digits2_pshl, fexp64;
    apply andb_true_intro; split;
    [apply Z.eqb_eq; lia|apply Z.leb_le; change (emax - prec) with 971; lia
    |apply Z.eqb_eq; lia|apply Z.leb_le; change (emax - prec) with 971; lia].
Qed.

Lemma Prim2SF_float_of_Z (z : Z) :
  Z.abs z < 2 ^ 53 -> Prim2SF (float_of_Z z) = canon z.
Proof.
  intros Hz. unfold float_of_Z, round_binary64.
  pose proof (normalize_canon z 0 Hz) as H.
  change (z * 2 ^ Z.of_nat 0) with (z * 1) in H. rewrite Z.mul_1_r in H.
  change (- Z.of_nat 0) with 0 in H. rewrite H.
  apply Prim2SF_SF2Prim, canon_valid, Hz.
Qed.

(** The mantissa of [canon] aligned to a smaller exponent. *)
Lemma shl_align_canon (p : positive) (ez : Z) :
  Zpos (digits2_pos p) <= 53 -> ez <= Zpos (digits2_pos p) - 53 ->
  Zpos (fst (shl_align (pshl p (Z.to_nat (53 - Zpos (digits2_pos p))))
                       (Zpos (digits2_pos p) - 53) ez))
  = Zpos p * 2 ^ Z.of_nat (Z.to_nat (- ez)).
Proof.
  intros Hd He. unfold shl_align.
  destruct (ez - (Zpos (digits2_pos p) - 53)) as [|j|j] eqn:Hj; cbn [fst].
  - rewrite Zpos_pshl. do 2 f_equal. lia.
  - lia.
  - rewrite pos_iter_xO, pshl_add, Zpos_pshl. do 2 f_equal. lia.
Qed.

Lemma canon_finite (z : Z) :
  z <> 0 ->
  canon z = S754_finite (sf_sign z)
              (pshl (Z.to_pos (Z.abs z))
                    (Z.to_nat (53 - Zpos (digits2_pos (Z.to_pos (Z.abs z))))))
              (Zpos (digits2_pos (Z.to_pos (Z.abs z))) - 53).
Proof. destruct z; [congruence|reflexivity|reflexivity]. Qed.

Lemma cond_Zopp_mul (z x : Z) :
  z <> 0 -> cond_Zopp (sf_sign z) (Zpos (Z.to_pos (Z.abs z)) * x) = z * x.
Proof.
  destruct z as [|p|p]; cbn [sf_sign cond_Zopp Z.abs Z.to_pos];
    [congruence|reflexivity|].
  change (Zneg p) with (- Zpos p). now rewrite Z.mul_opp_l.
Qed.

Lemma SFadd_canon (a b : Z) :
  Z.abs a < 2 ^ 53 -> Z.abs b < 2 ^ 53 -> Z.abs (a + b) < 2 ^ 53 ->
  SF64add (canon a) (canon b) = canon (a + b).
Proof.
  intros Ha Hb Hab.
  destruct (Z.eq_dec a 0) as [->|Hna].
  { destruct b; reflexivity. }
  destruct (Z.eq_dec b 0) as [->|Hnb].
  { rewrite Z.add_0_r. destruct a; reflexivity. }
  rewrite (canon_finite a Hna), (canon_finite b Hnb).
  pose proof (digits2_abs a Ha) as Hda. pose proof (digits2_abs b Hb) as Hdb.
  set (pa := Z.to_pos (Z.abs a)) in *. set (pb := Z.to_pos (Z.abs b)) in *.
  unfold SF64add, SFadd.
  set (ez := Z.min (Zpos (digits2_pos pa) - 53) (Zpos (digits2_pos pb) - 53)).
  rewrite (shl_align_canon pa ez), (shl_align_canon pb ez) by (unfold ez; lia).
  change (Zpos pa) with (Zpos (Z.to_pos (Z.abs a))).
  change (Zpos pb) with (Zpos (Z.to_pos (Z.abs b))).
  rewrite !cond_Zopp_mul by assumption.
  rewrite <- Z.mul_add_distr_r.
  replace ez with (- Z.of_nat (Z.to_nat (- ez))) at 2 by (unfold ez; lia).
  apply normalize_canon, Hab.
Qed.

Lemma SFsub_canon (a b : Z) :
  Z.abs a < 2 ^ 53 -> Z.abs b < 2 ^ 53 -> Z.abs (a - b) < 2 ^ 53 ->
  SF64sub (canon a) (canon b) = canon (a - b).
Proof.
  intros Ha Hb Hab.
  destruct (Z.eq_dec b 0) as [->|Hnb].
  { rewrite Z.sub_0_r. destruct a; reflexivity. }
  destruct (Z.eq_dec a 0) as [->|Hna].
  { destruct b; [congruence|reflexivity|reflexivity]. }
  rewrite (canon_finite a Hna), (canon_finite b Hnb).
  pose proof (digits2_abs a Ha) as Hda. pose proof (digits2_abs b Hb) as Hdb.
  set (pa := Z.to_pos (Z.abs a)) in *. set (pb := Z.to_pos (Z.abs b)) in *.
  unfold SF64sub, SFsub.
  set (ez := Z.min (Zpos (digits2_pos pa) - 53) (Zpos (digits2_pos pb) - 53)).
  rewrite (shl_align_canon pa ez), (shl_align_canon pb ez) by (unfold ez; lia).
  change (Zpos pa) with (Zpos (Z.to_pos (Z.abs a))).
  change (Zpos pb) with (Zpos (Z.to_pos (Z.abs b))).
  rewrite !cond_Zopp_mul by assumption.
  rewrite <- Z.mul_sub_distr_r.
  replace ez with (- Z.of_nat (Z.to_nat (- ez))) at 2 by (unfold ez; lia).
  apply normalize_canon, Hab.
Qed.

Lemma float_of_Z_add (a b : Z) :
  Z.abs a < 2 ^ 53 -> Z.abs b < 2 ^ 53 -> Z.abs (a + b) < 2 ^ 53 ->
  (float_of_Z a + float_of_Z b)%float = float_of_Z (a + b).
Proof.
  intros Ha Hb Hab. apply Prim2SF_inj.
  rewrite add_spec, !Prim2SF_float_of_Z by assumption.
  now apply SFadd_canon.
Qed.

Lemma float_of_Z_sub (a b : Z) :
  Z.abs a < 2 ^ 53 -> Z.abs b < 2 ^ 53 -> Z.abs (a - b) < 2 ^ 53 ->
  (float_of_Z a - float_of_Z b)%float = float_of_Z (a - b).
Proof.
  intros Ha Hb Hab. apply Prim2SF_inj.
  rewrite sub_spec, !Prim2SF_float_of_Z by assumption.
  now apply SFsub_canon.
Qed.

Lemma float_of_Z_not_nan (z : Z) :
  Z.abs z < 2 ^ 53 -> is_nan (float_of_Z z) = false.
Proof.
  intros Hz. unfold is_nan. rewrite eqb_spec, Prim2SF_float_of_Z by exact Hz.
  destruct z as [|p|p]; [reflexivity| |];
    unfold canon, SFeqb, SFcompare; cbn [sf_sign];
    rewrite Z.compare_refl;
    change (Pos.compare_cont Eq) with Pos.compare;
    now rewrite Pos.compare_refl.
Qed.

(** ** Comparisons that are total orders *)

Lemma Z_compare_order : total_order Z.compare.
Proof.
  repeat split.
  - apply Z.compare_eq.
  - intros ->. apply Z.compare_refl.
  - intros a b. apply Z.compare_antisym.
  - intros a b c Hab Hbc. rewrite Z.compare_lt_iff in *. lia.
Qed.

Lemma lex_order {A B} (ca : A -> A -> comparison) (cb : B -> B -> comparison) :
  total_order ca -> total_order cb -> total_order (lex ca cb).
Proof.
  intros (Ea & Oa & Ta) (Eb & Ob & Tb). unfold lex. repeat split.
  - destruct a as [a1 a2], b as [b1 b2]; cbn [fst snd].
    destruct (ca a1 b1) eqn:H1; try discriminate.
    intros H2. apply Ea in H1. apply Eb in H2. congruence.
  - intros <-. destruct a as [a1 a2]; cbn [fst snd].
    rewrite (proj2 (Ea a1 a1) eq_refl). now apply Eb.
  - intros [a1 a2] [b1 b2]; cbn [fst snd]. rewrite (Oa a1 b1).
    destruct (ca a1 b1); cbn [CompOpp]; [apply Ob|reflexivity|reflexivity].
  - intros [a1 a2] [b1 b2] [c1 c2]; cbn [fst snd].
    destruct (ca a1 b1) eqn:H1, (ca b1 c1) eqn:H2; try discriminate.
    + apply Ea in H1, H2. subst. rewrite (proj2 (Ea c1 c1) eq_refl). apply Tb.
    + apply Ea in H1. subst. now rewrite H2.
    + apply Ea in H2. subst. now rewrite H1.
    + now rewrite (Ta _ _ _ H1 H2).
Qed.

Lemma nulls_last_order {K} (cmp : K -> K -> comparison) :
  total_order cmp -> total_order (nulls_last_compare cmp).
Proof.
  intros (E & O & T). repeat split.
  - destruct a as [x|], b as [y|]; cbn; try discriminate; [|reflexivity].
    intros H. apply E in H. congruence.
  - intros <-. destruct a as [x|]; cbn; [now apply E|reflexivity].
  - intros [x|] [y|]; cbn; try reflexivity. apply O.
  - intros [x|] [y|] [z|]; cbn; try discriminate; try reflexivity. apply T.
Qed.

Lemma units_compare_order : total_order units_compare.
Proof. apply lex_order; apply Z_compare_order. Qed.

Lemma key_compare_order : total_order key_compare.
Proof.
  apply (lex_order (nulls_last_compare Z.compare)
                   (nulls_last_compare units_compare));
    apply nulls_last_order; [apply Z_compare_order|apply units_compare_order].
Qed.


(** ** The order of floats *)








(** ** The sort key of [preprocess] *)



Lemma key_compare_eq (a b : option Z * option (Z * Z)) :
  key_compare a b = Eq <-> a = b.
Proof. apply key_compare_order. Qed.




Lemma same_sort_key_iff (r x : MovieRecord) :
  same_sort_key r x = true <-> sort_key x = sort_key r.
Proof.
  unfold same_sort_key. rewrite <- key_compare_eq.
  destruct (key_compare (sort_key x) (sort_key r)); split; congruence.
Qed.


Lemma sort_values_perm (df : list MovieRecord) : Permutation df (sort_values df).
Proof. apply sort_perm. Qed.

Lemma sort_values_stable (r : MovieRecord) (df : list MovieRecord) :
  filter (same_sort_key r) (sort_values df) = filter (same_sort_key r) df.
Proof.
  apply sort_stable. intros x y Hx Hy.
  apply same_sort_key_iff in Hx, Hy. rewrite Hx, Hy.
  unfold key_leb. now rewrite (proj2 (key_compare_eq _ _) eq_refl).
Qed.


(** ** Normalisation *)



Lemma is_nan_Prim2SF (f : float) :
  is_nan f = false -> Prim2SF f <> S754_nan.
Proof.
  unfold is_nan. rewrite eqb_spec. intros H Hn. rewrite Hn in H. discriminate H.
Qed.


Lemma sortable_with_dates (env : Env) (df : list Row) :
  Forall (fun row => rank_index (row_rank row) <> None) df ->
  sortable (map (with_dates env) df) = true.
Proof.
  induction 1 as [|row df Hrow _ IH]; simpl.
  - reflexivity.
  - destruct (rank_index (row_rank row)); [exact IH|congruence].
Qed.












Example preprocess_example :
  option_map (fun df => match df with Ok df' => map name df' | Raise _ => [] end)
             (preprocess (online PNone) rows_example)
  = Some [PStr "B"; PStr "A"; PStr "C"].
Proof. vm_compute. reflexivity. Qed.

Example preprocess_float_ranks :
  option_map (fun df => match df with Ok df' => map name df' | Raise _ => [] end)
             (preprocess (online PNone) rows_float_ranks)
  = Some [PStr "E"; PStr "C"; PStr "A"; PStr "D"; PStr "B"].
Proof. vm_compute. reflexivity. Qed.

(** ** The yearly aggregate *)

Lemma group_insert_keys (y : Z) (v : float) (groups : list (Z * list float)) (k : Z) :
  In k (map fst (group_insert y v groups)) <-> k = y \/ In k (map fst groups).
Proof.
  induction groups as [|[y' vs] rest IH]; simpl.
  - intuition.
  - destruct (Z.compare_spec y y') as [Heq|Hlt|Hgt]; simpl.
    + subst. intuition.
    + intuition.
    + rewrite IH. intuition.
Qed.

Lemma group_insert_sorted (y : Z) (v : float) (groups : list (Z * list float)) :
  StronglySorted Z.lt (map fst groups) ->
  StronglySorted Z.lt (map fst (group_insert y v groups)).
Proof.
  induction groups as [|[y' vs] rest IH]; simpl; intros Hs.
  - repeat constructor.
  - apply StronglySorted_inv in Hs. destruct Hs as [Hrest Hall].
    destruct (Z.compare_spec y y') as [Heq|Hlt|Hgt]; simpl.
    + constructor; assumption.
    + constructor.
      * constructor; assumption.
      * constructor; [exact Hlt|].
        eapply Forall_impl; [|exact Hall]. intros; lia.
    + constructor; [apply IH, Hrest|].
      apply Forall_forall. intros k Hk.
      apply group_insert_keys in Hk. destruct Hk as [->|Hk]; [lia|].
      rewrite Forall_forall in Hall. apply Hall, Hk.
Qed.

Lemma values_of_absent (y : Z) (groups : list (Z * list float)) :
  ~ In y (map fst groups) -> values_of y groups = [].
Proof.
  induction groups as [|[y' vs] rest IH]; simpl; intros Hy.
  - reflexivity.
  - destruct (Z.eqb_spec y y') as [->|Hne].
    + exfalso. apply Hy. now left.
    + apply IH. intros Hin. apply Hy. now right.
Qed.

Lemma values_of_present (y : Z) (vs : list float) (groups : list (Z * list float)) :
  StronglySorted Z.lt (map fst groups) ->
  In (y, vs) groups -> values_of y groups = vs.
Proof.
  induction groups as [|[y' vs'] rest IH]; simpl; intros Hs Hin.
  - contradiction.
  - apply StronglySorted_inv in Hs. destruct Hs as [Hrest Hall].
    destruct Hin as [Heq|Hin].
    + injection Heq as -> ->. now rewrite Z.eqb_refl.
    + destruct (Z.eqb_spec y y') as [->|Hne].
      * rewrite Forall_forall in Hall.
        assert (y' < y') by (apply Hall, (in_map fst _ _ Hin)). lia.
      * apply IH; assumption.
Qed.

Lemma values_of_group_insert (y0 y : Z) (v : float) (groups : list (Z * list float)) :
  StronglySorted Z.lt (map fst groups) ->
  values_of y0 (group_insert y v groups)
  = if y0 =? y then v :: values_of y0 groups else values_of y0 groups.
Proof.
  induction groups as [|[y' vs] rest IH]; simpl; intros Hs.
  - destruct (y0 =? y); reflexivity.
  - apply StronglySorted_inv in Hs. destruct Hs as [Hrest Hall].
    destruct (Z.compare_spec y y') as [Heq|Hlt|Hgt]; simpl.
    + subst y'. destruct (Z.eqb_spec y0 y); reflexivity.
    + destruct (Z.eqb_spec y0 y) as [->|Hne]; [|reflexivity].
      destruct (Z.eqb_spec y y'); [lia|].
      rewrite values_of_absent; [reflexivity|].
      intros Hin. rewrite Forall_forall in Hall. specialize (Hall _ Hin). lia.
    + rewrite (IH Hrest).
      destruct (Z.eqb_spec y0 y') as [->|Hne]; [|reflexivity].
      destruct (Z.eqb_spec y' y); [lia|reflexivity].
Qed.

Lemma groupby_year_sorted (df : list MovieRecord) :
  StronglySorted Z.lt (map fst (groupby_year df)).
Proof.
  induction df as [|r df IH]; simpl.
  - constructor.
  - destruct (year r); [apply group_insert_sorted, IH|exact IH].
Qed.

Lemma groupby_year_keys (df : list MovieRecord) (y : Z) :
  In y (map fst (groupby_year df)) <-> exists r, In r df /\ year r = Some y.
Proof.
  induction df as [|r df IH]; simpl.
  - split; [contradiction|]. intros (r & [] & _).
  - destruct (year r) as [y'|] eqn:Hy.
    + rewrite group_insert_keys, IH. split.
      * intros [->|(r' & Hin & Hr')]; [exists r|exists r']; auto.
      * intros (r' & [<-|Hin] & Hr'); [left; congruence|right; exists r'; auto].
    + rewrite IH. split.
      * intros (r' & Hin & Hr'). exists r'; auto.
      * intros (r' & [<-|Hin] & Hr'); [congruence|exists r'; auto].
Qed.

Lemma groupby_year_values (df : list MovieRecord) (y : Z) :
  values_of y (groupby_year df) = map box_office (filter (in_year y) df).
Proof.
  induction df as [|r df IH]; simpl.
  - reflexivity.
  - unfold in_year at 1. destruct (year r) as [y'|].
    + rewrite values_of_group_insert by apply groupby_year_sorted.
      rewrite IH. destruct (y =? y'); reflexivity.
    + exact IH.
Qed.

Lemma kahan_step_integers (s z : Z) :
  Z.abs s < 2 ^ 53 -> Z.abs z < 2 ^ 53 -> Z.abs (s + z) < 2 ^ 53 ->
  kahan_step (float_of_Z s, 0%float) (float_of_Z z) = (float_of_Z (s + z), 0%float).
Proof.
  intros Hs Hz Hsz. unfold kahan_step. rewrite (float_of_Z_not_nan z Hz).
  cbn [fst snd]. change 0%float with (float_of_Z 0).
  rewrite (float_of_Z_sub z 0), Z.sub_0_r by (rewrite ?Z.sub_0_r; simpl; lia).
  rewrite (float_of_Z_add s z) by assumption.
  rewrite (float_of_Z_sub (s + z) s)
    by (try assumption; replace (s + z - s) with z by lia; exact Hz).
  replace (s + z - s) with z by lia.
  rewrite (float_of_Z_sub z z), Z.sub_diag by (rewrite ?Z.sub_diag; simpl; lia).
  reflexivity.
Qed.

Lemma fold_kahan_integers (zs : list Z) (s : Z) :
  Z.abs s + Zsum (map Z.abs zs) < 2 ^ 53 ->
  fold_left kahan_step (map float_of_Z zs) (float_of_Z s, 0%float)
  = (float_of_Z (s + Zsum zs), 0%float).
Proof.
  revert s. induction zs as [|z zs IH]; intros s H; cbn [map fold_left Zsum fold_right].
  - now rewrite Z.add_0_r.
  - cbn [map Zsum fold_right] in H. fold (Zsum (map Z.abs zs)) in H.
    assert (Hpos : 0 <= Zsum (map Z.abs zs)).
    { clear. induction zs as [|x zs IH]; cbn [map Zsum fold_right]; [lia|].
      fold (Zsum (map Z.abs zs)). lia. }
    rewrite kahan_step_integers by lia.
    fold (Zsum zs). rewrite IH by lia. now rewrite Z.add_assoc.
Qed.

(** NaN values are passed over. *)
Lemma fold_kahan_numbers (values : list float) (acc : float * float) :
  fold_left kahan_step values acc = fold_left kahan_step (numbers values) acc.
Proof.
  revert acc. induction values as [|v values IH]; intros acc; [reflexivity|].
  cbn [fold_left numbers filter]. fold (numbers values).
  destruct (is_nan v) eqn:Hv; cbn [negb fold_left].
  - unfold kahan_step at 2. rewrite Hv. apply IH.
  - apply IH.
Qed.

Lemma group_sum_integers (values : list float) (zs : list Z) :
  numbers values = map float_of_Z zs ->
  Zsum (map Z.abs zs) < 2 ^ 53 ->
  group_sum values = float_of_Z (Zsum zs).
Proof.
  intros Hv Hz. unfold group_sum. rewrite fold_kahan_numbers, Hv.
  change (0%float, 0%float) with (float_of_Z 0, 0%float).
  rewrite fold_kahan_integers by (simpl; lia). reflexivity.
Qed.

(** The sum of one number is that number. *)
Lemma group_sum_single (x : float) :
  is_nan x = false -> PrimFloat.eqb (group_sum [x]) x = true.
Proof.
  intros Hx. unfold group_sum, kahan_step. cbn [fold_left fst snd]. rewrite Hx.
  cbn [fst snd]. unfold is_nan in Hx. apply negb_false_iff in Hx.
  rewrite eqb_spec in *. rewrite add_spec, sub_spec.
  change (Prim2SF 0) with (S754_zero false).
  destruct (Prim2SF x) as [s|s| |s m e]; try (destruct s); try discriminate Hx;
    try reflexivity; exact Hx.
Qed.

(** C6. For every normalised frame the yearly aggregate lists its years
    in ascending order; a year occurs in it exactly when some record has
    that (non-null) year; each year is mapped to the sum of the box-office
    values of the records of that year, taken in frame order with NaN
    passed over, so that a record without a year adds to no entry.  The
    sum is the compensated sum pandas computes: it is the exact sum when
    the values are whole numbers whose absolute values add up to less than
    2^53, and it is the value itself for a year with one record. *)
Theorem yearly_aggregate :
  forall df : list MovieRecord,
    StronglySorted Z.lt (map fst (yearly df)) /\
    (forall y, In y (map fst (yearly df)) <-> exists r, In r df /\ year r = Some y) /\
    yearly df
    = map (fun y => (y, group_sum (map box_office (filter (in_year y) df))))
          (map fst (yearly df)) /\
    (forall y v zs,
        In (y, v) (yearly df) ->
        numbers (map box_office (filter (in_year y) df)) = map float_of_Z zs ->
        Zsum (map Z.abs zs) < 2 ^ 53 ->
        v = float_of_Z (Zsum zs)) /\
    (forall y v r,
        In (y, v) (yearly df) ->
        filter (in_year y) df = [r] ->
        is_nan (box_office r) = false ->
        PrimFloat.eqb v (box_office r) = true).
Proof.
  intros df.
  assert (Hkeys : map fst (yearly df) = map fst (groupby_year df)).
  { unfold yearly. rewrite map_map. reflexivity. }
  assert (Hval : forall y v, In (y, v) (yearly df) ->
                   v = group_sum (map box_office (filter (in_year y) df))).
  { intros y v Hin. unfold yearly in Hin. apply in_map_iff in Hin.
    destruct Hin as ([y' vs] & Heq & Hin). cbn [fst snd] in Heq.
    injection Heq as -> <-. f_equal.
    rewrite <- groupby_year_values.
    symmetry. apply values_of_present; [apply groupby_year_sorted|exact Hin]. }
  rewrite Hkeys. split; [apply groupby_year_sorted|].
  split; [apply groupby_year_keys|].
  split; [|split].
  - unfold yearly. rewrite map_map. apply map_ext_in.
    intros [y vs] Hin. simpl. do 2 f_equal.
    rewrite <- groupby_year_values.
    symmetry. apply values_of_present; [apply groupby_year_sorted|exact Hin].
  - intros y v zs Hin Hzs Hbound. rewrite (Hval y v Hin).
    now apply group_sum_integers.
  - intros y v r Hin Hone Hnum. rewrite (Hval y v Hin), Hone.
    now apply group_sum_single.
Qed.

Lemma yearly_aggregate_witness :
  exists v,
    In (2022, v) (yearly yearly_example) /\
    v = float_of_Z (800 + 1000) /\
    In (2023, 45%float) (yearly yearly_example).
Proof.
  destruct (yearly_aggregate yearly_example) as (_ & _ & _ & Hsum & _).
  exists (group_sum (map box_office (filter (in_year 2022) yearly_example))).
  assert (Hin : In (2022, group_sum (map box_office
                                       (filter (in_year 2022) yearly_example)))
                   (yearly yearly_example))
    by (left; reflexivity).
  split; [exact Hin|]. split.
  - exact (Hsum 2022 _ [800; 1000] Hin eq_refl eq_refl).
  - right. left. reflexivity.
Defined.

(** The sum is compensated: 0.1 + 0.2 + 0.3 gives 0.6 where adding from
    left to right gives the float after it. *)
Example yearly_compensated :
  yearly tenths_example
  = [(2022, float_of_decimal false 6 (-1)); (2023, float_of_decimal false 4 (-1))] /\
  PrimFloat.ltb (float_of_decimal false 6 (-1))
    (float_of_decimal false 1 (-1) + float_of_decimal false 2 (-1)
     + float_of_decimal false 3 (-1)) = true.
Proof. split; vm_compute; reflexivity. Qed.

(** ** Local snapshots: [read_local] *)

Lemma has_column_column (df : Table) (c : string) :
  has_column df c = match column df c with Some _ => true | None => false end.
Proof.
  unfold has_column, column, columns.
  induction df as [|[c' v] df IH]; simpl.
  - reflexivity.
  - destruct (String.eqb c c'); [reflexivity|exact IH].
Qed.

Lemma column_app (df : Table) (c c' : string) (v : list pyval) :
  column (df ++ [(c', v)]) c
  = match column df c with
    | Some x => Some x
    | None => if String.eqb c c' then Some v else None
    end.
Proof.
  unfold column. induction df as [|[c0 v0] df IH]; simpl.
  - reflexivity.
  - destruct (String.eqb c c0); [reflexivity|exact IH].
Qed.

Lemma column_alias_step_other (df : Table) (en cn c : string) :
  String.eqb c cn = false ->
  column (alias_step df (en, cn)) c = column df c.
Proof.
  intros Hc. unfold alias_step.
  destruct (has_column df en && negb (has_column df cn)) eqn:Hstep; [|reflexivity].
  apply andb_prop in Hstep. destruct Hstep as [_ Hcn].
  destruct (column df en) as [v|]; [|reflexivity].
  unfold assign. apply negb_true_iff in Hcn. rewrite Hcn.
  rewrite column_app, Hc. now destruct (column df c).
Qed.

Lemma column_alias_step_target (df : Table) (en cn : string) :
  column (alias_step df (en, cn)) cn
  = match column df cn with
    | Some x => Some x
    | None => column df en
    end.
Proof.
  unfold alias_step. rewrite !has_column_column.
  destruct (column df en) as [v|] eqn:Hen, (column df cn) as [x|] eqn:Hcn;
    simpl; try assumption; try reflexivity.
  unfold assign. rewrite has_column_column, Hcn.
  now rewrite column_app, Hcn, String.eqb_refl.
Qed.

Lemma column_fold_other (aliases : list (string * string)) (df : Table) (c : string) :
  existsb (String.eqb c) (map snd aliases) = false ->
  column (fold_left alias_step aliases df) c = column df c.
Proof.
  revert df. induction aliases as [|[en cn] rest IH]; simpl; intros df Hc.
  - reflexivity.
  - apply orb_false_elim in Hc. destruct Hc as [Hcn Hrest].
    rewrite (IH _ Hrest). apply column_alias_step_other, Hcn.
Qed.

(** The column a canonical name designates once the aliases before it,
    its own alias and the aliases after it have been applied. *)
Lemma column_fold_target (before after : list (string * string))
      (en cn : string) (df : Table) :
  existsb (String.eqb cn) (map snd before) = false ->
  existsb (String.eqb en) (map snd before) = false ->
  existsb (String.eqb cn) (map snd after) = false ->
  column (fold_left alias_step (before ++ (en, cn) :: after) df) cn
  = match column df cn with
    | Some x => Some x
    | None => column df en
    end.
Proof.
  intros Hb1 Hb2 Ha.
  rewrite fold_left_app. cbn [fold_left].
  rewrite (column_fold_other after _ cn Ha).
  rewrite column_alias_step_target.
  now rewrite !(column_fold_other before) by assumption.
Qed.

Lemma column_aliased (df : Table) (en cn : string) :
  In (en, cn) mapper ->
  column (fold_left alias_step mapper df) cn
  = match column df cn with
    | Some x => Some x
    | None => column df en
    end.
Proof.
  unfold mapper. intros Hin.
  repeat (destruct Hin as [Heq|Hin]; [injection Heq as <- <-|]); [..|contradiction].
  - apply (column_fold_target [] _); reflexivity.
  - apply (column_fold_target [_] _); reflexivity.
  - apply (column_fold_target [_; _] _); reflexivity.
  - apply (column_fold_target [_; _; _] _); reflexivity.
  - apply (column_fold_target [_; _; _; _] _); reflexivity.
  - apply (column_fold_target [_; _; _; _; _] _); reflexivity.
Qed.

Lemma lookup_tabulate {V} (f : string -> V) (cs : list string) (c : string) :
  In c cs -> lookup c (map (fun c' => (c', f c')) cs) = Some (f c).
Proof.
  induction cs as [|c0 cs IH]; simpl; intros Hin.
  - contradiction.
  - destruct (String.eqb_spec c c0) as [->|Hne]; [reflexivity|].
    destruct Hin as [->|Hin]; [congruence|exact (IH Hin)].
Qed.

Lemma select_column (df out : Table) (cs : list string) (c : string) :
  select df cs = Ok out -> In c cs -> column out c = column df c.
Proof.
  unfold select. intros Hsel Hin.
  destruct (filter (fun c => negb (has_column df c)) cs) eqn:Hmiss; [|discriminate].
  injection Hsel as <-.
  unfold column at 1. rewrite (lookup_tabulate _ cs c Hin).
  assert (Hc : has_column df c = true).
  { destruct (has_column df c) eqn:H; [reflexivity|].
    assert (Hf : In c (filter (fun c => negb (has_column df c)) cs))
      by (apply filter_In; rewrite H; auto).
    rewrite Hmiss in Hf. contradiction. }
  rewrite has_column_column in Hc. now destruct (column df c).
Qed.

Lemma select_ext (df1 df2 : Table) (cs : list string) :
  (forall c, In c cs -> column df1 c = column df2 c) ->
  select df1 cs = select df2 cs.
Proof.
  intros Hext. unfold select.
  assert (Hf : filter (fun c => negb (has_column df1 c)) cs
               = filter (fun c => negb (has_column df2 c)) cs).
  { apply filter_ext_in. intros c Hc.
    now rewrite !has_column_column, (Hext c Hc). }
  rewrite Hf.
  destruct (filter (fun c => negb (has_column df2 c)) cs); [|reflexivity].
  f_equal. apply map_ext_in. intros c Hc. now rewrite (Hext c Hc).
Qed.

Lemma expected_mapper : expected = map snd mapper.
Proof. reflexivity. Qed.

Lemma mapper_expected (cn : string) :
  In cn expected -> exists en, In (en, cn) mapper.
Proof.
  rewrite expected_mapper. intros Hin.
  apply in_map_iff in Hin. destruct Hin as ([en cn'] & Hcn & Hin).
  simpl in Hcn. subst cn'. exists en. exact Hin.
Qed.

Lemma mapper_canonical (en cn : string) :
  In (en, cn) mapper -> In cn expected.
Proof.
  rewrite expected_mapper. intros Hin.
  exact (in_map snd mapper (en, cn) Hin).
Qed.

Lemma read_local_ok (df : Table) :
  read_local (Ok df) = select (fold_left alias_step mapper df) expected.
Proof. reflexivity. Qed.

(** C10. When a snapshot has a canonical column, the frame [read_local]
    returns carries that column unchanged, whatever its legacy alias
    holds; the values of the alias stand under the canonical name only
    when the snapshot has no such canonical column. *)
Theorem read_local_prefers_canonical :
  forall (df out : Table) (en cn : string),
    In (en, cn) mapper ->
    read_local (Ok df) = Ok out ->
    column out cn = (if has_column df cn then column df cn else column df en).
Proof.
  intros df out en cn Hin Hread. rewrite read_local_ok in Hread.
  pose proof (mapper_canonical en cn Hin) as Hcn.
  rewrite (select_column _ _ _ _ Hread Hcn).
  rewrite (column_aliased df en cn Hin), has_column_column.
  now destruct (column df cn).
Qed.

Lemma read_local_prefers_canonical_witness :
  In ("Rank", col_rank) mapper /\
  read_local (Ok both_rank_columns)
  = Ok [ (col_rank, [PInt 1]); (col_name, [PStr "A"]);
         (col_release, [PStr "2023-01-10"]); (col_box_office, [PFloat 1000]);
         (col_price, [PFloat 45.5]); (col_audience, [PFloat 120]) ] /\
  column [ (col_rank, [PInt 1]); (col_name, [PStr "A"]);
           (col_release, [PStr "2023-01-10"]); (col_box_office, [PFloat 1000]);
           (col_price, [PFloat 45.5]); (col_audience, [PFloat 120]) ] col_rank
  = (if has_column both_rank_columns col_rank
     then column both_rank_columns col_rank
     else column both_rank_columns "Rank").
Proof.
  assert (Hin : In ("Rank", col_rank) mapper) by (left; reflexivity).
  assert (Hread : read_local (Ok both_rank_columns)
                  = Ok [ (col_rank, [PInt 1]); (col_name, [PStr "A"]);
                         (col_release, [PStr "2023-01-10"]);
                         (col_box_office, [PFloat 1000]);
                         (col_price, [PFloat 45.5]); (col_audience, [PFloat 120]) ])
    by reflexivity.
  split; [exact Hin|]. split; [exact Hread|].
  exact (read_local_prefers_canonical both_rank_columns _ "Rank" col_rank Hin Hread).
Defined.

(** Header names taken from the legacy alias set only. *)
Lemma legacy_header_columns (df : Table) (en cn : string) :
  Forall (fun c => In c (map fst mapper)) (columns df) ->
  In (en, cn) mapper ->
  column df cn = None /\
  column (rename_header df) cn = column df en /\
  column (rename_header df) en = None.
Proof.
  intros Hlegacy Hin. unfold column.
  induction df as [|[c v] df IH].
  - repeat split.
  - apply Forall_cons_iff in Hlegacy. destruct Hlegacy as [Hc Hdf].
    specialize (IH Hdf). destruct IH as (IH1 & IH2 & IH3).
    cbn [rename_header map lookup fst snd] in *.
    unfold mapper in Hin, Hc. cbn [map fst In] in Hc.
    repeat (destruct Hin as [Heq|Hin]; [injection Heq as <- <-|]); [..|contradiction];
      repeat (destruct Hc as [<-|Hc]; [|]); try contradiction;
      cbn; auto.
Qed.

(** C8. A snapshot whose header uses only names of the legacy alias set
    is read as the same frame, column for column and cell for cell (or is
    refused for the same missing columns), as the snapshot holding the same
    values under the canonical header names. *)
Theorem read_local_legacy_canonical :
  forall df : Table,
    Forall (fun c => In c (map fst mapper)) (columns df) ->
    read_local (Ok df) = read_local (Ok (rename_header df)).
Proof.
  intros df Hlegacy. rewrite !read_local_ok.
  apply select_ext. intros cn Hcn.
  destruct (mapper_expected cn Hcn) as [en Hin].
  rewrite !(column_aliased _ en cn Hin).
  destruct (legacy_header_columns df en cn Hlegacy Hin) as (H1 & H2 & H3).
  rewrite H1, H2, H3. now destruct (column df en).
Qed.

Lemma read_local_legacy_canonical_witness :
  Forall (fun c => In c (map fst mapper)) (columns legacy_snapshot) /\
  read_local (Ok legacy_snapshot) = read_local (Ok (rename_header legacy_snapshot)).
Proof.
  assert (H : Forall (fun c => In c (map fst mapper)) (columns legacy_snapshot))
    by (unfold legacy_snapshot, columns; cbn [map fst];
        repeat (apply Forall_cons;
                [cbn [In map fst mapper]; repeat first [left; reflexivity | right]|]);
        apply Forall_nil).
  split; [exact H|].
  exact (read_local_legacy_canonical legacy_snapshot H).
Defined.

Example read_local_legacy_example :
  read_local (Ok legacy_snapshot)
  = Ok [ (col_rank, [PInt 1; PInt 2]); (col_name, [PStr "A"; PStr "B"]);
         (col_release, [PStr "2023-01-10"; PStr "2022-12-25"]);
         (col_box_office, [PFloat 1000; PFloat 800]);
         (col_price, [PFloat 45.5; PFloat 50]);
         (col_audience, [PFloat 120; PFloat 90]) ].
Proof. reflexivity. Qed.

Example read_local_missing_column :
  read_local (Ok [("Rank", [PInt 1]); ("MovieName", [PStr "A"])])
  = Raise (KeyError [col_release; col_box_office; col_price; col_audience]).
Proof. reflexivity. Qed.

(** ** Remote entries: [to_row] *)

Lemma numeric_field_defaulted (entries : list (string * pyval)) (k : string) :
  numeric_field (PDict entries) k = defaulted_float (lookup k entries).
Proof.
  unfold numeric_field, defaulted_float, py_get, py_or, rbind.
  destruct (lookup k entries) as [v|]; [|reflexivity].
  destruct (truthy v); reflexivity.
Qed.

Lemma float_of_string_nonempty (s : string) (f : float) :
  float_of_string s = Some f -> truthy (PStr s) = true.
Proof. destruct s; [discriminate|reflexivity]. Qed.

Lemma truthy_nonempty (s : string) : s <> "" -> truthy (PStr s) = true.
Proof. destruct s; [congruence|reflexivity]. Qed.

Lemma to_row_object (entries : list (string * pyval)) :
  to_row (PDict entries)
  = (b <- defaulted_float (lookup "BoxOffice" entries) ;;
     p <- defaulted_float (lookup "AvgBoxOffice" entries) ;;
     a <- defaulted_float (lookup "AvgAudienceCount" entries) ;;
     Ok {| row_rank := entry_get entries "Irank";
           row_name := entry_get entries "MovieName";
           row_release := entry_get entries "ReleaseTime";
           row_box_office := b; row_price := p; row_audience := a |})%result.
Proof. unfold to_row. rewrite !numeric_field_defaulted. reflexivity. Qed.

(** C1, as the code has it.  For every remote entry that is an object,
    [to_row] maps 排名, 电影名称 and 上映时间 from the entry and each of
    BoxOffice, AvgBoxOffice and AvgAudienceCount through [float(v or 0)],
    in this order; a numeric field is [0.0] when its key is missing or its
    value null, it is the parsed float when the value is a string that
    parses, and the mapping raises [ValueError] when the value is a
    non-empty string that does not parse. *)
Theorem to_row_numeric_fields :
  forall entries : list (string * pyval),
    to_row (PDict entries)
    = (b <- defaulted_float (lookup "BoxOffice" entries) ;;
       p <- defaulted_float (lookup "AvgBoxOffice" entries) ;;
       a <- defaulted_float (lookup "AvgAudienceCount" entries) ;;
       Ok {| row_rank := entry_get entries "Irank";
             row_name := entry_get entries "MovieName";
             row_release := entry_get entries "ReleaseTime";
             row_box_office := b; row_price := p; row_audience := a |})%result
    /\ (forall k,
           lookup k entries = None \/ lookup k entries = Some PNone ->
           numeric_field (PDict entries) k = Ok 0%float)
    /\ (forall k s f,
           lookup k entries = Some (PStr s) ->
           float_of_string s = Some f ->
           numeric_field (PDict entries) k = Ok f)
    /\ (forall k s,
           lookup k entries = Some (PStr s) ->
           s <> "" ->
           float_of_string s = None ->
           numeric_field (PDict entries) k = Raise (ValueError (NotAFloat s))).
Proof.
  intros entries. split; [|split; [|split]].
  - apply to_row_object.
  - intros k [H|H]; rewrite numeric_field_defaulted, H; reflexivity.
  - intros k s f Hk Hs. rewrite numeric_field_defaulted, Hk.
    unfold defaulted_float. rewrite (float_of_string_nonempty s f Hs).
    simpl. now rewrite Hs.
  - intros k s Hk Hne Hs. rewrite numeric_field_defaulted, Hk.
    unfold defaulted_float. rewrite (truthy_nonempty s Hne).
    simpl. now rewrite Hs.
Qed.

Lemma to_row_numeric_fields_witness :
  numeric_field (PDict [("BoxOffice", PNone); ("AvgBoxOffice", PStr "45.5");
                        ("AvgAudienceCount", PStr "n/a")]) "Irank" = Ok 0%float
  /\ numeric_field (PDict [("BoxOffice", PNone); ("AvgBoxOffice", PStr "45.5");
                           ("AvgAudienceCount", PStr "n/a")]) "BoxOffice" = Ok 0%float
  /\ numeric_field (PDict [("BoxOffice", PNone); ("AvgBoxOffice", PStr "45.5");
                           ("AvgAudienceCount", PStr "n/a")]) "AvgBoxOffice" = Ok 45.5%float
  /\ numeric_field (PDict [("BoxOffice", PNone); ("AvgBoxOffice", PStr "45.5");
                           ("AvgAudienceCount", PStr "n/a")]) "AvgAudienceCount"
     = Raise (ValueError (NotAFloat "n/a")).
Proof.
  destruct (to_row_numeric_fields
              [("BoxOffice", PNone); ("AvgBoxOffice", PStr "45.5");
               ("AvgAudienceCount", PStr "n/a")]) as (_ & Hnull & Hparse & Hfail).
  split; [apply Hnull; left; reflexivity|].
  split; [apply Hnull; right; reflexivity|].
  split; [apply (Hparse _ "45.5"); reflexivity|].
  apply (Hfail _ "n/a"); [reflexivity|discriminate|reflexivity].
Defined.

(** C1, as the specification words it, fails: an entry whose BoxOffice is
    the text "abc", which is not a number, makes the mapping raise instead
    of yielding a record with [box_office = 0.0]. *)
Lemma to_row_unparseable_raises :
  float_of_string "abc" = None /\
  spec_numeric (Some (PStr "abc")) = 0%float /\
  to_row entry_unparseable = Raise (ValueError (NotAFloat "abc")) /\
  ~ (exists row, to_row entry_unparseable = Ok row).
Proof.
  repeat split; try reflexivity.
  intros [row H]. discriminate H.
Qed.

Example to_row_example :
  to_row (PDict [("Irank", PInt 1); ("MovieName", PStr "A");
                 ("ReleaseTime", PStr "2023-01-10"); ("BoxOffice", PInt 1000);
                 ("AvgBoxOffice", PFloat 45.5); ("AvgAudienceCount", PStr "120")])
  = Ok {| row_rank := PInt 1; row_name := PStr "A";
          row_release := PStr "2023-01-10"; row_box_office := 1000;
          row_price := 45.5; row_audience := 120 |}.
Proof. reflexivity. Qed.

Example to_row_missing_box_office :
  to_row (PDict [("Irank", PInt 1); ("MovieName", PStr "A")])
  = Ok {| row_rank := PInt 1; row_name := PStr "A"; row_release := PNone;
          row_box_office := 0; row_price := 0; row_audience := 0 |}.
Proof. reflexivity. Qed.

(** ** The run: [main] *)

Lemma written_app (t1 t2 : list effect) :
  written (t1 ++ t2) = written t1 ++ written t2.
Proof.
  induction t1 as [|e t1 IH]; simpl.
  - reflexivity.
  - destruct e; simpl; now rewrite IH.
Qed.

(** Steps 3 to 5 write a prefix of the eight artifacts: all of them when
    no call raises, fewer when one does. *)
Lemma produce_prefix (env : Env) (df : list MovieRecord) :
  exists n,
    written (fst (produce env df)) = firstn n all_artifacts /\
    (snd (produce env df) = Ok tt -> n = 8%nat) /\
    (forall e, snd (produce env df) = Raise e -> (n < 8)%nat).
Proof.
  unfold produce, export_all, chart_line_release_vs_boxoffice,
    chart_pie_share_by_year, chart_bar_top10_by_price,
    chart_bar_top10_by_audience, chart_scatter_price_vs_boxoffice, emit, lift.
  cbn [bind tell ret fst snd app].
  destruct (emit_raises env FileCsv _);
    [exists 0%nat; repeat split; [discriminate|lia]|].
  destruct (emit_raises env FileJson _);
    [exists 1%nat; repeat split; [discriminate|lia]|].
  destruct (emit_raises env FileXlsx _);
    [exists 2%nat; repeat split; [discriminate|lia]|].
  cbn [bind tell ret fst snd app].
  destruct (emit_raises env ChartLine _);
    [exists 3%nat; repeat split; [discriminate|lia]|].
  destruct (emit_raises env ChartPie _);
    [exists 4%nat; repeat split; [discriminate|lia]|].
  destruct df as [|r df]; cbn [nlargest_dtype bind tell ret fst snd app];
    [exists 5%nat; repeat split; [discriminate|lia]|].
  destruct (emit_raises env ChartPrice _);
    [exists 5%nat; repeat split; [discriminate|lia]|].
  destruct (emit_raises env ChartAudience _);
    [exists 6%nat; repeat split; [discriminate|lia]|].
  destruct (emit_raises env ChartScatter _);
    [exists 7%nat; repeat split; [discriminate|lia]|].
  exists 8%nat. repeat split. intros e H. discriminate H.
Qed.

(** C2, as the code has it.  A run whose ingestion raises prints the
    diagnostic and the hint, returns, and has written nothing.  A run whose
    ingestion succeeds writes the artifacts in the fixed order csv, json,
    xlsx, line, pie, price bars, audience bars, scatter: all eight when
    [main] returns, and only those before the failing call (a proper
    prefix, empty when it is normalisation that raises) when a serializer
    or a renderer raises, the exception leaving [main]. *)
Theorem main_writes_prefix :
  forall (env : Env) (local_csv : option string)
         (trace : list effect) (outcome : result unit),
    main env local_csv = Some (trace, outcome) ->
    match load env local_csv with
    | Raise e =>
        trace = [Print (MsgError e); Print MsgHint] /\ outcome = Ok tt /\
        written trace = []
    | Ok _ =>
        exists n,
          written trace = firstn n all_artifacts /\
          (outcome = Ok tt -> n = 8%nat) /\
          (forall e, outcome = Raise e -> (n < 8)%nat)
    end.
Proof.
  intros env local_csv trace outcome. unfold main.
  destruct (load env local_csv) as [[df|]|e].
  - destruct (preprocess env df) as [[df'|e']|]; [| |discriminate].
    + intros H. injection H as Hrun.
      destruct (produce_prefix env df') as (n & Hw & Hok & Herr).
      rewrite Hrun in Hw, Hok, Herr. exists n. auto.
    + intros H. injection H as <- <-. exists 0%nat.
      repeat split; [discriminate|lia].
  - discriminate.
  - intros H. injection H as <- <-. auto.
Qed.

Lemma main_writes_prefix_witness :
  main (online body_example) None = Some (trace_example, Ok tt) /\
  written trace_example = all_artifacts.
Proof.
  assert (H : main (online body_example) None = Some (trace_example, Ok tt))
    by (vm_compute; reflexivity).
  split; [exact H|].
  pose proof (main_writes_prefix (online body_example) None _ _ H) as P.
  vm_compute in P. destruct P as (n & Hw & Hok & _).
  rewrite (Hok eq_refl) in Hw. exact Hw.
Defined.

(** [main] is defined on every run whose ingestion raises, and on every
    run whose ingested ranks are numbers or missing. *)
Lemma main_defined (env : Env) (local_csv : option string) :
  match load env local_csv with
  | Raise _ => True
  | Ok None => False
  | Ok (Some df) => Forall (fun row => rank_index (row_rank row) <> None) df
  end ->
  exists run, main env local_csv = Some run.
Proof.
  unfold main, preprocess.
  destruct (load env local_csv) as [[df|]|e]; intros H.
  - rewrite (sortable_with_dates env df H).
    destruct (one_timezone _); eexists; reflexivity.
  - contradiction.
  - eexists; reflexivity.
Qed.

(** C2, as the specification words it, fails: when the service answers
    with an entry whose revenue is negative, the three data files and the
    line chart are written, then [Axes.pie] refuses the negative wedge and
    the run ends with four of the eight artifacts on disk. *)
Lemma main_partial_output :
  exists trace,
    main (online body_negative) None = Some (trace, Raise (ValueError NegativeWedge)) /\
    written trace = [FileCsv; FileJson; FileXlsx; ChartLine].
Proof. eexists. split; vm_compute; reflexivity. Qed.

(** ** Remote ingestion: [fetch_online] *)

Lemma mapM_length {A B} (f : A -> result B) (xs : list A) (ys : list B) :
  mapM f xs = Ok ys -> List.length ys = List.length xs.
Proof.
  revert ys. induction xs as [|x xs IH]; simpl; intros ys H.
  - injection H as <-. reflexivity.
  - destruct (f x) as [y|e]; [|discriminate]. simpl in H.
    destruct (mapM f xs) as [ys'|e]; [|discriminate]. simpl in H.
    injection H as <-. simpl. f_equal. now apply IH.
Qed.

Lemma mapM_raise {A B} (f : A -> result B) (xs : list A) (e : exn) :
  mapM f xs = Raise e -> exists x, In x xs /\ f x = Raise e.
Proof.
  induction xs as [|x xs IH]; simpl; intros H.
  - discriminate.
  - destruct (f x) as [y|e'] eqn:Hx; simpl in H.
    + destruct (mapM f xs) as [ys|e'']; simpl in H; [discriminate|].
      injection H as ->. destruct (IH eq_refl) as (x' & Hin & Hx').
      exists x'. auto.
    + injection H as ->. exists x. auto.
Qed.

Lemma mapM_ok {A B} (f : A -> result B) (xs : list A) :
  Forall (fun x => exists y, f x = Ok y) xs -> exists ys, mapM f xs = Ok ys.
Proof.
  induction 1 as [|x xs [y Hy] _ [ys IH]]; simpl.
  - eexists; reflexivity.
  - rewrite Hy, IH. simpl. eexists; reflexivity.
Qed.

Lemma mapM_Forall2 {A B} (f : A -> result B) (xs : list A) (ys : list B) :
  mapM f xs = Ok ys -> Forall2 (fun x y => f x = Ok y) xs ys.
Proof.
  revert ys. induction xs as [|x xs IH]; simpl; intros ys H.
  - injection H as <-. constructor.
  - destruct (f x) as [y|e] eqn:Hx; [|discriminate]. cbn [rbind] in H.
    destruct (mapM f xs) as [ys'|e]; [|discriminate]. cbn [rbind] in H.
    injection H as <-. constructor; [exact Hx|now apply IH].
Qed.

Lemma to_row_ok_object (item : pyval) (row : Row) :
  to_row item = Ok row -> exists entries, item = PDict entries.
Proof.
  destruct item as [| b | z | f | s | l | entries]; try discriminate.
  intros _. now exists entries.
Qed.

Lemma py_float_not_empty_dataset (v : pyval) :
  py_float v <> Raise (ValueError EmptyDataset).
Proof.
  destruct v as [| b | z | f | s | l | kv]; simpl; try discriminate.
  - destruct (is_infinity (float_of_Z z)); discriminate.
  - destruct (float_of_string s); discriminate.
Qed.

Lemma defaulted_float_not_empty_dataset (source : option pyval) :
  defaulted_float source <> Raise (ValueError EmptyDataset).
Proof.
  destruct source as [v|]; simpl; [|discriminate].
  destruct (truthy v); [apply py_float_not_empty_dataset|discriminate].
Qed.

Lemma to_row_not_empty_dataset (item : pyval) :
  to_row item <> Raise (ValueError EmptyDataset).
Proof.
  destruct item as [| b | z | f | s | l | entries]; try discriminate.
  rewrite (to_row_object entries).
  pose proof (defaulted_float_not_empty_dataset (lookup "BoxOffice" entries)).
  pose proof (defaulted_float_not_empty_dataset (lookup "AvgBoxOffice" entries)).
  pose proof (defaulted_float_not_empty_dataset (lookup "AvgAudienceCount" entries)).
  destruct (defaulted_float (lookup "BoxOffice" entries)); cbn [rbind]; [|intros Heq; injection Heq as ->; congruence].
  destruct (defaulted_float (lookup "AvgBoxOffice" entries)); cbn [rbind]; [|intros Heq; injection Heq as ->; congruence].
  destruct (defaulted_float (lookup "AvgAudienceCount" entries)); cbn [rbind]; [|intros Heq; injection Heq as ->; congruence].
  discriminate.
Qed.

Lemma to_row_well_formed (item : pyval) :
  well_formed_entry item = true -> exists row, to_row item = Ok row.
Proof.
  destruct item as [| b | z | f | s | l | entries]; try discriminate.
  unfold well_formed_entry. cbn [forallb]. intros H.
  rewrite (to_row_object entries).
  destruct (defaulted_float (lookup "BoxOffice" entries)); [|discriminate].
  destruct (defaulted_float (lookup "AvgBoxOffice" entries)); [|discriminate].
  destruct (defaulted_float (lookup "AvgAudienceCount" entries)); [|discriminate].
  cbn [rbind]. eexists; reflexivity.
Qed.

(** What [... or []] leaves is a truthy object or the empty list. *)
Lemma extract_table_shape (body table : pyval) :
  extract_table body = Ok table -> truthy table = true \/ table = PList [].
Proof.
  unfold extract_table.
  destruct (py_get (py_or body (PDict [])) "data" (PDict [])) as [data|]; [|discriminate].
  cbn [rbind].
  destruct (py_get data "table0" (PList [])) as [table0|]; [|discriminate].
  cbn [rbind]. intros H. injection H as <-.
  unfold py_or. destruct (truthy table0) eqn:Ht; auto.
Qed.

Lemma py_iter_nil (table : pyval) :
  truthy table = true \/ table = PList [] ->
  py_iter table = Ok [] -> table = PList [].
Proof.
  intros [Ht| ->]; [|reflexivity].
  destruct table as [| b | z | f | s | l | kv]; simpl; try discriminate.
  - destruct s; [discriminate Ht|discriminate].
  - intros H. injection H as ->. reflexivity.
  - destruct kv; [discriminate Ht|discriminate].
Qed.

Lemma py_get_raise (obj : pyval) (k : string) (default : pyval) (e : exn) :
  py_get obj k default = Raise e -> e = AttributeError.
Proof. destruct obj; simpl; intros H; try discriminate; now injection H. Qed.

Lemma extract_table_raise (body : pyval) (e : exn) :
  extract_table body = Raise e -> e = AttributeError.
Proof.
  unfold extract_table.
  destruct (py_get (py_or body (PDict [])) "data" (PDict [])) as [data|e'] eqn:Hd;
    cbn [rbind].
  - destruct (py_get data "table0" (PList [])) as [table0|e''] eqn:Ht;
      cbn [rbind]; [discriminate|].
    intros H. injection H as <-. exact (py_get_raise _ _ _ _ Ht).
  - intros H. injection H as <-. exact (py_get_raise _ _ _ _ Hd).
Qed.

Lemma py_iter_raise (table : pyval) (e : exn) :
  py_iter table = Raise e -> e = TypeError.
Proof. destruct table; simpl; intros H; try discriminate; now injection H. Qed.

(** The frame has the rows of the list, and is empty when the list is. *)
Lemma DataFrame_length (infer_string : bool) (rows : list Row) :
  List.length (DataFrame infer_string rows) = List.length rows.
Proof. unfold DataFrame. apply length_map. Qed.

Lemma fetch_online_rows (infer_string : bool) (body : pyval) :
  fetch_online infer_string (Ok body)
  = (table <- extract_table body ;;
     items <- py_iter table ;;
     rows <- mapM to_row items ;;
     match rows with
     | [] => Raise (ValueError EmptyDataset)
     | _ :: _ => Ok (DataFrame infer_string rows)
     end)%result.
Proof.
  unfold fetch_online. cbn [rbind].
  destruct (extract_table body); cbn [rbind]; [|reflexivity].
  destruct (py_iter a); cbn [rbind]; [|reflexivity].
  destruct (mapM to_row a0) as [[|row rows]|e]; reflexivity.
Qed.

(** C4, as the code has it.  [fetch_online] raises the empty-data error
    exactly when what it extracts at data.table0 is the empty list, which
    is what [... or []] makes of a missing data or table0 key and of a null
    or otherwise falsy table0, whereas a data that is present and not an
    object ends ingestion with an [AttributeError]; a run that uses the
    service then prints the diagnostic and writes no file; and when table0
    is a list of N >= 1 objects whose three numeric values are each
    missing, falsy or accepted by [float], ingestion succeeds with exactly
    N rows. *)
Theorem fetch_online_outcomes :
  forall (infer_string : bool) (body : pyval),
    (fetch_online infer_string (Ok body) = Raise (ValueError EmptyDataset)
     <-> extract_table body = Ok (PList []))
    /\ (forall entries,
           body = PDict entries ->
           lookup "data" entries = None \/
           (exists d, lookup "data" entries = Some (PDict d) /\
                      (lookup "table0" d = None \/
                       exists v, lookup "table0" d = Some v /\ truthy v = false)) ->
           extract_table body = Ok (PList []))
    /\ (forall entries v,
           body = PDict entries ->
           lookup "data" entries = Some v ->
           (forall d, v <> PDict d) ->
           fetch_online infer_string (Ok body) = Raise AttributeError)
    /\ (forall env local_csv,
           use_local env local_csv = None ->
           post env = Ok body ->
           extract_table body = Ok (PList []) ->
           main env local_csv
           = Some ([Print (MsgError (ValueError EmptyDataset)); Print MsgHint], Ok tt)
           /\ written [Print (MsgError (ValueError EmptyDataset)); Print MsgHint] = [])
    /\ (forall items,
           extract_table body = Ok (PList items) ->
           items <> [] ->
           forallb well_formed_entry items = true ->
           exists df,
             fetch_online infer_string (Ok body) = Ok df /\
             List.length df = List.length items).
Proof.
  intros infer_string body.
  assert (Hempty : forall infer, extract_table body = Ok (PList []) ->
                   fetch_online infer (Ok body) = Raise (ValueError EmptyDataset)).
  { intros infer H. unfold fetch_online. cbn [rbind]. rewrite H. reflexivity. }
  split; [|split; [|split; [|split]]].
  - split; [|apply Hempty].
    rewrite fetch_online_rows.
    destruct (extract_table body) as [table|e] eqn:Htable; cbn [rbind];
      [|apply extract_table_raise in Htable; subst e; discriminate].
    destruct (py_iter table) as [items|e] eqn:Hiter; cbn [rbind];
      [|apply py_iter_raise in Hiter; subst e; discriminate].
    destruct (mapM to_row items) as [df|e] eqn:Hrows; cbn [rbind].
    + destruct df; [|discriminate]. intros _.
      apply mapM_length in Hrows. destruct items; [|discriminate].
      f_equal. apply py_iter_nil; [|exact Hiter].
      apply (extract_table_shape body), Htable.
    + intros H. injection H as ->.
      apply mapM_raise in Hrows. destruct Hrows as (x & _ & Hx).
      now apply to_row_not_empty_dataset in Hx.
  - intros entries -> Hshape. unfold extract_table, py_or.
    assert (Hbody : (if truthy (PDict entries) then PDict entries else PDict [])
                    = PDict entries) by (destruct entries; reflexivity).
    rewrite Hbody. cbn [py_get rbind].
    destruct Hshape as [Hd|(d & Hd & Ht)]; rewrite Hd; cbn [py_get rbind].
    + reflexivity.
    + destruct Ht as [Ht|(v & Ht & Hv)]; rewrite Ht; [reflexivity|].
      now rewrite Hv.
  - intros entries v -> Hd Hv. unfold fetch_online, extract_table, py_or.
    assert (Hbody : (if truthy (PDict entries) then PDict entries else PDict [])
                    = PDict entries) by (destruct entries; reflexivity).
    cbn [rbind]. rewrite Hbody. cbn [py_get rbind]. rewrite Hd.
    destruct v as [| | | | | | d]; try reflexivity. now elim (Hv d).
  - intros env local_csv Hlocal Hpost Htable. split; [|reflexivity].
    unfold main, load. rewrite Hlocal, Hpost, (Hempty _ Htable). reflexivity.
  - intros items Htable Hne Hwf.
    assert (Hrows : exists df, mapM to_row items = Ok df).
    { apply mapM_ok. rewrite forallb_forall in Hwf.
      apply Forall_forall. intros x Hx. apply to_row_well_formed, Hwf, Hx. }
    destruct Hrows as [df Hdf]. exists (DataFrame infer_string df).
    pose proof (mapM_length _ _ _ Hdf) as Hlen.
    split; [|now rewrite DataFrame_length].
    rewrite fetch_online_rows. cbn [rbind]. rewrite Htable. cbn [rbind py_iter].
    rewrite Hdf. cbn [rbind].
    destruct df; [|reflexivity].
    destruct items; [congruence|discriminate].
Qed.

Lemma fetch_online_outcomes_witness :
  (fetch_online true (Ok (PDict [("data", PDict [("table0", PNone)])]))
   = Raise (ValueError EmptyDataset))
  /\ (main (online (PDict [("data", PDict [("table0", PNone)])])) None
      = Some ([Print (MsgError (ValueError EmptyDataset)); Print MsgHint], Ok tt)
      /\ written [Print (MsgError (ValueError EmptyDataset)); Print MsgHint] = [])
  /\ (exists df, fetch_online true (Ok body_example) = Ok df /\ List.length df = 2%nat).
Proof.
  destruct (fetch_online_outcomes true (PDict [("data", PDict [("table0", PNone)])]))
    as (Hiff & Hshape & _ & Hrun & _).
  assert (Htable : extract_table (PDict [("data", PDict [("table0", PNone)])])
                   = Ok (PList [])).
  { apply (Hshape _ eq_refl). right. eexists. split; [reflexivity|].
    right. exists PNone. split; reflexivity. }
  split; [apply Hiff, Htable|].
  split; [apply Hrun; [reflexivity|reflexivity|exact Htable]|].
  destruct (fetch_online_outcomes true body_example) as (_ & _ & _ & _ & Hrows).
  apply (Hrows _ eq_refl); [discriminate|reflexivity].
Defined.

(** C4, as the specification words it, fails: a table0 with one entry
    does not make ingestion succeed when the entry's revenue is not a
    number. *)
Lemma fetch_online_entry_rejected :
  extract_table body_unparseable = Ok (PList [entry_unparseable]) /\
  fetch_online false (Ok body_unparseable) = Raise (ValueError (NotAFloat "abc")) /\
  fetch_online true (Ok body_unparseable) = Raise (ValueError (NotAFloat "abc")).
Proof. repeat split. Qed.

Example fetch_online_null_data :
  fetch_online false (Ok (PDict [("data", PNone)])) = Raise AttributeError.
Proof. reflexivity. Qed.

Example fetch_online_unreachable :
  fetch_online false (Raise RequestError) = Raise RequestError.
Proof. reflexivity. Qed.

(** ** Charts on a frame without rows *)

(** C5, as the code has it.  No renderer tests its frame for emptiness.
    On the frame without rows the line renderer hands a chart without
    points to the drawing calls and, unless these raise, writes its image;
    the pie renderer hands them a pie without wedges, and what they do with
    it is its outcome; the two bar renderers and the scatter renderer are
    ended by the [TypeError] of [nlargest] on a column of dtype object,
    before anything is saved, and write nothing. *)
Theorem renderers_empty_frame :
  forall env : Env,
    map fst renderers = [ChartLine; ChartPie; ChartPrice; ChartAudience; ChartScatter] /\
    chart_line_release_vs_boxoffice env []
    = match emit_raises env ChartLine (Png (LineChart [] [])) with
      | Some e => ([], Raise e)
      | None => ([WriteFile ChartLine (Png (LineChart [] []))], Ok ChartLine)
      end /\
    chart_pie_share_by_year env []
    = match emit_raises env ChartPie (Png (PieChart [] [])) with
      | Some e => ([], Raise e)
      | None => ([WriteFile ChartPie (Png (PieChart [] []))], Ok ChartPie)
      end /\
    chart_bar_top10_by_price env [] = ([], Raise TypeError) /\
    chart_bar_top10_by_audience env [] = ([], Raise TypeError) /\
    chart_scatter_price_vs_boxoffice env [] = ([], Raise TypeError).
Proof.
  intros env. repeat split.
Qed.

(** C5, as the specification words it, fails: on the frame without rows
    the line renderer raises nothing and writes an image with nothing drawn
    in it.  The run on a snapshot without data lines does so after the
    three data files; it is then ended by the [ValueError] of [Axes.pie],
    not by an error about empty input. *)
Lemma charts_of_empty_frame_written :
  chart_line_release_vs_boxoffice (offline snapshot_header_only) []
  = ([WriteFile ChartLine (Png (LineChart [] []))], Ok ChartLine) /\
  exists trace,
    main (offline snapshot_header_only) (Some "snapshot.csv")
    = Some (trace, Raise (ValueError ZeroWedges)) /\
    written trace = [FileCsv; FileJson; FileXlsx; ChartLine].
Proof.
  split; [reflexivity|].
  eexists. split; vm_compute; reflexivity.
Qed.

(** ** The row-oriented text export *)

(** C7, as the code has it.  The csv export has one row per record, in
    frame order, under the header 排名, 电影名称, 上映时间, 总票房(万元),
    平均票价(元), 平均场次观众数, 上映日期解析, 年份: the six ingested
    columns first, the parsed date and the year last.  Each cell is the
    record's field as it is, the title included; the file is the first
    thing [export_all] writes. *)
Theorem to_csv_rows :
  forall df : list MovieRecord,
    header (csv_sheet (to_csv df))
    = [col_rank; col_name; col_release; col_box_office; col_price; col_audience;
       col_parsed; col_year]
    /\ List.length (body (csv_sheet (to_csv df))) = List.length df
    /\ (forall i r,
           nth_error df i = Some r ->
           nth_error (body (csv_sheet (to_csv df))) i
           = Some [CObj (rank r); CObj (name r); CObj (release_time_raw r);
                   CNum (box_office r); CNum (avg_ticket_price r);
                   CNum (avg_audience_per_showing r);
                   CDate (release_date r); CYear (year r)])
    /\ (forall env,
           emit_raises env FileCsv (to_csv df) = None ->
           exists rest,
             fst (export_all env df) = WriteFile FileCsv (to_csv df) :: rest).
Proof.
  intros df. cbn [to_csv csv_sheet to_sheet header body].
  split; [reflexivity|].
  split; [apply length_map|].
  split.
  - intros i r Hi. rewrite nth_error_map, Hi. reflexivity.
  - intros env Hcsv. unfold export_all, emit. rewrite Hcsv.
    cbn [bind]. 
    destruct (emit_raises env FileJson (to_json df)); cbn [bind fst app];
      [eexists; reflexivity|].
    destruct (emit_raises env FileXlsx (to_xlsx df)); cbn [bind ret fst app];
      eexists; reflexivity.
Qed.

Lemma to_csv_rows_witness :
  nth_error (body (csv_sheet (to_csv [record_example]))) 0
  = Some [CObj (PInt 1); CObj (PStr "流浪地球"); CObj (PStr "2023-01-10");
          CNum 1000; CNum 45.5; CNum 120;
          CDate (Some (Timestamp.of_date 2023 1 10)); CYear (Some 2023)]
  /\ exists rest,
       fst (export_all (online PNone) [record_example])
       = WriteFile FileCsv (to_csv [record_example]) :: rest.
Proof.
  destruct (to_csv_rows [record_example]) as (_ & _ & Hrow & Hfile).
  split.
  - exact (Hrow 0%nat record_example eq_refl).
  - exact (Hfile (online PNone) eq_refl).
Defined.

(** C7, as the specification words it, fails: the columns of the csv
    export are not in the canonical field order of the data model, where
    the date and the year come before the three numeric fields. *)
Lemma to_csv_column_order :
  header (csv_sheet (to_csv [record_example]))
  = [col_rank; col_name; col_release; col_box_office; col_price; col_audience;
     col_parsed; col_year] /\
  nth_error (header (csv_sheet (to_csv [record_example]))) 3 = Some col_box_office /\
  nth_error spec_field_order 3 = Some col_parsed /\
  header (csv_sheet (to_csv [record_example])) <> spec_field_order.
Proof.
  repeat split. intros H. discriminate H.
Qed.

(** ** The records of a normalised frame *)

Lemma with_dates_year (env : Env) (row : Row) :
  let r := with_dates env row in
  (release_date r = None <-> year r = None) /\
  year r = option_map Timestamp.year (release_date r).
Proof.
  simpl. destruct (_parse_date env (row_release row)); simpl;
    repeat split; intros H; try discriminate; reflexivity.
Qed.

Lemma preprocess_ok (env : Env) (df : list Row) (df' : list MovieRecord) :
  preprocess env df = Some (Ok df') ->
  df' = sort_values (map (with_dates env) df).
Proof.
  unfold preprocess.
  destruct (one_timezone _); [|discriminate].
  destruct (sortable _); [|discriminate].
  intros H. now injection H.
Qed.

(** A null cell is a null cell in a column of any dtype. *)
Lemma astype_null (infer_string : bool) (d : dtype) (v : pyval) :
  is_null v = true -> is_null (astype infer_string d v) = true.
Proof.
  destruct v as [| b | z | f | s | l | kv]; try discriminate;
    destruct d, infer_string; intros H; try reflexivity; exact H.
Qed.

(** What a successful remote ingestion went through. *)
Lemma fetch_online_frame (infer_string : bool) (body : pyval) (df : list Row) :
  fetch_online infer_string (Ok body) = Ok df ->
  exists items rows,
    extract_table body = Ok (PList items) /\
    items <> [] /\
    mapM to_row items = Ok rows /\
    df = DataFrame infer_string rows.
Proof.
  rewrite fetch_online_rows.
  destruct (extract_table body) as [table|e] eqn:Htable; cbn [rbind]; [|discriminate].
  destruct (py_iter table) as [items|e] eqn:Hiter; cbn [rbind]; [|discriminate].
  destruct (mapM to_row items) as [rows|e] eqn:Hrows; cbn [rbind]; [|discriminate].
  destruct rows as [|row rows]; [discriminate|].
  intros H. injection H as <-.
  pose proof (mapM_Forall2 _ _ _ Hrows) as H2.
  assert (Hne : items <> []) by (inversion H2; discriminate).
  exists items, (row :: rows). repeat split; try assumption.
  f_equal.
  assert (Hobj : exists entries rest, items = PDict entries :: rest).
  { inversion H2 as [|item ? rest ? Hitem _]; subst.
    destruct (to_row_ok_object _ _ Hitem) as [entries ->]. now exists entries, rest. }
  destruct Hobj as (entries & rest & ->).
  destruct table as [| b | z | f | s | l | kv]; simpl in Hiter; try discriminate.
  - injection Hiter as Hiter.
    destruct (list_ascii_of_string s); discriminate Hiter.
  - now injection Hiter as ->.
  - injection Hiter as Hiter. destruct kv; discriminate Hiter.
Qed.

Lemma Forall2_map_right {A B C} (R : A -> C -> Prop) (f : B -> C)
      (xs : list A) (ys : list B) :
  Forall2 (fun x y => R x (f y)) xs ys -> Forall2 R xs (map f ys).
Proof. induction 1; simpl; constructor; assumption. Qed.

Lemma to_row_fields (entries : list (string * pyval)) (row : Row) :
  to_row (PDict entries) = Ok row ->
  row_rank row = entry_get entries "Irank" /\
  row_name row = entry_get entries "MovieName" /\
  row_release row = entry_get entries "ReleaseTime" /\
  defaulted_float (lookup "BoxOffice" entries) = Ok (row_box_office row) /\
  defaulted_float (lookup "AvgBoxOffice" entries) = Ok (row_price row) /\
  defaulted_float (lookup "AvgAudienceCount" entries) = Ok (row_audience row).
Proof.
  rewrite to_row_object.
  destruct (defaulted_float (lookup "BoxOffice" entries)); [|discriminate].
  destruct (defaulted_float (lookup "AvgBoxOffice" entries)); [|discriminate].
  destruct (defaulted_float (lookup "AvgAudienceCount" entries)); [|discriminate].
  cbn [rbind]. intros H. injection H as <-. repeat split.
Qed.

Lemma zip_rows_nth (r n t b p a : list pyval) (rows : list Row) :
  zip_rows r n t b p a = Some rows ->
  forall i row,
    nth_error rows i = Some row ->
    nth_error r i = Some (row_rank row) /\
    nth_error n i = Some (row_name row) /\
    nth_error t i = Some (row_release row) /\
    (exists v, nth_error b i = Some v /\ as_float64 v = Some (row_box_office row)) /\
    (exists v, nth_error p i = Some v /\ as_float64 v = Some (row_price row)) /\
    (exists v, nth_error a i = Some v /\ as_float64 v = Some (row_audience row)).
Proof.
  revert n t b p a rows.
  induction r as [|r0 r IH]; intros [|n0 n] [|t0 t] [|b0 b] [|p0 p] [|a0 a] rows H;
    try discriminate H.
  - injection H as <-. intros [|i] row Hrow; discriminate Hrow.
  - cbn [zip_rows] in H.
    destruct (as_float64 b0) as [fb|] eqn:Hb; [|discriminate].
    destruct (as_float64 p0) as [fp|] eqn:Hp; [|discriminate].
    destruct (as_float64 a0) as [fa|] eqn:Ha; [|discriminate].
    destruct (zip_rows r n t b p a) as [rest|] eqn:Hrest; [|discriminate].
    injection H as <-. intros [|i] row Hrow; cbn [nth_error] in *.
    + injection Hrow as <-. cbn.
      repeat split; try reflexivity; eexists; split; try reflexivity; assumption.
    + exact (IH _ _ _ _ _ _ Hrest i row Hrow).
Qed.

Lemma float_of_Z_number (z : Z) :
  Z.abs z <= 2 ^ 53 -> is_nan (float_of_Z z) = false.
Proof.
  intros Hz. destruct (Z.eq_dec (Z.abs z) (2 ^ 53)) as [E|E].
  - assert (Hz' : z = 2 ^ 53 \/ z = - 2 ^ 53) by lia.
    destruct Hz' as [-> | ->]; vm_compute; reflexivity.
  - apply float_of_Z_not_nan. lia.
Qed.

(** An empty cell of a snapshot, and no other, is a null number. *)
Lemma as_float64_null (v : pyval) (f : float) :
  as_float64 v = Some f -> (is_nan f = true <-> is_null v = true).
Proof.
  destruct v as [| b | z | g | s | l | kv]; try discriminate; cbn [as_float64 is_null].
  - destruct (Z.abs z <=? 2 ^ 53) eqn:Hz; [|discriminate].
    intros H. injection H as <-. apply Z.leb_le in Hz.
    rewrite (float_of_Z_number z Hz). split; discriminate.
  - intros H. injection H as <-. reflexivity.
Qed.

(** C9, as the code has it.  In every frame that ingestion followed by
    normalisation produces, on either path, a record's release date and
    year are null together, the year being that of the date, and its other
    six fields are those of one ingested row.  On the remote path the rank
    and the title of a row are what the entry holds under Irank and
    MovieName as the dtype of the column holds it, null when the key is
    missing or its value null, and each of the three numeric fields is
    [float(v or 0)] of the entry's value, 0.0 when the key is missing or
    its value null.  On the local path the first three fields are the
    cells of the snapshot and each numeric field is the snapshot's cell as
    a float, null exactly where the cell is empty. *)
Theorem normalized_records :
  (forall (env : Env) (df : list Row) (df' : list MovieRecord),
      preprocess env df = Some (Ok df') ->
      Forall (fun r =>
                (release_date r = None <-> year r = None) /\
                year r = option_map Timestamp.year (release_date r) /\
                exists row,
                  In row df /\
                  rank r = row_rank row /\ name r = row_name row /\
                  release_time_raw r = row_release row /\
                  box_office r = row_box_office row /\
                  avg_ticket_price r = row_price row /\
                  avg_audience_per_showing r = row_audience row) df')
  /\ (forall (infer_string : bool) (body : pyval) (df : list Row),
         fetch_online infer_string (Ok body) = Ok df ->
         exists items rows,
           extract_table body = Ok (PList items) /\
           mapM to_row items = Ok rows /\
           Forall2 (fun item row =>
                      exists entries,
                        item = PDict entries /\
                        row_rank row
                        = astype infer_string (infer_dtype (map row_rank rows))
                                 (entry_get entries "Irank") /\
                        row_name row
                        = astype infer_string (infer_dtype (map row_name rows))
                                 (entry_get entries "MovieName") /\
                        (is_null (entry_get entries "Irank") = true ->
                         is_null (row_rank row) = true) /\
                        (is_null (entry_get entries "MovieName") = true ->
                         is_null (row_name row) = true) /\
                        defaulted_float (lookup "BoxOffice" entries)
                        = Ok (row_box_office row) /\
                        defaulted_float (lookup "AvgBoxOffice" entries)
                        = Ok (row_price row) /\
                        defaulted_float (lookup "AvgAudienceCount" entries)
                        = Ok (row_audience row))
                   items df)
  /\ (forall source : option pyval,
         source = None \/ source = Some PNone ->
         defaulted_float source = Ok 0%float)
  /\ (forall (table : Table) (rows : list Row),
         rows_of_table table = Some rows ->
         exists r n t b p a,
           column table col_rank = Some r /\ column table col_name = Some n /\
           column table col_release = Some t /\
           column table col_box_office = Some b /\ column table col_price = Some p /\
           column table col_audience = Some a /\
           forall i row,
             nth_error rows i = Some row ->
             nth_error r i = Some (row_rank row) /\
             nth_error n i = Some (row_name row) /\
             nth_error t i = Some (row_release row) /\
             (exists v, nth_error b i = Some v /\
                        as_float64 v = Some (row_box_office row)) /\
             (exists v, nth_error p i = Some v /\
                        as_float64 v = Some (row_price row)) /\
             (exists v, nth_error a i = Some v /\
                        as_float64 v = Some (row_audience row)))
  /\ (forall (v : pyval) (f : float),
         as_float64 v = Some f -> (is_nan f = true <-> is_null v = true))
  /\ (forall (env : Env) (local_csv : option string) (df' : list MovieRecord),
         ingest_and_normalize env local_csv = Ok (Some (Ok df')) ->
         exists rows,
           preprocess env rows = Some (Ok df') /\
           match use_local env local_csv with
           | None => fetch_online (infer_string env) (post env) = Ok rows
           | Some p =>
               exists table,
                 read_local (read_csv env p) = Ok table /\
                 rows_of_table table = Some rows
           end).
Proof.
  split; [|split; [|split; [|split; [|split]]]].
  - intros env df df' Hpre. apply preprocess_ok in Hpre. subst df'.
    apply (Permutation_Forall (sort_values_perm _)).
    apply Forall_forall. intros r Hr.
    apply in_map_iff in Hr. destruct Hr as (row & <- & Hrow).
    destruct (with_dates_year env row) as [Hnull Hyear].
    split; [exact Hnull|]. split; [exact Hyear|].
    exists row. repeat split; [exact Hrow|..]; reflexivity.
  - intros infer_string body df Hfetch.
    destruct (fetch_online_frame _ _ _ Hfetch) as (items & rows & Htable & _ & Hrows & ->).
    exists items, rows. split; [exact Htable|]. split; [exact Hrows|].
    unfold DataFrame. apply Forall2_map_right.
    generalize (infer_dtype (map row_rank rows)) as dr.
    generalize (infer_dtype (map row_name rows)) as dn.
    generalize (infer_dtype (map row_release rows)) as dt.
    intros dt dn dr.
    apply mapM_Forall2 in Hrows. clear Hfetch Htable.
    induction Hrows as [|item row items rows Hitem _ IH]; [constructor|].
    constructor; [|exact IH].
    destruct (to_row_ok_object _ _ Hitem) as [entries ->].
    destruct (to_row_fields entries row Hitem) as (Hr & Hn & _ & Hb & Hp & Ha).
    exists entries. cbn [row_rank row_name row_box_office row_price row_audience].
    rewrite Hr, Hn.
    repeat split; try assumption; apply astype_null.
  - intros source [-> | ->]; reflexivity.
  - intros table rows. unfold rows_of_table.
    destruct (column table col_rank) as [r|]; [|discriminate].
    destruct (column table col_name) as [n|]; [|discriminate].
    destruct (column table col_release) as [t|]; [|discriminate].
    destruct (column table col_box_office) as [b|]; [|discriminate].
    destruct (column table col_price) as [p|]; [|discriminate].
    destruct (column table col_audience) as [a|]; [|discriminate].
    intros Hzip. exists r, n, t, b, p, a.
    do 6 (split; [reflexivity|]). exact (zip_rows_nth _ _ _ _ _ _ _ Hzip).
  - exact as_float64_null.
  - intros env local_csv df'. unfold ingest_and_normalize, load.
    destruct (use_local env local_csv) as [p|].
    + destruct (read_local (read_csv env p)) as [table|e]; cbn [rbind]; [|discriminate].
      destruct (rows_of_table table) as [rows|] eqn:Hrows; [|discriminate].
      intros H. injection H as H. exists rows. split; [exact H|].
      exists table. split; [reflexivity|exact Hrows].
    + destruct (fetch_online (infer_string env) (post env)) as [rows|e];
        cbn [rbind]; [|discriminate].
      intros H. injection H as H. exists rows. split; [exact H|reflexivity].
Qed.

Lemma normalized_records_witness :
  exists r1 r2,
    ingest_and_normalize (online body_partial) None = Ok (Some (Ok [r1; r2])) /\
    rank r1 = PFloat 1 /\ is_null (rank r2) = true /\
    box_office r1 = 800%float /\ box_office r2 = 0%float /\
    avg_ticket_price r2 = 0%float /\ avg_audience_per_showing r2 = 0%float /\
    Forall (fun r => release_date r = None <-> year r = None) [r1; r2].
Proof.
  destruct normalized_records as (Hrec & _).
  assert (H : preprocess (online body_partial)
                [ {| row_rank := PFloat 1; row_name := PStr "A";
                     row_release := PStr "2022-12-25"; row_box_office := 800;
                     row_price := 50; row_audience := 90 |};
                  {| row_rank := PFloat nan; row_name := PNone;
                     row_release := PNone; row_box_office := 0;
                     row_price := 0; row_audience := 0 |} ]
              = Some (Ok [ {| rank := PFloat 1; name := PStr "A";
                              release_time_raw := PStr "2022-12-25";
                              box_office := 800; avg_ticket_price := 50;
                              avg_audience_per_showing := 90;
                              release_date := Some (Timestamp.of_date 2022 12 25);
                              year := Some 2022 |};
                           {| rank := PFloat nan; name := PNone;
                              release_time_raw := PNone;
                              box_office := 0; avg_ticket_price := 0;
                              avg_audience_per_showing := 0;
                              release_date := None; year := None |} ]))
    by (vm_compute; reflexivity).
  eexists. eexists. split; [vm_compute; reflexivity|].
  repeat split; try reflexivity.
  eapply Forall_impl; [|exact (Hrec _ _ _ H)].
  intros r Hr. exact (proj1 Hr).
Defined.

(** C9, as the specification words it, fails: a remote entry without
    rank and title is normalised into a record whose rank and name are
    null, and a snapshot row with an empty revenue cell into a record
    whose box office is null. *)
Lemma normalized_null_fields :
  (exists r,
      ingest_and_normalize (online body_anonymous) None = Ok (Some (Ok [r])) /\
      rank r = PNone /\ name r = PNone) /\
  (exists r,
      ingest_and_normalize (offline snapshot_blank_cell) (Some "snapshot.csv")
      = Ok (Some (Ok [r])) /\
      is_nan (box_office r) = true).
Proof.
  split; eexists; (split; [vm_compute; reflexivity|]); repeat split.
Qed.

(** ** The end-to-end example of the specification *)

Example main_example :
  main (online body_example) None = Some (trace_example, Ok tt) /\
  written trace_example = all_artifacts /\
  match preprocess (online body_example)
          [ {| row_rank := PInt 1; row_name := PStr "A";
               row_release := PStr "2023-01-10"; row_box_office := 1000;
               row_price := 45.5; row_audience := 120 |};
            {| row_rank := PInt 2; row_name := PStr "B";
               row_release := PStr "2022-12-25"; row_box_office := 800;
               row_price := 50; row_audience := 90 |} ] with
  | Some (Ok df) => Some (map name df, yearly df)
  | _ => None
  end
  = Some ([PStr "B"; PStr "A"], [(2022, 800%float); (2023, 1000%float)]).
Proof. repeat split; vm_compute; reflexivity. Qed.

Example main_missing_snapshot_column :
  main (offline [("Rank", [PInt 1])]) (Some "snapshot.csv")
  = Some ([Print (MsgError (KeyError [col_name; col_release; col_box_office;
                                      col_price; col_audience]));
           Print MsgHint], Ok tt).
Proof. reflexivity. Qed.

(** * Further properties of the code *)

(** ** The order of floats *)

Ltac sf_cases :=
  repeat match goal with
         | s : bool |- _ => destruct s
         end;
  cbn [SFleb SFeqb SFcompare CompOpp];
  change (Pos.compare_cont Eq) with Pos.compare;
  repeat match goal with
         | |- context [Z.compare ?a ?b] => destruct (Z.compare_spec a b); cbn [CompOpp]
         | |- context [Pos.compare ?a ?b] => destruct (Pos.compare_spec a b); cbn [CompOpp]
         end;
  subst; intros; try discriminate; try reflexivity; try lia; auto.

Lemma SFleb_trans (x y z : spec_float) :
  SFleb x y = true -> SFleb y z = true -> SFleb x z = true.
Proof. unfold SFleb. destruct x, y, z; sf_cases. Qed.

Lemma SFleb_total (x y : spec_float) :
  SFeqb x x = true -> SFeqb y y = true ->
  SFleb x y = true \/ SFleb y x = true.
Proof. unfold SFleb, SFeqb. destruct x, y; sf_cases. Qed.

Lemma SFeqb_leb (x y v : spec_float) :
  SFeqb x v = true -> SFeqb y v = true -> SFleb x y = true.
Proof. unfold SFleb, SFeqb. destruct x, y, v; sf_cases. Qed.

Lemma SFeqb_refl_of (x v : spec_float) : SFeqb x v = true -> SFeqb x x = true.
Proof. unfold SFeqb. destruct x, v; sf_cases. Qed.

Lemma float_leb_trans (x y z : float) :
  PrimFloat.leb x y = true -> PrimFloat.leb y z = true -> PrimFloat.leb x z = true.
Proof. rewrite !leb_spec. apply SFleb_trans. Qed.

Lemma float_leb_total (x y : float) :
  is_nan x = false -> is_nan y = false ->
  PrimFloat.leb x y = true \/ PrimFloat.leb y x = true.
Proof.
  unfold is_nan. rewrite !negb_false_iff, !leb_spec, !eqb_spec.
  apply SFleb_total.
Qed.

Lemma float_eqb_leb (x y v : float) :
  PrimFloat.eqb x v = true -> PrimFloat.eqb y v = true -> PrimFloat.leb x y = true.
Proof. rewrite !leb_spec, !eqb_spec. apply SFeqb_leb. Qed.

Lemma float_eqb_not_nan (x v : float) :
  PrimFloat.eqb x v = true -> is_nan x = false.
Proof.
  unfold is_nan. rewrite negb_false_iff, !eqb_spec. apply SFeqb_refl_of.
Qed.

(** ** Insertion sort, continued *)

Section SortOn.
Context {A : Type}.
Variable leb : A -> A -> bool.
Hypothesis leb_trans :
  forall a b c, leb a b = true -> leb b c = true -> leb a c = true.

Lemma sort_length (l : list A) : List.length (sort leb l) = List.length l.
Proof. symmetry. apply Permutation_length, sort_perm. Qed.

Lemma sort_In (l : list A) (x : A) : In x (sort leb l) <-> In x l.
Proof.
  split; apply Permutation_in; [apply Permutation_sym|]; apply sort_perm.
Qed.

Lemma insert_sorted_on (x : A) (l : list A) :
  (forall y, In y l -> leb x y = true \/ leb y x = true) ->
  StronglySorted (fun a b => leb a b = true) l ->
  StronglySorted (fun a b => leb a b = true) (insert leb x l).
Proof.
  intros Htot Hs. induction Hs as [|y l Hs IH Hy]; simpl.
  - constructor; constructor.
  - destruct (leb x y) eqn:Hxy.
    + constructor.
      * constructor; assumption.
      * constructor; [exact Hxy|].
        eapply Forall_impl; [|exact Hy].
        intros z Hz. eapply leb_trans; eassumption.
    + constructor.
      * apply IH. intros z Hz. apply Htot. now right.
      * apply (Permutation_Forall (insert_perm leb x l)).
        constructor; [|exact Hy].
        destruct (Htot y (or_introl eq_refl)) as [H|H]; [congruence|exact H].
Qed.

Lemma sort_sorted_on (l : list A) :
  (forall a b, In a l -> In b l -> leb a b = true \/ leb b a = true) ->
  StronglySorted (fun a b => leb a b = true) (sort leb l).
Proof.
  induction l as [|x l IH]; simpl; intros Htot.
  - constructor.
  - apply insert_sorted_on.
    + intros y Hy. apply Htot; [now left|right; now apply sort_In].
    + apply IH. intros a b Ha Hb. apply Htot; now right.
Qed.

End SortOn.

Lemma StronglySorted_app_inv {A} (R : A -> A -> Prop) (l1 l2 : list A) :
  StronglySorted R (l1 ++ l2) ->
  StronglySorted R l1 /\ StronglySorted R l2 /\
  (forall a b, In a l1 -> In b l2 -> R a b).
Proof.
  induction l1 as [|x l1 IH]; simpl; intros Hs.
  - repeat split; [constructor|exact Hs|contradiction].
  - apply StronglySorted_inv in Hs. destruct Hs as [Hs Hx].
    destruct (IH Hs) as (H1 & H2 & H12).
    apply Forall_app in Hx. destruct Hx as [Hx1 Hx2].
    repeat split; [constructor; assumption|exact H2|].
    intros a b [<-|Ha] Hb.
    + rewrite Forall_forall in Hx2. now apply Hx2.
    + now apply H12.
Qed.

Lemma filter_partition_perm {A} (p : A -> bool) (l : list A) :
  Permutation (filter p l ++ filter (fun x => negb (p x)) l) l.
Proof.
  induction l as [|x l IH]; simpl.
  - constructor.
  - destruct (p x); simpl.
    + now constructor.
    + apply Permutation_sym, Permutation_cons_app, Permutation_sym, IH.
Qed.

Lemma filter_all {A} (p : A -> bool) (l : list A) :
  Forall (fun x => p x = true) l -> filter p l = l.
Proof.
  induction 1 as [|x l Hx _ IH]; simpl; [reflexivity|].
  now rewrite Hx, IH.
Qed.

Lemma filter_none {A} (p : A -> bool) (l : list A) :
  Forall (fun x => p x = false) l -> filter p l = [].
Proof.
  induction 1 as [|x l Hx _ IH]; simpl; [reflexivity|].
  now rewrite Hx.
Qed.

Lemma filter_firstn {A} (p : A -> bool) (n : nat) (l : list A) :
  exists k, filter p (firstn n l) = firstn k (filter p l).
Proof.
  revert n. induction l as [|x l IH]; intros n.
  - exists 0%nat. now destruct n.
  - destruct n as [|n]; [exists 0%nat; reflexivity|].
    destruct (IH n) as [k Hk]. simpl.
    destruct (p x); [exists (S k); simpl; now rewrite Hk|exists k; exact Hk].
Qed.

Lemma filter_filter_implied {A} (p q : A -> bool) (l : list A) :
  (forall x, p x = true -> q x = true) ->
  filter p (filter q l) = filter p l.
Proof.
  intros Hpq. induction l as [|x l IH]; simpl; [reflexivity|].
  destruct (q x) eqn:Hq; simpl.
  - now rewrite IH.
  - destruct (p x) eqn:Hp; [|exact IH].
    rewrite (Hpq x Hp) in Hq. discriminate.
Qed.

Lemma In_firstn {A} (n : nat) (l : list A) (x : A) :
  In x (firstn n l) -> In x l.
Proof.
  intros H. rewrite <- (firstn_skipn n l). apply in_or_app. now left.
Qed.

(** ** Selection of the largest values: [nlargest] *)

Lemma nlargest_pool {A} (key : A -> float) (df : list A) :
  Permutation
    (sort (fun a b => PrimFloat.leb (key b) (key a))
          (filter (fun r => negb (is_nan (key r))) df)
     ++ filter (fun r => is_nan (key r)) df)
    df.
Proof.
  eapply perm_trans; [|apply (filter_partition_perm (fun r => negb (is_nan (key r))))].
  apply Permutation_app.
  - apply Permutation_sym, sort_perm.
  - assert (E : filter (fun r => is_nan (key r)) df
                = filter (fun r => negb (negb (is_nan (key r)))) df)
      by (apply filter_ext; intros r; now rewrite negb_involutive).
    rewrite E. apply Permutation_refl.
Qed.

Lemma nlargest_In {A} (n : nat) (key : A -> float) (df : list A) (r : A) :
  In r (nlargest n key df) -> In r df.
Proof.
  unfold nlargest. intros H. apply In_firstn in H.
  exact (Permutation_in _ (nlargest_pool key df) H).
Qed.

Lemma nlargest_length {A} (n : nat) (key : A -> float) (df : list A) :
  List.length (nlargest n key df) = Nat.min n (List.length df).
Proof.
  unfold nlargest. rewrite length_firstn.
  now rewrite (Permutation_length (nlargest_pool key df)).
Qed.

Lemma nlargest_pool_sorted (key : MovieRecord -> float) (df : list MovieRecord) :
  Forall (fun r => is_nan (key r) = false) df ->
  StronglySorted (descending key)
    (sort (fun a b => PrimFloat.leb (key b) (key a))
          (filter (fun r => negb (is_nan (key r))) df)
     ++ filter (fun r => is_nan (key r)) df).
Proof.
  intros Hnan. rewrite (filter_none (fun r => is_nan (key r)) df Hnan).
  rewrite app_nil_r. apply sort_sorted_on.
  - intros a b c Hab Hbc. eapply float_leb_trans; eassumption.
  - intros a b Ha Hb. apply filter_In in Ha, Hb.
    rewrite Forall_forall in Hnan.
    destruct (float_leb_total (key a) (key b)); auto; apply Hnan; tauto.
Qed.

Lemma nlargest_descending (n : nat) (key : MovieRecord -> float)
      (df : list MovieRecord) :
  Forall (fun r => is_nan (key r) = false) df ->
  StronglySorted (descending key) (nlargest n key df).
Proof.
  intros Hnan. pose proof (nlargest_pool_sorted key df Hnan) as Hs.
  unfold nlargest.
  rewrite <- (firstn_skipn n _) in Hs.
  now destruct (StronglySorted_app_inv _ _ _ Hs) as (Htop & _ & _).
Qed.

(** X1. [nlargest n] on a column without NaN returns [min n N] records of
    the frame, largest value first, and every record it leaves out has a
    value no larger than each record it returns. *)
Theorem nlargest_top :
  forall (n : nat) (key : MovieRecord -> float) (df : list MovieRecord),
    Forall (fun r => is_nan (key r) = false) df ->
    exists rest,
      Permutation df (nlargest n key df ++ rest) /\
      List.length (nlargest n key df) = Nat.min n (List.length df) /\
      StronglySorted (descending key) (nlargest n key df) /\
      (forall t r, In t (nlargest n key df) -> In r rest ->
                   PrimFloat.leb (key r) (key t) = true).
Proof.
  intros n key df Hnan.
  pose (pool := sort (fun a b => PrimFloat.leb (key b) (key a))
                     (filter (fun r => negb (is_nan (key r))) df)
                ++ filter (fun r => is_nan (key r)) df).
  pose proof (nlargest_pool_sorted key df Hnan) as Hsorted.
  fold pool in Hsorted.
  exists (skipn n pool).
  change (nlargest n key df) with (firstn n pool).
  rewrite <- (firstn_skipn n pool) in Hsorted.
  destruct (StronglySorted_app_inv _ _ _ Hsorted) as (Htop & _ & Hdom).
  split; [rewrite firstn_skipn; apply Permutation_sym, nlargest_pool|].
  split; [apply nlargest_length|].
  split; [exact Htop|exact Hdom].
Qed.

Lemma nlargest_top_witness :
  Forall (fun r => is_nan (avg_ticket_price r) = false) frame_example /\
  exists rest,
    Permutation frame_example (nlargest 2 avg_ticket_price frame_example ++ rest) /\
    List.length (nlargest 2 avg_ticket_price frame_example)
    = Nat.min 2 (List.length frame_example) /\
    StronglySorted (descending avg_ticket_price)
                   (nlargest 2 avg_ticket_price frame_example) /\
    (forall t r, In t (nlargest 2 avg_ticket_price frame_example) -> In r rest ->
                 PrimFloat.leb (avg_ticket_price r) (avg_ticket_price t) = true).
Proof.
  assert (H : Forall (fun r => is_nan (avg_ticket_price r) = false) frame_example)
    by (repeat constructor).
  split; [exact H|].
  exact (nlargest_top 2 avg_ticket_price frame_example H).
Defined.

(** X2. Among the records holding one value, [nlargest] returns the first
    ones of the frame, in frame order: a tie at the cut is decided by
    position. *)
Theorem nlargest_ties_first :
  forall (n : nat) (key : MovieRecord -> float) (df : list MovieRecord) (v : float),
    exists k,
      filter (has_value key v) (nlargest n key df)
      = firstn k (filter (has_value key v) df).
Proof.
  intros n key df v. unfold nlargest.
  destruct (filter_firstn (has_value key v) n
              (sort (fun a b => PrimFloat.leb (key b) (key a))
                    (filter (fun r => negb (is_nan (key r))) df)
               ++ filter (fun r => is_nan (key r)) df)) as [k Hk].
  exists k. rewrite Hk. f_equal.
  rewrite filter_app.
  rewrite (filter_none (has_value key v) (filter (fun r => is_nan (key r)) df)).
  - rewrite app_nil_r, sort_stable.
    + apply filter_filter_implied. intros r Hr.
      unfold has_value in Hr. now rewrite (float_eqb_not_nan _ _ Hr).
    + intros x y Hx Hy. exact (float_eqb_leb _ _ _ Hy Hx).
  - apply Forall_forall. intros r Hr. apply filter_In in Hr.
    destruct Hr as [_ Hr]. unfold has_value.
    destruct (PrimFloat.eqb (key r) v) eqn:Hv; [|reflexivity].
    rewrite (float_eqb_not_nan _ _ Hv) in Hr. discriminate.
Qed.

Example nlargest_example :
  map name (nlargest 2 avg_ticket_price frame_example) = [PStr "B"; PStr "A"].
Proof. reflexivity. Qed.

(** ** What the charts draw *)

Lemma StronglySorted_map {A B} (f : A -> B) (R : B -> B -> Prop) (l : list A) :
  StronglySorted (fun a b => R (f a) (f b)) l -> StronglySorted R (map f l).
Proof.
  induction 1 as [|x l Hs IH Hx]; simpl; constructor; [exact IH|].
  apply Forall_map. exact Hx.
Qed.

(** X3. Each of the two bar charts draws [min 10 N] bars; the i-th label
    and the i-th height are the title and the value of one record of the
    frame; and when the column has no NaN the heights never increase from
    left to right. *)
Theorem bar_chart_bars :
  forall (key : MovieRecord -> float) (df : list MovieRecord)
         (names : list pyval) (heights : list float),
    bar_chart key df = BarChart names heights ->
    List.length names = Nat.min 10 (List.length df) /\
    List.length heights = Nat.min 10 (List.length df) /\
    (forall i n h,
        nth_error names i = Some n -> nth_error heights i = Some h ->
        exists r, In r df /\ name r = n /\ key r = h) /\
    (Forall (fun r => is_nan (key r) = false) df ->
     StronglySorted (fun a b => PrimFloat.leb b a = true) heights).
Proof.
  intros key df names heights H. unfold bar_chart in H.
  injection H as <- <-. rewrite !length_map, nlargest_length.
  split; [reflexivity|]. split; [reflexivity|]. split.
  - intros i n h Hn Hh. rewrite nth_error_map in Hn, Hh.
    destruct (nth_error (nlargest 10 key df) i) as [r|] eqn:Hr; [|discriminate].
    injection Hn as <-. injection Hh as <-.
    exists r. repeat split. eapply nlargest_In, nth_error_In, Hr.
  - intros Hnan. apply StronglySorted_map.
    exact (nlargest_descending 10 key df Hnan).
Qed.

Lemma bar_chart_bars_witness :
  bar_chart avg_ticket_price frame_example
  = BarChart [PStr "B"; PStr "A"; PStr "C"] [50%float; 45.5%float; 45.5%float] /\
  List.length [PStr "B"; PStr "A"; PStr "C"] = Nat.min 10 (List.length frame_example) /\
  StronglySorted (fun a b => PrimFloat.leb b a = true)
                 [50%float; 45.5%float; 45.5%float].
Proof.
  assert (H : bar_chart avg_ticket_price frame_example
              = BarChart [PStr "B"; PStr "A"; PStr "C"]
                         [50%float; 45.5%float; 45.5%float]) by reflexivity.
  destruct (bar_chart_bars avg_ticket_price frame_example _ _ H)
    as (Hn & _ & _ & Hs).
  split; [exact H|]. split; [exact Hn|].
  apply Hs. repeat constructor.
Defined.

(** *** The scatter chart's labels *)
















Example scatter_chart_titles :
  scatter_chart titles_example
  = ScatterChart [(1, 10); (2, 40); (3, 30); (4, 20)]%float
      [ (PStr "B", (2, 40)); (PList [PStr "C"], (3, 30)); (PStr "A", (4, 20)) ]%float.
Proof. vm_compute. reflexivity. Qed.

(** X5. The line chart draws one point per record, in frame order, at
    (release date, box office), and labels with their title exactly the
    records that have a release date and a box office that is a number,
    in frame order. *)
Theorem line_chart_notes :
  forall df : list MovieRecord,
    exists points notes,
      line_chart df = LineChart points notes /\
      points = map (fun r => (release_date r, box_office r)) df /\
      map (fun n => (fst n, Some (fst (snd n)), snd (snd n))) notes
      = map (fun r => (name r, release_date r, box_office r)) (filter annotated df).
Proof.
  intros df. eexists. eexists. split; [reflexivity|]. split; [reflexivity|].
  induction df as [|r df IH]; simpl; [reflexivity|].
  unfold annotated at 1.
  destruct (release_date r) as [d|] eqn:Hd; [|exact IH].
  destruct (is_nan (box_office r)); simpl; [exact IH|].
  rewrite Hd. f_equal. exact IH.
Qed.

Lemma combine_fst_snd {A B} (l : list (A * B)) :
  combine (map fst l) (map snd l) = l.
Proof.
  induction l as [|[a b] l IH]; simpl; [reflexivity|]. now rewrite IH.
Qed.

(** X6. The pie chart has one wedge per row of the yearly sheet of the
    workbook: its labels and sizes, paired, are the yearly aggregate, and
    the labels are years in strictly ascending order. *)
Theorem pie_chart_wedges :
  forall df : list MovieRecord,
    exists sizes labels,
      pie_chart df = PieChart sizes labels /\
      List.length sizes = List.length labels /\
      combine labels sizes = yearly df /\
      StronglySorted Z.lt labels /\
      body (yearly_sheet df)
      = map (fun w => [CYear (Some (fst w)); CNum (snd w)]) (combine labels sizes).
Proof.
  intros df. exists (map snd (yearly df)), (map fst (yearly df)).
  split; [reflexivity|].
  split; [now rewrite !length_map|].
  split; [apply combine_fst_snd|].
  split.
  - unfold yearly. rewrite map_map. apply groupby_year_sorted.
  - rewrite combine_fst_snd. reflexivity.
Qed.

(** ** Remote ingestion, continued *)

Lemma mapM_app_raise {A B} (f : A -> result B) (good rest : list A) (bad : A)
      (e : exn) :
  (exists ys, mapM f good = Ok ys) -> f bad = Raise e ->
  mapM f (good ++ bad :: rest) = Raise e.
Proof.
  intros Hgood Hbad. induction good as [|x good IH]; simpl.
  - now rewrite Hbad.
  - destruct Hgood as [ys Hys]. simpl in Hys.
    destruct (f x) as [y|e']; [|discriminate]. cbn [rbind] in *.
    destruct (mapM f good) as [ys'|e']; [|discriminate].
    rewrite IH by (eexists; reflexivity). reflexivity.
Qed.

Lemma astype_held (infer_string : bool) (d : dtype) (v : pyval) :
  held_as v (astype infer_string d v).
Proof.
  unfold held_as.
  destruct v as [| b | z | f | s | l | kv], d, infer_string; cbn [astype];
    try (now left);
    try (right; left; eexists; split; reflexivity);
    right; right; split; reflexivity.
Qed.

(** X7. [fetch_online] returns a frame only when what it extracts at
    data.table0 is a non-empty list of objects; the frame then has one row
    per entry, in the order of the list.  The three numeric fields of a
    row are those [to_row] computes for its entry; each of the other three
    is [to_row]'s cell as the dtype of its column holds it: unchanged, or
    an integer as its float, or [None] as a null. *)
Theorem fetch_online_success :
  forall (infer_string : bool) (body : pyval) (df : list Row),
    fetch_online infer_string (Ok body) = Ok df ->
    exists items,
      extract_table body = Ok (PList items) /\
      items <> [] /\
      Forall (fun item => exists entries, item = PDict entries) items /\
      Forall2 (fun item row =>
                 exists row0,
                   to_row item = Ok row0 /\
                   row_box_office row = row_box_office row0 /\
                   row_price row = row_price row0 /\
                   row_audience row = row_audience row0 /\
                   held_as (row_rank row0) (row_rank row) /\
                   held_as (row_name row0) (row_name row) /\
                   held_as (row_release row0) (row_release row))
              items df.
Proof.
  intros infer_string body df Hfetch.
  destruct (fetch_online_frame _ _ _ Hfetch) as (items & rows & Htable & Hne & Hrows & ->).
  apply mapM_Forall2 in Hrows.
  exists items. split; [exact Htable|]. split; [exact Hne|]. split.
  - clear -Hrows. induction Hrows as [|x y xs ys Hxy _ IH]; constructor.
    + exact (to_row_ok_object _ _ Hxy).
    + exact IH.
  - unfold DataFrame. apply Forall2_map_right.
    generalize (infer_dtype (map row_rank rows)) as dr.
    generalize (infer_dtype (map row_name rows)) as dn.
    generalize (infer_dtype (map row_release rows)) as dt.
    intros dt dn dr. clear Hfetch Htable Hne.
    induction Hrows as [|item row items rows Hitem _ IH]; [constructor|].
    constructor; [|exact IH].
    exists row. cbn [row_rank row_name row_release row_box_office row_price row_audience].
    repeat split; try assumption; apply astype_held.
Qed.

Lemma fetch_online_success_witness :
  fetch_online true (Ok body_partial)
  = Ok [ {| row_rank := PFloat 1; row_name := PStr "A";
            row_release := PStr "2022-12-25"; row_box_office := 800;
            row_price := 50; row_audience := 90 |};
         {| row_rank := PFloat nan; row_name := PFloat nan;
            row_release := PFloat nan; row_box_office := 0;
            row_price := 0; row_audience := 0 |} ] /\
  fetch_online false (Ok body_partial)
  = Ok [ {| row_rank := PFloat 1; row_name := PStr "A";
            row_release := PStr "2022-12-25"; row_box_office := 800;
            row_price := 50; row_audience := 90 |};
         {| row_rank := PFloat nan; row_name := PNone;
            row_release := PNone; row_box_office := 0;
            row_price := 0; row_audience := 0 |} ] /\
  exists items,
    extract_table body_partial = Ok (PList items) /\ List.length items = 2%nat.
Proof.
  assert (H : fetch_online true (Ok body_partial)
              = Ok [ {| row_rank := PFloat 1; row_name := PStr "A";
                        row_release := PStr "2022-12-25"; row_box_office := 800;
                        row_price := 50; row_audience := 90 |};
                     {| row_rank := PFloat nan; row_name := PFloat nan;
                        row_release := PFloat nan; row_box_office := 0;
                        row_price := 0; row_audience := 0 |} ])
    by (vm_compute; reflexivity).
  split; [exact H|]. split; [vm_compute; reflexivity|].
  destruct (fetch_online_success true body_partial _ H) as (items & Htable & _ & _ & H2).
  exists items. split; [exact Htable|].
  exact (Forall2_length H2).
Defined.

(** X8. One entry [to_row] refuses makes [fetch_online] refuse the whole
    answer: when the entries before it are accepted, ingestion raises the
    exception of that entry, whatever follows it; no partial frame is
    returned. *)
Theorem fetch_online_first_error :
  forall (infer_string : bool) (body : pyval) (good rest : list pyval)
         (bad : pyval) (e : exn),
    extract_table body = Ok (PList (good ++ bad :: rest)) ->
    forallb well_formed_entry good = true ->
    to_row bad = Raise e ->
    fetch_online infer_string (Ok body) = Raise e.
Proof.
  intros infer_string body good rest bad e Htable Hgood Hbad.
  rewrite fetch_online_rows. rewrite Htable. cbn [rbind py_iter].
  rewrite (mapM_app_raise to_row good rest bad e); [reflexivity| |exact Hbad].
  apply mapM_ok. rewrite forallb_forall in Hgood.
  apply Forall_forall. intros x Hx. apply to_row_well_formed, Hgood, Hx.
Qed.

Lemma fetch_online_first_error_witness :
  fetch_online false
    (Ok (PDict [("data", PDict [("table0",
           PList ([PDict [("Irank", PInt 1)]] ++ PNone :: [entry_unparseable]))])]))
  = Raise AttributeError.
Proof.
  apply (fetch_online_first_error false _ [PDict [("Irank", PInt 1)]]
           [entry_unparseable] PNone AttributeError); reflexivity.
Defined.

(** ** Local snapshots, continued *)

Lemma has_column_aliased (df : Table) (en cn : string) :
  In (en, cn) mapper ->
  has_column (fold_left alias_step mapper df) cn
  = has_column df cn || has_column df en.
Proof.
  intros Hin. rewrite !has_column_column, (column_aliased df en cn Hin).
  destruct (column df cn), (column df en); reflexivity.
Qed.

Lemma filter_map_swap {A B} (f : A -> B) (p : B -> bool) (l : list A) :
  filter p (map f l) = map f (filter (fun x => p (f x)) l).
Proof.
  induction l as [|x l IH]; simpl; [reflexivity|].
  destruct (p (f x)); simpl; now rewrite IH.
Qed.

Lemma select_missing (df : Table) :
  filter (fun c => negb (has_column (fold_left alias_step mapper df) c)) expected
  = missing_columns df.
Proof.
  rewrite expected_mapper, filter_map_swap. unfold missing_columns. f_equal.
  apply filter_ext_in. intros [en cn] Hin. cbn [fst snd].
  now rewrite (has_column_aliased df en cn Hin).
Qed.

(** X9. [read_local] accepts a snapshot exactly when every canonical
    column is in the table under its own name or under its legacy alias.
    Otherwise it raises a [KeyError] naming, in canonical order, the
    columns that are there under neither name; the run then prints the
    diagnostic and the hint, and writes nothing. *)
Theorem read_local_missing_columns :
  forall df : Table,
    (missing_columns df = [] <-> exists out, read_local (Ok df) = Ok out) /\
    (missing_columns df <> [] ->
     read_local (Ok df) = Raise (KeyError (missing_columns df))) /\
    (forall env p,
        missing_columns df <> [] ->
        p <> "" -> path_exists env p = true -> read_csv env p = Ok df ->
        main env (Some p)
        = Some ([Print (MsgError (KeyError (missing_columns df))); Print MsgHint],
                Ok tt)).
Proof.
  intros df.
  assert (Hraise : missing_columns df <> [] ->
                   read_local (Ok df) = Raise (KeyError (missing_columns df))).
  { intros Hne. rewrite read_local_ok. unfold select. rewrite select_missing.
    destruct (missing_columns df); [congruence|reflexivity]. }
  split; [|split; [exact Hraise|]].
  - split.
    + intros Hnone. rewrite read_local_ok. unfold select.
      rewrite select_missing, Hnone. eexists; reflexivity.
    + intros [out Hout]. destruct (missing_columns df) eqn:Hm; [reflexivity|].
      rewrite Hraise in Hout by discriminate. discriminate.
  - intros env p Hne Hp Hexists Hcsv. unfold main, load, use_local.
    destruct (String.eqb_spec p "") as [->|_]; [congruence|]. cbn [negb andb].
    rewrite Hexists, Hcsv, (Hraise Hne). reflexivity.
Qed.

Lemma read_local_missing_columns_witness :
  read_local (Ok snapshot_two_columns)
  = Raise (KeyError [col_release; col_box_office; col_price; col_audience]) /\
  main (offline snapshot_two_columns) (Some "snapshot.csv")
  = Some ([Print (MsgError (KeyError [col_release; col_box_office; col_price;
                                      col_audience]));
           Print MsgHint], Ok tt).
Proof.
  destruct (read_local_missing_columns snapshot_two_columns) as (_ & Hraise & Hmain).
  split.
  - apply Hraise. discriminate.
  - apply (Hmain (offline snapshot_two_columns) "snapshot.csv");
      [discriminate|discriminate|reflexivity|reflexivity].
Defined.

Lemma column_fold_ext (aliases : list (string * string)) (df1 df2 : Table) :
  (forall c, column df1 c = column df2 c) ->
  forall c, column (fold_left alias_step aliases df1) c
            = column (fold_left alias_step aliases df2) c.
Proof.
  revert df1 df2. induction aliases as [|[en cn] rest IH]; cbn [fold_left];
    intros df1 df2 H c.
  - apply H.
  - apply IH. clear c. intros c.
    destruct (String.eqb_spec c cn) as [->|Hne].
    + now rewrite !column_alias_step_target, !H.
    + rewrite !column_alias_step_other by now apply String.eqb_neq.
      apply H.
Qed.

Lemma select_ok (df out : Table) (cs : list string) :
  select df cs = Ok out ->
  out = map (fun c => (c, match column df c with
                          | Some v => v
                          | None => []
                          end)) cs.
Proof.
  unfold select. destruct (filter _ cs); [|discriminate].
  intros H. now injection H as <-.
Qed.

Lemma read_local_canonical (cells : string -> list pyval) :
  read_local (Ok (map (fun c => (c, cells c)) expected))
  = Ok (map (fun c => (c, cells c)) expected).
Proof. reflexivity. Qed.

(** X10. What [read_local] returns has exactly the six canonical columns,
    in canonical order, whichever other columns the snapshot has and in
    whichever order the file lists them: two tables that hold the same
    column under every name are read alike. *)
Theorem read_local_columns :
  forall df : Table,
    (forall out, read_local (Ok df) = Ok out -> columns out = expected) /\
    (forall df', (forall c, column df c = column df' c) ->
                 read_local (Ok df) = read_local (Ok df')).
Proof.
  intros df. split.
  - intros out. rewrite read_local_ok. intros H.
    rewrite (select_ok _ _ _ H). unfold columns. rewrite map_map.
    erewrite map_ext; [apply map_id|]. reflexivity.
  - intros df' Hsame. rewrite !read_local_ok. apply select_ext.
    intros c _. now apply column_fold_ext.
Qed.

Lemma read_local_columns_witness :
  columns [ (col_rank, [PInt 1; PInt 2]); (col_name, [PStr "A"; PStr "B"]);
            (col_release, [PStr "2023-01-10"; PStr "2022-12-25"]);
            (col_box_office, [PFloat 1000; PFloat 800]);
            (col_price, [PFloat 45.5; PFloat 50]);
            (col_audience, [PFloat 120; PFloat 90]) ]
  = expected /\
  read_local (Ok legacy_snapshot) = read_local (Ok (rev legacy_snapshot)).
Proof.
  destruct (read_local_columns legacy_snapshot) as [Hcols Hsame].
  split.
  - apply Hcols. reflexivity.
  - apply Hsame. intros c. unfold column, legacy_snapshot. cbn [rev app lookup].
    repeat match goal with
           | |- context [String.eqb c ?k] => destruct (String.eqb_spec c k); subst
           end; try reflexivity; try congruence.
Defined.

(** X11. Reading again what [read_local] returned changes nothing: a frame
    with the six canonical columns passes through unchanged. *)
Theorem read_local_idempotent :
  forall df out : Table,
    read_local (Ok df) = Ok out -> read_local (Ok out) = Ok out.
Proof.
  intros df out. rewrite read_local_ok. intros H.
  rewrite (select_ok _ _ _ H). apply read_local_canonical.
Qed.

Lemma read_local_idempotent_witness :
  read_local (Ok legacy_snapshot)
  = Ok [ (col_rank, [PInt 1; PInt 2]); (col_name, [PStr "A"; PStr "B"]);
         (col_release, [PStr "2023-01-10"; PStr "2022-12-25"]);
         (col_box_office, [PFloat 1000; PFloat 800]);
         (col_price, [PFloat 45.5; PFloat 50]);
         (col_audience, [PFloat 120; PFloat 90]) ] /\
  read_local (Ok [ (col_rank, [PInt 1; PInt 2]); (col_name, [PStr "A"; PStr "B"]);
                   (col_release, [PStr "2023-01-10"; PStr "2022-12-25"]);
                   (col_box_office, [PFloat 1000; PFloat 800]);
                   (col_price, [PFloat 45.5; PFloat 50]);
                   (col_audience, [PFloat 120; PFloat 90]) ])
  = Ok [ (col_rank, [PInt 1; PInt 2]); (col_name, [PStr "A"; PStr "B"]);
         (col_release, [PStr "2023-01-10"; PStr "2022-12-25"]);
         (col_box_office, [PFloat 1000; PFloat 800]);
         (col_price, [PFloat 45.5; PFloat 50]);
         (col_audience, [PFloat 120; PFloat 90]) ].
Proof.
  assert (H : read_local (Ok legacy_snapshot)
              = Ok [ (col_rank, [PInt 1; PInt 2]); (col_name, [PStr "A"; PStr "B"]);
                     (col_release, [PStr "2023-01-10"; PStr "2022-12-25"]);
                     (col_box_office, [PFloat 1000; PFloat 800]);
                     (col_price, [PFloat 45.5; PFloat 50]);
                     (col_audience, [PFloat 120; PFloat 90]) ]) by reflexivity.
  split; [exact H|].
  exact (read_local_idempotent legacy_snapshot _ H).
Defined.

(** ** Normalisation, continued *)


(** X13. A row whose release cell [pd.to_datetime] refuses, or reads as
    [NaT], is not dropped by [preprocess]: the frame keeps as many records
    as rows were ingested, and such a row becomes a record with the same
    six fields and both a null release date and a null year. *)
Theorem preprocess_unparsed_dates :
  forall (env : Env) (df : list Row) (df' : list MovieRecord),
    preprocess env df = Some (Ok df') ->
    List.length df' = List.length df /\
    (forall row,
        In row df ->
        (forall d, to_datetime env (row_release row) <> Ok (Some d)) ->
        exists r,
          In r df' /\
          rank r = row_rank row /\ name r = row_name row /\
          release_time_raw r = row_release row /\
          box_office r = row_box_office row /\
          avg_ticket_price r = row_price row /\
          avg_audience_per_showing r = row_audience row /\
          release_date r = None /\ year r = None).
Proof.
  intros env df df' Hpre. apply preprocess_ok in Hpre. subst df'. split.
  - rewrite <- (Permutation_length (sort_values_perm _)). apply length_map.
  - intros row Hrow Hdate. exists (with_dates env row). split.
    + apply (Permutation_in _ (sort_values_perm _)). now apply in_map.
    + assert (Hnone : _parse_date env (row_release row) = None).
      { unfold _parse_date.
        destruct (to_datetime env (row_release row)) as [[d|]|e];
          [now elim (Hdate d)|reflexivity|reflexivity]. }
      unfold with_dates. cbn. rewrite Hnone. repeat split.
Qed.

Lemma preprocess_unparsed_dates_witness :
  preprocess (online PNone) rows_example
  = Some (Ok (sort_values (map (with_dates (online PNone)) rows_example))) /\
  List.length (sort_values (map (with_dates (online PNone)) rows_example))
  = List.length rows_example.
Proof.
  assert (H : preprocess (online PNone) rows_example
              = Some (Ok (sort_values (map (with_dates (online PNone)) rows_example))))
    by reflexivity.
  split; [exact H|].
  exact (proj1 (preprocess_unparsed_dates (online PNone) rows_example _ H)).
Defined.

(** ** The yearly groups *)

Lemma group_insert_concat (y : Z) (v : float) (groups : list (Z * list float)) :
  Permutation (List.concat (map snd (group_insert y v groups)))
              (v :: List.concat (map snd groups)).
Proof.
  induction groups as [|[y' vs] rest IH]; simpl.
  - apply Permutation_refl.
  - destruct (y ?= y'); simpl.
    + apply Permutation_refl.
    + apply Permutation_refl.
    + eapply perm_trans; [apply Permutation_app_head, IH|].
      apply Permutation_sym, Permutation_middle.
Qed.

Lemma group_insert_nonempty (y : Z) (v : float) (groups : list (Z * list float)) :
  Forall (fun g => snd g <> []) groups ->
  Forall (fun g => snd g <> []) (group_insert y v groups).
Proof.
  induction 1 as [|[y' vs] rest Hg Hrest IH]; simpl.
  - repeat constructor. discriminate.
  - destruct (y ?= y'); constructor; simpl; try discriminate; try assumption.
    now constructor.
Qed.

(** X14. [groupby] puts every record that has a year in exactly one
    group: the groups, taken together, hold the box offices of the dated
    records, each once; no group is empty; and the aggregate has no row at
    all exactly when no record has a year. *)
Theorem groupby_year_partition :
  forall df : list MovieRecord,
    Permutation (List.concat (map snd (groupby_year df)))
                (map box_office (filter dated df)) /\
    Forall (fun g => snd g <> []) (groupby_year df) /\
    (yearly df = [] <-> Forall (fun r => year r = None) df).
Proof.
  intros df. split; [|split].
  - induction df as [|r df IH]; simpl; [constructor|].
    unfold dated at 1. destruct (year r) as [y|]; [|exact IH].
    eapply perm_trans; [apply group_insert_concat|].
    simpl. now constructor.
  - induction df as [|r df IH]; simpl; [constructor|].
    destruct (year r); [now apply group_insert_nonempty|exact IH].
  - split.
    + intros Hempty. apply Forall_forall. intros r Hr.
      destruct (year r) as [y|] eqn:Hy; [|reflexivity].
      assert (Hin : In y (map fst (groupby_year df)))
        by (apply groupby_year_keys; exists r; auto).
      unfold yearly in Hempty. apply map_eq_nil in Hempty.
      rewrite Hempty in Hin. contradiction.
    + intros Hnone. unfold yearly.
      destruct (groupby_year df) as [|[y vs] rest] eqn:Hg; [reflexivity|].
      assert (Hin : In y (map fst (groupby_year df)))
        by (rewrite Hg; now left).
      apply groupby_year_keys in Hin. destruct Hin as (r & Hr & Hy).
      rewrite Forall_forall in Hnone. rewrite (Hnone r Hr) in Hy. discriminate.
Qed.

(** ** The run, continued *)

(** X15. The service is asked only when no snapshot is usable: a path
    that is empty or does not exist gives the run of no path at all, a
    usable path gives a run that does not depend on what the service would
    answer, and the run without a path does not depend on what reading a
    snapshot would give. *)
Theorem main_source_choice :
  forall (env : Env) (p : string),
    (p = "" \/ path_exists env p = false -> main env (Some p) = main env None) /\
    (p <> "" -> path_exists env p = true ->
     forall response, main (with_post env response) (Some p) = main env (Some p)) /\
    (forall reader, main (with_read_csv env reader) None = main env None).
Proof.
  intros env p. split; [|split].
  - intros [-> | Hp]; unfold main, load, use_local; cbn [String.eqb negb andb].
    + reflexivity.
    + rewrite Hp, andb_false_r. reflexivity.
  - intros Hne Hp response. unfold main, load, use_local.
    cbn [path_exists with_post]. rewrite Hp.
    destruct (String.eqb_spec p "") as [->|_]; [congruence|].
    reflexivity.
  - intros reader. reflexivity.
Qed.

Lemma main_source_choice_witness :
  main (online body_example) (Some "nowhere.csv") = main (online body_example) None /\
  main (with_post (offline legacy_snapshot) (Ok body_example)) (Some "snapshot.csv")
  = main (offline legacy_snapshot) (Some "snapshot.csv").
Proof.
  split.
  - apply (proj1 (main_source_choice (online body_example) "nowhere.csv")).
    right. reflexivity.
  - apply (proj1 (proj2 (main_source_choice (offline legacy_snapshot) "snapshot.csv")));
      [discriminate|reflexivity].
Defined.

Ltac file_cases :=
  let H := fresh "H" in
  intros H; cbn [In] in H;
  repeat match goal with
         | H : _ \/ _ |- _ => destruct H as [H|H]
         | H : False |- _ => contradiction
         | H : _ = WriteFile _ _ |- _ =>
             first [discriminate H | injection H as <- <-]
         end;
  reflexivity.

(** Every file of steps 3 to 5 holds what is computed from the frame. *)
Lemma produce_files (env : Env) (df : list MovieRecord) (a : artifact) (c : content) :
  In (WriteFile a c) (fst (produce env df)) -> artifact_content df a = Some c.
Proof.
  unfold produce, export_all, chart_line_release_vs_boxoffice,
    chart_pie_share_by_year, chart_bar_top10_by_price,
    chart_bar_top10_by_audience, chart_scatter_price_vs_boxoffice, emit, lift.
  cbn [bind tell ret fst snd app].
  destruct (emit_raises env FileCsv _); cbn [bind tell ret fst snd app];
    try file_cases;
    destruct (emit_raises env FileJson _); cbn [bind tell ret fst snd app];
    try file_cases;
    destruct (emit_raises env FileXlsx _); cbn [bind tell ret fst snd app];
    try file_cases;
    destruct (emit_raises env ChartLine _); cbn [bind tell ret fst snd app];
    try file_cases;
    destruct (emit_raises env ChartPie _); cbn [bind tell ret fst snd app];
    try file_cases;
    destruct (nlargest_dtype df); cbn [bind tell ret fst snd app];
    try file_cases;
    destruct (emit_raises env ChartPrice _); cbn [bind tell ret fst snd app];
    try file_cases;
    destruct (emit_raises env ChartAudience _); cbn [bind tell ret fst snd app];
    try file_cases;
    destruct (emit_raises env ChartScatter _); cbn [bind tell ret fst snd app];
    file_cases.
Qed.

Lemma produce_report (env : Env) (df : list MovieRecord) :
  (exists rest, fst (produce env df) = MakeDirs :: rest) /\
  (forall e, snd (produce env df) = Raise e -> printed (fst (produce env df)) = []) /\
  (snd (produce env df) = Ok tt ->
   printed (fst (produce env df))
   = [MsgExported [("csv", FileCsv); ("json", FileJson); ("xlsx", FileXlsx)];
      MsgCharts [ChartLine; ChartPie; ChartPrice; ChartAudience; ChartScatter]]).
Proof.
  unfold produce, export_all, chart_line_release_vs_boxoffice,
    chart_pie_share_by_year, chart_bar_top10_by_price,
    chart_bar_top10_by_audience, chart_scatter_price_vs_boxoffice, emit, lift.
  cbn [bind tell ret fst snd app].
  destruct (emit_raises env FileCsv _); cbn [bind tell ret fst snd app];
    [repeat split; [eexists; reflexivity|discriminate]|].
  destruct (emit_raises env FileJson _); cbn [bind tell ret fst snd app];
    [repeat split; [eexists; reflexivity|discriminate]|].
  destruct (emit_raises env FileXlsx _); cbn [bind tell ret fst snd app];
    [repeat split; [eexists; reflexivity|discriminate]|].
  destruct (emit_raises env ChartLine _); cbn [bind tell ret fst snd app];
    [repeat split; [eexists; reflexivity|discriminate]|].
  destruct (emit_raises env ChartPie _); cbn [bind tell ret fst snd app];
    [repeat split; [eexists; reflexivity|discriminate]|].
  destruct (nlargest_dtype df); cbn [bind tell ret fst snd app];
    [|repeat split; [eexists; reflexivity|discriminate]].
  destruct (emit_raises env ChartPrice _); cbn [bind tell ret fst snd app];
    [repeat split; [eexists; reflexivity|discriminate]|].
  destruct (emit_raises env ChartAudience _); cbn [bind tell ret fst snd app];
    [repeat split; [eexists; reflexivity|discriminate]|].
  destruct (emit_raises env ChartScatter _); cbn [bind tell ret fst snd app];
    repeat split; try (eexists; reflexivity); discriminate.
Qed.

(** X16. Once ingestion has succeeded, a run whose normalisation raises
    ends with that exception and has created, written and printed nothing.
    Otherwise [main] creates the output folder before anything else, every
    file it writes holds what is computed from the normalised frame, and it
    prints its report of the three exports and the five charts only when
    all of them are written: a run that an exception ends prints nothing. *)
Theorem main_report :
  forall (env : Env) (local_csv : option string) (rows : list Row)
         (trace : list effect) (outcome : result unit),
    load env local_csv = Ok (Some rows) ->
    main env local_csv = Some (trace, outcome) ->
    (forall e, outcome = Raise e -> printed trace = []) /\
    match preprocess env rows with
    | Some (Raise e) => trace = [] /\ outcome = Raise e
    | Some (Ok df) =>
        (exists rest, trace = MakeDirs :: rest) /\
        (forall a c, In (WriteFile a c) trace -> artifact_content df a = Some c) /\
        (outcome = Ok tt ->
         printed trace
         = [MsgExported [("csv", FileCsv); ("json", FileJson); ("xlsx", FileXlsx)];
            MsgCharts [ChartLine; ChartPie; ChartPrice; ChartAudience; ChartScatter]])
    | None => False
    end.
Proof.
  intros env local_csv rows trace outcome Hload. unfold main. rewrite Hload.
  destruct (preprocess env rows) as [[df|e]|]; [| |discriminate].
  - intros H. injection H as Hrun.
    destruct (produce_report env df) as (Hdir & Hraise & Hok).
    pose proof (produce_files env df) as Hfiles.
    rewrite Hrun in Hdir, Hraise, Hok, Hfiles. cbn [fst snd] in *.
    repeat split; assumption.
  - intros H. injection H as <- <-. repeat split.
Qed.

Lemma main_report_witness :
  load (online body_negative) None
  = Ok (Some [ {| row_rank := PInt 1; row_name := PStr "A";
                  row_release := PStr "2023-01-10"; row_box_office := (-5)%float;
                  row_price := 45.5; row_audience := 120 |} ]) /\
  exists trace,
    main (online body_negative) None = Some (trace, Raise (ValueError NegativeWedge)) /\
    printed trace = [].
Proof.
  assert (Hload : load (online body_negative) None
                  = Ok (Some [ {| row_rank := PInt 1; row_name := PStr "A";
                                  row_release := PStr "2023-01-10";
                                  row_box_office := (-5)%float;
                                  row_price := 45.5; row_audience := 120 |} ]))
    by (vm_compute; reflexivity).
  split; [exact Hload|].
  eexists.
  assert (Hmain : main (online body_negative) None
                  = Some (fst (produce (online body_negative)
                                 [ {| rank := PInt 1; name := PStr "A";
                                      release_time_raw := PStr "2023-01-10";
                                      box_office := (-5)%float;
                                      avg_ticket_price := 45.5;
                                      avg_audience_per_showing := 120;
                                      release_date := Some (Timestamp.of_date 2023 1 10);
                                      year := Some 2023 |} ]),
                          Raise (ValueError NegativeWedge)))
    by (vm_compute; reflexivity).
  split; [exact Hmain|].
  destruct (main_report _ _ _ _ _ Hload Hmain) as (Hraise & _).
  exact (Hraise _ eq_refl).
Defined.

(** ** From the answer of the service to the csv file *)

Lemma to_row_rank (entries : list (string * pyval)) (row : Row) :
  to_row (PDict entries) = Ok row -> row_rank row = entry_get entries "Irank".
Proof.
  rewrite to_row_object.
  destruct (defaulted_float (lookup "BoxOffice" entries)); [|discriminate].
  destruct (defaulted_float (lookup "AvgBoxOffice" entries)); [|discriminate].
  destruct (defaulted_float (lookup "AvgAudienceCount" entries)); [|discriminate].
  cbn [rbind]. intros H. now injection H as <-.
Qed.

(** The frame keeps the rank cells among those the model orders. *)
Lemma astype_rank_index (infer_string : bool) (d : dtype) (v : pyval) :
  rank_index v <> None -> rank_index (astype infer_string d v) <> None.
Proof.
  destruct d, v, infer_string; cbn [astype rank_index]; intros H;
    try exact H; discriminate.
Qed.

Lemma written_In (t : list effect) (a : artifact) :
  In a (written t) -> exists c, In (WriteFile a c) t.
Proof.
  induction t as [|e t IH]; simpl; [contradiction|].
  destruct e as [| a' c' | m]; simpl; intros H.
  - destruct (IH H) as [c Hc]. exists c. now right.
  - destruct H as [->|H]; [exists c'; now left|].
    destruct (IH H) as [c Hc]. exists c. now right.
  - destruct (IH H) as [c Hc]. exists c. now right.
Qed.

(** X18. When the service answers with a table0 of N >= 1 objects whose
    numeric values [float] accepts and whose ranks are numbers or
    missing, the run without a snapshot is defined, any csv file it writes
    has exactly N rows, and it writes one whenever it returns. *)
Theorem main_csv_rows :
  forall (env : Env) (local_csv : option string) (answer : pyval)
         (items : list pyval),
    use_local env local_csv = None ->
    post env = Ok answer ->
    extract_table answer = Ok (PList items) ->
    items <> [] ->
    forallb well_formed_entry items = true ->
    forallb ranked_entry items = true ->
    exists trace outcome,
      main env local_csv = Some (trace, outcome) /\
      (forall c, In (WriteFile FileCsv c) trace ->
                 List.length (body (csv_sheet c)) = List.length items) /\
      (outcome = Ok tt -> exists c, In (WriteFile FileCsv c) trace).
Proof.
  intros env local_csv body0 items Hlocal Hpost Htable Hne Hwf Hranked.
  assert (Hrows : exists df, mapM to_row items = Ok df).
  { apply mapM_ok. rewrite forallb_forall in Hwf.
    apply Forall_forall. intros x Hx. apply to_row_well_formed, Hwf, Hx. }
  destruct Hrows as [df Hdf].
  pose proof (mapM_length _ _ _ Hdf) as Hlen.
  assert (Hranks0 : Forall (fun row => rank_index (row_rank row) <> None) df).
  { pose proof (mapM_Forall2 _ _ _ Hdf) as H2.
    rewrite forallb_forall in Hranked.
    clear -H2 Hranked. induction H2 as [|item row items df Hrow _ IH].
    - constructor.
    - constructor.
      + specialize (Hranked item (or_introl eq_refl)).
        destruct item as [| | | | | | entries]; try discriminate.
        rewrite (to_row_rank _ _ Hrow). simpl in Hranked.
        destruct (rank_index (entry_get entries "Irank")); [discriminate|discriminate].
      + apply IH. intros x Hx. apply Hranked. now right. }
  set (frame := DataFrame (infer_string env) df).
  assert (Hfetch : fetch_online (infer_string env) (Ok body0) = Ok frame).
  { rewrite fetch_online_rows, Htable. cbn [rbind py_iter].
    rewrite Hdf. cbn [rbind]. destruct df; [|reflexivity].
    destruct items; [congruence|discriminate]. }
  assert (Hranks : Forall (fun row => rank_index (row_rank row) <> None) frame).
  { unfold frame, DataFrame. apply Forall_map. cbn [row_rank].
    eapply Forall_impl; [|exact Hranks0].
    intros row H. apply astype_rank_index, H. }
  destruct (one_timezone (map release_date (map (with_dates env) frame))) eqn:Hzone.
  - exists (fst (produce env (sort_values (map (with_dates env) frame)))),
           (snd (produce env (sort_values (map (with_dates env) frame)))).
    split; [|split].
    + unfold main, load, preprocess. rewrite Hlocal, Hpost, Hfetch. cbn [rbind].
      rewrite Hzone, (sortable_with_dates env frame Hranks).
      now destruct (produce env _).
    + intros c Hc. apply produce_files in Hc. unfold artifact_content in Hc.
      injection Hc as <-. unfold to_csv, csv_sheet, to_sheet. cbn [body].
      rewrite length_map, <- (Permutation_length (sort_values_perm _)), length_map.
      unfold frame. rewrite DataFrame_length. exact Hlen.
    + intros Hok.
      destruct (produce_prefix env (sort_values (map (with_dates env) frame)))
        as (n & Hw & Hn & _).
      apply written_In. rewrite Hw, (Hn Hok). simpl. now left.
  - exists [], (Raise (ValueError MixedTimezones)). split; [|split].
    + unfold main, load, preprocess. rewrite Hlocal, Hpost, Hfetch. cbn [rbind].
      now rewrite Hzone.
    + intros c [].
    + discriminate.
Qed.

Lemma main_csv_rows_witness :
  exists trace outcome,
    main (online body_example) None = Some (trace, outcome) /\
    (forall c, In (WriteFile FileCsv c) trace ->
               List.length (body (csv_sheet c)) = 2%nat) /\
    (outcome = Ok tt -> exists c, In (WriteFile FileCsv c) trace).
Proof.
  refine (main_csv_rows (online body_example) None body_example _
            eq_refl eq_refl eq_refl _ eq_refl eq_refl).
  discriminate.
Defined.

(** ** The order of a normalised frame does not depend on the order of
    ingestion *)




(** ** Remote entries, continued *)

(** X20. [to_row] reads an entry through its six keys only: two entries
    that agree on Irank, MovieName, ReleaseTime, BoxOffice, AvgBoxOffice
    and AvgAudienceCount are mapped alike, whatever other keys they hold
    and in whatever order. *)
Theorem to_row_six_keys :
  forall e1 e2 : list (string * pyval),
    (forall k,
        In k ["Irank"; "MovieName"; "ReleaseTime"; "BoxOffice"; "AvgBoxOffice";
              "AvgAudienceCount"] ->
        lookup k e1 = lookup k e2) ->
    to_row (PDict e1) = to_row (PDict e2).
Proof.
  intros e1 e2 H. rewrite !to_row_object. unfold entry_get.
  rewrite !(H "Irank"), !(H "MovieName"), !(H "ReleaseTime"),
    !(H "BoxOffice"), !(H "AvgBoxOffice"), !(H "AvgAudienceCount");
    try reflexivity; cbn [In]; auto 10.
Qed.

Lemma to_row_six_keys_witness :
  to_row (PDict [("Irank", PInt 1); ("MovieName", PStr "A")])
  = to_row (PDict [("Director", PStr "X"); ("MovieName", PStr "A"); ("Irank", PInt 1)]).
Proof.
  apply to_row_six_keys. intros k Hk. cbn [In] in Hk.
  repeat match goal with
         | H : _ \/ _ |- _ => destruct H as [H|H]
         | H : False |- _ => contradiction
         end; subst; reflexivity.
Defined.
